(** * Unreal Engine window manager: model and verification

    A shallow embedding of [unreal_window_manager.py].  The manager object
    ([self]) and the operating system are threaded through a small state,
    exception and trace monad: every call into [win32gui], [win32api] and
    [time] is answered by an arbitrary operating system [OSApi] and recorded,
    with its answer, in the trace of the computation.  Console output
    ([print]) is not modelled.  Durations and clock readings are integers
    counting milliseconds. *)

From Stdlib Require Import ZArith String Ascii List Bool Lia DecimalString.
From stdpp Require Import base tactics option list gmap strings.

Local Open Scope Z_scope.
#[local] Set Warnings "-clear-no-such-hyp".

(** ** Python values and helpers *)

(** A Python exception, identified by its text. *)
Definition exn := string.

Inductive result (A : Type) : Type :=
| Ok (a : A)
| Raise (e : exn).
Arguments Ok {A} a.
Arguments Raise {A} e.

Module Py.

(** [needle in hay] on [str]: [needle] occurs as a contiguous substring. *)
Fixpoint contains (needle hay : string) : bool :=
  String.prefix needle hay
  || match hay with
     | EmptyString => false
     | String _ rest => contains needle rest
     end.

(** [str(n)] for an [int]. *)
Definition str_int (n : Z) : string := NilZero.string_of_int (Z.to_int n).

Fixpoint join (sep : string) (l : list string) : string :=
  match l with
  | [] => EmptyString
  | [s] => s
  | s :: rest => s +:+ sep +:+ join sep rest
  end.

(** [str(l)] for a [list] of [int]: ["[4, 2, 3, 1]"]. *)
Definition str_list (l : list Z) : string :=
  "[" +:+ join ", " (map str_int l) +:+ "]".

(** [l[i]]: negative indices count from the end, anything out of range
    raises [IndexError]. *)
Definition index {A} (l : list A) (i : Z) : result A :=
  let n := Z.of_nat (length l) in
  let j := if i <? 0 then i + n else i in
  if (0 <=? j) && (j <? n) then
    match l !! Z.to_nat j with
    | Some a => Ok a
    | None => Raise "list index out of range"
    end
  else Raise "list index out of range".

(** [enumerate(l)], counting from [start]. *)
Fixpoint enumerate_from {A} (start : Z) (l : list A) : list (Z * A) :=
  match l with
  | [] => []
  | a :: rest => (start, a) :: enumerate_from (start + 1) rest
  end.
Definition enumerate {A} (l : list A) : list (Z * A) := enumerate_from 0 l.

(** [range(n)]. *)
Definition range (n : Z) : list Z := seqZ 0 n.

(** A [dict] with [str] keys in insertion order, as Python keeps it:
    assigning to a present key replaces its value in place, assigning to
    an absent key appends. *)
Definition dict (V : Type) := list (string * V).

Fixpoint dict_get {V} (d : dict V) (k : string) : option V :=
  match d with
  | [] => None
  | (k', v) :: rest => if String.eqb k k' then Some v else dict_get rest k
  end.

Fixpoint dict_set {V} (d : dict V) (k : string) (v : V) : dict V :=
  match d with
  | [] => [(k, v)]
  | (k', v') :: rest =>
      if String.eqb k k' then (k', v) :: rest else (k', v') :: dict_set rest k v
  end.

Definition dict_keys {V} (d : dict V) : list string := map fst d.

End Py.

(** ** Constants of [win32con] used by the manager *)

Module win32con.
Definition WS_POPUP : Z := -2147483648.
Definition WS_MINIMIZE : Z := 0x20000000.
Definition WS_VISIBLE : Z := 0x10000000.
Definition WS_MAXIMIZE : Z := 0x01000000.
Definition WS_CAPTION : Z := 0x00C00000.
Definition WS_BORDER : Z := 0x00800000.
Definition WS_DLGFRAME : Z := 0x00400000.
Definition WS_SYSMENU : Z := 0x00080000.
Definition WS_THICKFRAME : Z := 0x00040000.
Definition WS_EX_DLGMODALFRAME : Z := 0x00000001.
Definition WS_EX_WINDOWEDGE : Z := 0x00000100.
Definition WS_EX_CLIENTEDGE : Z := 0x00000200.
Definition WS_EX_STATICEDGE : Z := 0x00020000.
Definition GWL_STYLE : Z := -16.
Definition GWL_EXSTYLE : Z := -20.
Definition SW_SHOW : Z := 5.
Definition SW_RESTORE : Z := 9.
Definition HWND_TOP : Z := 0.
Definition HWND_TOPMOST : Z := -1.
Definition HWND_NOTOPMOST : Z := -2.
Definition SWP_NOSIZE : Z := 0x0001.
Definition SWP_NOMOVE : Z := 0x0002.
Definition SWP_NOZORDER : Z := 0x0004.
Definition SWP_FRAMECHANGED : Z := 0x0020.
Definition SWP_SHOWWINDOW : Z := 0x0040.
End win32con.

(** ** The operating system and the trace of calls *)

Definition rect : Type := Z * Z * Z * Z.

(** What the program did, in order: every call that leaves the process,
    with the answer it got; the lock; and the entry of [position_window]. *)
Inductive event : Type :=
| EnumWindowsEv (hwnds : list Z)
| IsWindowVisibleEv (hwnd : Z) (r : bool)
| GetWindowTextEv (hwnd : Z) (title : string)
| IsIconicEv (hwnd : Z) (r : result bool)
| ShowWindowEv (hwnd cmd : Z) (r : result unit)
| GetWindowLongEv (hwnd idx : Z) (r : result Z)
| SetWindowLongEv (hwnd idx val : Z) (r : result unit)
| SetWindowPosEv (hwnd after x y cx cy flags : Z) (r : result unit)
| GetWindowRectEv (hwnd : Z) (r : result rect)
| CreateRectRgnEv (left top right bottom : Z) (r : result Z)
| SetWindowRgnEv (hwnd rgn : Z) (redraw : bool) (r : result unit)
| SleepEv (ms : Z)
| TimeEv (now : Z)
| LockAcquireEv
| LockReleaseEv
| PositionWindowEv (hwnd x y width height retries : Z).

(** The operating system: a world [W] and, for each call, the new world
    and the answer.  Nothing is assumed of it.  Enumeration, visibility and
    title queries always answer (pywin32 gives the empty title for a window
    it cannot read); the other window calls may raise. *)
Record OSApi (W : Type) : Type := {
  os_EnumWindows : W -> W * list Z;
  os_IsWindowVisible : Z -> W -> W * bool;
  os_GetWindowText : Z -> W -> W * string;
  os_IsIconic : Z -> W -> W * result bool;
  os_ShowWindow : Z -> Z -> W -> W * result unit;
  os_GetWindowLong : Z -> Z -> W -> W * result Z;
  os_SetWindowLong : Z -> Z -> Z -> W -> W * result unit;
  os_SetWindowPos : Z -> Z -> Z -> Z -> Z -> Z -> Z -> W -> W * result unit;
  os_GetWindowRect : Z -> W -> W * result rect;
  os_CreateRectRgn : Z -> Z -> Z -> Z -> W -> W * result Z;
  os_SetWindowRgn : Z -> Z -> bool -> W -> W * result unit;
  os_sleep : Z -> W -> W;
  os_time : W -> W * Z;
}.
Arguments os_EnumWindows {W} _ _.
Arguments os_IsWindowVisible {W} _ _ _.
Arguments os_GetWindowText {W} _ _ _.
Arguments os_IsIconic {W} _ _ _.
Arguments os_ShowWindow {W} _ _ _ _.
Arguments os_GetWindowLong {W} _ _ _ _.
Arguments os_SetWindowLong {W} _ _ _ _ _.
Arguments os_SetWindowPos {W} _ _ _ _ _ _ _ _ _.
Arguments os_GetWindowRect {W} _ _ _.
Arguments os_CreateRectRgn {W} _ _ _ _ _ _.
Arguments os_SetWindowRgn {W} _ _ _ _ _.
Arguments os_sleep {W} _ _ _.
Arguments os_time {W} _ _.

(** ** The manager object

    The fields of [self] that the methods read or write.  [found_windows]
    is never used after [__init__]; [lock] shows as the two lock events. *)

Record Manager : Type := {
  window_handles : gmap Z Z;
  current_order : list Z;
  borderless : bool;
  hide_titlebar : bool;
  titlebar_height : Z;
  positions : list rect;
  window_keys : list string;
}.

(** [UnrealWindowManager.__init__] *)
Definition init (borderless hide_titlebar : bool) : Manager := {|
  window_handles := ∅;
  current_order := [4; 2; 3; 1];
  borderless := borderless;
  hide_titlebar := hide_titlebar;
  titlebar_height := 32;
  positions := [(0, 0, 480, 800); (480, 0, 480, 800);
                (960, 0, 480, 800); (1440, 0, 480, 800)];
  window_keys := ["Server"; "Client 1"; "Client 2"; "Client 3"]%string;
|}.

Definition set_window_handles (h : gmap Z Z) (m : Manager) : Manager := {|
  window_handles := h;
  current_order := current_order m;
  borderless := borderless m;
  hide_titlebar := hide_titlebar m;
  titlebar_height := titlebar_height m;
  positions := positions m;
  window_keys := window_keys m;
|}.

Definition set_current_order (o : list Z) (m : Manager) : Manager := {|
  window_handles := window_handles m;
  current_order := o;
  borderless := borderless m;
  hide_titlebar := hide_titlebar m;
  titlebar_height := titlebar_height m;
  positions := positions m;
  window_keys := window_keys m;
|}.

(** The dictionary returned by [reorder_windows]; [order] is absent from
    the validation failures. *)
Record reorder_result : Type := {
  success : bool;
  message : string;
  order : option (list Z);
}.

(** The dictionary returned by [get_status]. *)
Record status_result : Type := {
  windows_found : nat;
  status_current_order : list Z;
  window_mapping : list (string * string);
}.

(** ** The monad *)

Record state (W : Type) : Type := State { self : Manager; world : W }.
Arguments State {W} _ _.
Arguments self {W} _.
Arguments world {W} _.

Definition M (W A : Type) : Type := state W -> state W * list event * result A.

Definition ret {W A} (a : A) : M W A := fun st => (st, [], Ok a).

Definition raise {W A} (e : exn) : M W A := fun st => (st, [], Raise e).

Definition bind {W A B} (m : M W A) (f : A -> M W B) : M W B :=
  fun st =>
    match m st with
    | (st1, t1, Ok a) =>
        match f a st1 with
        | (st2, t2, r) => (st2, t1 ++ t2, r)
        end
    | (st1, t1, Raise e) => (st1, t1, Raise e)
    end.

(** [try: m except Exception as e: ...] with the handler left to the
    caller: the outcome of [m] as a value. *)
Definition catch {W A} (m : M W A) : M W (result A) :=
  fun st => match m st with (st1, t1, r) => (st1, t1, Ok r) end.

Definition lift {W A} (r : result A) : M W A :=
  match r with Ok a => ret a | Raise e => raise e end.

Definition get_self {W} : M W Manager := fun st => (st, [], Ok (self st)).

Definition put_self {W} (m : Manager) : M W unit :=
  fun st => (State m (world st), [], Ok tt).

Definition emit {W} (e : event) : M W unit := fun st => (st, [e], Ok tt).

Declare Scope monad_scope.
Delimit Scope monad_scope with monad.
Notation "x <- m ;; k" := (bind m (fun x => k))
  (at level 100, m at level 99, k at level 200, right associativity) : monad_scope.
Notation "m ;; k" := (bind m (fun _ => k))
  (at level 100, k at level 200, right associativity) : monad_scope.
Local Open Scope monad_scope.

(** A call whose answer is a value. *)
Definition os_call {W A} (f : W -> W * A) (ev : A -> event) : M W A :=
  fun st =>
    match f (world st) with
    | (w, a) => (State (self st) w, [ev a], Ok a)
    end.

(** A call that may raise. *)
Definition os_try_call {W A} (f : W -> W * result A) (ev : result A -> event) : M W A :=
  fun st =>
    match f (world st) with
    | (w, r) => (State (self st) w, [ev r], r)
    end.

(** The three components of a run. *)
Definition final {W A} (x : state W * list event * result A) : state W := x.1.1.
Definition trace {W A} (x : state W * list event * result A) : list event := x.1.2.
Definition outcome {W A} (x : state W * list event * result A) : result A := x.2.

(** [m] emits only events of class [E]. *)
Definition emits {W A} (E : event -> Prop) (m : M W A) : Prop :=
  forall st, Forall E (trace (m st)).

(** [m] leaves the part [f] of the manager object as it is. *)
Definition preserves {W A X} (f : Manager -> X) (m : M W A) : Prop :=
  forall st, f (self (final (m st))) = f (self st).

(** ** Reading a trace *)

Fixpoint count (p : event -> bool) (tr : list event) : nat :=
  match tr with
  | [] => 0%nat
  | e :: rest => if p e then S (count p rest) else count p rest
  end.

(** Every attempt of [position_window] opens with its one [IsIconic]. *)
Definition is_attempt_start (e : event) : bool :=
  match e with IsIconicEv _ _ => true | _ => false end.

(** The backoff between two attempts is the only [sleep(0.2)]. *)
Definition is_backoff (e : event) : bool :=
  match e with SleepEv ms => ms =? 200 | _ => false end.

Definition attempts (tr : list event) : nat := count is_attempt_start tr.
Definition backoffs (tr : list event) : nat := count is_backoff tr.

Definition is_lock (e : event) : bool :=
  match e with LockAcquireEv | LockReleaseEv => true | _ => false end.

Definition is_position_call (e : event) : bool :=
  match e with PositionWindowEv _ _ _ _ _ _ => true | _ => false end.

(** The calls that only look at the desktop or wait. *)
Definition is_read_only (e : event) : bool :=
  match e with
  | EnumWindowsEv _ | IsWindowVisibleEv _ _ | GetWindowTextEv _ _
  | SleepEv _ | TimeEv _ => true
  | _ => false
  end.

(** The calls of one attempt on a window. *)
Definition is_attempt_ev (e : event) : bool :=
  match e with
  | IsIconicEv _ _ | ShowWindowEv _ _ _ | GetWindowLongEv _ _ _
  | SetWindowLongEv _ _ _ _ | SetWindowPosEv _ _ _ _ _ _ _ _
  | GetWindowRectEv _ _ | CreateRectRgnEv _ _ _ _ _ | SetWindowRgnEv _ _ _ _
  | SleepEv _ => true
  | _ => false
  end.

(** The placements asked for, in order: the window and its target
    rectangle [(x, y, width, height)] at each entry of [position_window]. *)
Fixpoint placements (tr : list event) : list (Z * rect) :=
  match tr with
  | [] => []
  | PositionWindowEv hwnd x y width height _ :: rest =>
      (hwnd, (x, y, width, height)) :: placements rest
  | _ :: rest => placements rest
  end.

(** The read-back of [hwnd] is within the tolerance of [(x, y)]. *)
Definition read_back_within (hwnd x y : Z) (e : event) : Prop :=
  exists actual_x actual_y right bottom,
    e = GetWindowRectEv hwnd (Ok (actual_x, actual_y, right, bottom))
    /\ Z.abs (actual_x - x) <= 10 /\ Z.abs (actual_y - y) <= 10.

(** What follows the [IsIconic] of an attempt. *)
Definition after_start (e : event) : Prop :=
  is_attempt_ev e = true /\ is_attempt_start e = false /\ is_backoff e = false.

(** *** Reading the classification of [find_unreal_windows]

    The role of a title, in the words of the specification: both markers
    occur, and the role is the first of Server, Client 1, Client 2,
    Client 3 whose name occurs. *)
Definition role_names : list string :=
  ["Server"; "Client 1"; "Client 2"; "Client 3"]%string.

Definition classify (title : string) : option string :=
  if Py.contains "Preview" title && Py.contains "NetMode:" title then
    List.find (fun name => Py.contains name title) role_names
  else None.

(** What an enumeration saw of a window: its handle, and its title when
    it is visible. *)
Definition seen : Type := Z * option string.

(** The calls of an enumeration that saw [obs]. *)
Fixpoint scan_trace (obs : list seen) : list event :=
  match obs with
  | [] => []
  | (hwnd, None) :: rest => IsWindowVisibleEv hwnd false :: scan_trace rest
  | (hwnd, Some title) :: rest =>
      IsWindowVisibleEv hwnd true :: GetWindowTextEv hwnd title :: scan_trace rest
  end.

(** The dictionary of roles of what was seen, later windows overwriting
    earlier ones of the same role. *)
Fixpoint classified (obs : list seen) (results : Py.dict Z) : Py.dict Z :=
  match obs with
  | [] => results
  | (hwnd, Some title) :: rest =>
      match classify title with
      | Some name => classified rest (Py.dict_set results name hwnd)
      | None => classified rest results
      end
  | (_, None) :: rest => classified rest results
  end.

(** *** Reading a placement pass

    The placements that a pass over [items] (slot index, window index) asks
    for: a window index without a handle is skipped, an index out of range
    ends the pass. *)
Fixpoint planned (me : Manager) (items : list (Z * Z)) : list (Z * rect) :=
  match items with
  | [] => []
  | (pos_idx, window_idx) :: rest =>
      match window_handles me !! window_idx with
      | Some hwnd =>
          match Py.index (positions me) pos_idx,
                Py.index (window_keys me) (window_idx - 1) with
          | Ok slot, Ok _ => (hwnd, slot) :: planned me rest
          | _, _ => []
          end
      | None => planned me rest
      end
  end.

(** Every slot index and window index of [items] is one of the manager's. *)
Definition in_range (me : Manager) (items : list (Z * Z)) : Prop :=
  Forall (fun item : Z * Z =>
            0 <= item.1 < Z.of_nat (length (positions me))
            /\ 1 <= item.2 <= Z.of_nat (length (window_keys me))) items.

(** The handle map after the [for i, window_key in enumerate(...)] loop of
    [position_all_windows] over [items], started on [handles]. *)
Fixpoint stored (windows : Py.dict Z) (items : list (Z * string)) (handles : gmap Z Z)
  : gmap Z Z :=
  match items with
  | [] => handles
  | (i, window_key) :: rest =>
      stored windows rest
        match Py.dict_get windows window_key with
        | Some hwnd => <[i + 1 := hwnd]> handles
        | None => handles
        end
  end.

(** The three checks of [reorder_windows] on its argument. *)
Definition valid_order (new_order : list Z) : bool :=
  (length new_order =? 4)%nat
  && forallb (fun x => (1 <=? x) && (x <=? 4)) new_order
  && (size (list_to_set new_order : gset Z) =? 4)%nat.

(** The message of a failed check, in the order of the checks. *)
Definition rejection (new_order : list Z) : string :=
  if negb (length new_order =? 4)%nat then
    "Order must contain exactly 4 values"
  else if negb (forallb (fun x => (1 <=? x) && (x <=? 4)) new_order) then
    "All values must be between 1 and 4"
  else "All values must be unique".

(** The slots and role names set by [__init__], which no method changes. *)
Definition configured (me : Manager) : Prop :=
  positions me = positions (init true true)
  /\ window_keys me = window_keys (init true true).

(** The trace of one attempt of [position_window]. *)
Definition one_attempt (tr : list event) : Prop :=
  attempts tr = 1%nat /\ backoffs tr = 0%nat /\ placements tr = []
  /\ Forall (fun e => is_attempt_ev e = true) tr.

(** What [position_window] promises of a loop of at most [n] attempts on
    [hwnd] towards [(x, y)]: it returns; a success was read back within the
    tolerance by its last call; a failure used all [n] attempts; and there
    is one backoff between two attempts. *)
Definition attempts_spec (hwnd x y : Z) (n : nat) (tr : list event) (r : result bool) : Prop :=
  exists ok, r = Ok ok
    /\ (ok = true -> exists tr0 e, tr = tr0 ++ [e] /\ read_back_within hwnd x y e)
    /\ (ok = false -> attempts tr = n)
    /\ (attempts tr <= n)%nat
    /\ (0 < n -> 1 <= attempts tr)%nat
    /\ backoffs tr = pred (attempts tr)
    /\ placements tr = []
    /\ Forall (fun e => is_attempt_ev e = true) tr.

(** *** Reading the successes of a pass

    The read-back [e] finds the window within the tolerance of the target
    [(hwnd, x, y)]: [read_back_within] as a boolean. *)
Definition read_back_ok (target : Z * Z * Z) (e : event) : bool :=
  match e with
  | GetWindowRectEv h (Ok (actual_x, actual_y, _, _)) =>
      let '(hwnd, x, y) := target in
      (h =? hwnd) && (Z.abs (actual_x - x) <=? 10) && (Z.abs (actual_y - y) <=? 10)
  | _ => false
  end.

(** The last call of [tr], or [prev] when [tr] is empty. *)
Definition last_call (prev : option event) (tr : list event) : option event :=
  fold_left (fun _ e => Some e) tr prev.

(** The placement of [target] whose last call was [prev] succeeded. *)
Definition ended_ok (target : option (Z * Z * Z)) (prev : option event) : bool :=
  match target, prev with
  | Some t, Some e => read_back_ok t e
  | _, _ => false
  end.

(** The number of placements of [tr] that succeeded.  A placement is what
    is done from an entry of [position_window] to the [sleep(0.15)] that
    follows the call in both passes (no attempt sleeps that long); it
    succeeded when its last call read the window back within the tolerance
    of its target.  [target] is the placement under way and [prev] the
    last call made so far. *)
Fixpoint successes_from (target : option (Z * Z * Z)) (prev : option event)
         (tr : list event) : nat :=
  match tr with
  | [] => 0
  | e :: rest =>
      match e with
      | PositionWindowEv hwnd x y _ _ _ => successes_from (Some (hwnd, x, y)) None rest
      | SleepEv ms =>
          if ms =? 150 then
            ((if ended_ok target prev then 1 else 0) + successes_from None None rest)%nat
          else successes_from target (Some e) rest
      | _ => successes_from target (Some e) rest
      end
  end.

Definition successes (tr : list event) : nat := successes_from None None tr.

(** A placement ended by its last call [tr]. *)
Definition ends_ok (target : Z * Z * Z) (tr : list event) : bool :=
  ended_ok (Some target) (last_call None tr).

(** A call that neither opens nor closes a placement. *)
Definition quiet (e : event) : bool :=
  match e with
  | PositionWindowEv _ _ _ _ _ _ => false
  | SleepEv ms => negb (ms =? 150)
  | _ => true
  end.

(** When [m] returns [a], the last thing it did satisfies [Q a]. *)
Definition ends_with {W A} (Q : A -> event -> Prop) (m : M W A) : Prop :=
  forall st a, outcome (m st) = Ok a ->
    exists tr e, trace (m st) = tr ++ [e] /\ Q a e.

(** ** The methods of [UnrealWindowManager] *)

Section Manager.

Context {W : Type} (os : OSApi W).

Import win32con.

(** *** The calls *)

Definition EnumWindows : M W (list Z) :=
  os_call (os_EnumWindows os) EnumWindowsEv.
Definition IsWindowVisible (hwnd : Z) : M W bool :=
  os_call (os_IsWindowVisible os hwnd) (IsWindowVisibleEv hwnd).
Definition GetWindowText (hwnd : Z) : M W string :=
  os_call (os_GetWindowText os hwnd) (GetWindowTextEv hwnd).
Definition IsIconic (hwnd : Z) : M W bool :=
  os_try_call (os_IsIconic os hwnd) (IsIconicEv hwnd).
Definition ShowWindow (hwnd cmd : Z) : M W unit :=
  os_try_call (os_ShowWindow os hwnd cmd) (ShowWindowEv hwnd cmd).
Definition GetWindowLong (hwnd idx : Z) : M W Z :=
  os_try_call (os_GetWindowLong os hwnd idx) (GetWindowLongEv hwnd idx).
Definition SetWindowLong (hwnd idx val : Z) : M W unit :=
  os_try_call (os_SetWindowLong os hwnd idx val) (SetWindowLongEv hwnd idx val).
Definition SetWindowPos (hwnd after x y cx cy flags : Z) : M W unit :=
  os_try_call (os_SetWindowPos os hwnd after x y cx cy flags)
              (SetWindowPosEv hwnd after x y cx cy flags).
Definition GetWindowRect (hwnd : Z) : M W rect :=
  os_try_call (os_GetWindowRect os hwnd) (GetWindowRectEv hwnd).
Definition CreateRectRgn (left top right bottom : Z) : M W Z :=
  os_try_call (os_CreateRectRgn os left top right bottom)
              (CreateRectRgnEv left top right bottom).
Definition SetWindowRgn (hwnd rgn : Z) (redraw : bool) : M W unit :=
  os_try_call (os_SetWindowRgn os hwnd rgn redraw) (SetWindowRgnEv hwnd rgn redraw).
(** [time.sleep]: a negative duration raises [ValueError] before anything
    is waited for. *)
Definition sleep (ms : Z) : M W unit :=
  if ms <? 0 then raise "sleep length must be non-negative"
  else os_call (fun w => (os_sleep os ms w, tt)) (fun _ => SleepEv ms).
Definition time : M W Z :=
  os_call (os_time os) TimeEv.

(** [with self.lock: body]: the lock is released on the way out, also
    when [body] raises. *)
Definition with_lock {A} (body : M W A) : M W A :=
  emit LockAcquireEv;;
  r <- catch body;;
  emit LockReleaseEv;;
  lift r.

(** *** [find_unreal_windows] *)

Definition enum_callback (hwnd : Z) (results : Py.dict Z) : M W (Py.dict Z) :=
  visible <- IsWindowVisible hwnd;;
  if visible then
    title <- GetWindowText hwnd;;
    if Py.contains "Preview" title && Py.contains "NetMode:" title then
      if Py.contains "Server" title then ret (Py.dict_set results "Server" hwnd)
      else if Py.contains "Client 1" title then ret (Py.dict_set results "Client 1" hwnd)
      else if Py.contains "Client 2" title then ret (Py.dict_set results "Client 2" hwnd)
      else if Py.contains "Client 3" title then ret (Py.dict_set results "Client 3" hwnd)
      else ret results
    else ret results
  else ret results.

Fixpoint enum_each (hwnds : list Z) (results : Py.dict Z) : M W (Py.dict Z) :=
  match hwnds with
  | [] => ret results
  | hwnd :: rest =>
      results <- enum_callback hwnd results;;
      enum_each rest results
  end.

Definition find_unreal_windows : M W (Py.dict Z) :=
  hwnds <- EnumWindows;;
  enum_each hwnds [].

(** *** [position_window] *)

(** The body of the [try] of one attempt, up to the read-back of the
    window origin [(actual_x, actual_y)]. *)
Definition position_attempt (hwnd x y width height : Z) : M W (Z * Z) :=
  me <- get_self;;
  iconic <- IsIconic hwnd;;
  (if iconic then ShowWindow hwnd SW_RESTORE;; sleep 100 else ret tt);;
  ShowWindow hwnd SW_SHOW;;
  sleep 50;;
  style <- GetWindowLong hwnd GWL_STYLE;;
  let style := Z.land style (Z.lnot WS_MAXIMIZE) in
  let style := Z.land style (Z.lnot WS_MINIMIZE) in
  let style :=
    if borderless me then
      let style := Z.land style (Z.lnot WS_CAPTION) in
      let style := Z.land style (Z.lnot WS_THICKFRAME) in
      let style := Z.land style (Z.lnot WS_SYSMENU) in
      let style := Z.land style (Z.lnot WS_BORDER) in
      let style := Z.land style (Z.lnot WS_DLGFRAME) in
      let style := Z.land style (Z.lnot 0x00800000) in
      let style := Z.lor style WS_POPUP in
      Z.lor style WS_VISIBLE
    else style in
  SetWindowLong hwnd GWL_STYLE style;;
  (if borderless me then
     ex_style <- GetWindowLong hwnd GWL_EXSTYLE;;
     let ex_style := Z.land ex_style (Z.lnot WS_EX_DLGMODALFRAME) in
     let ex_style := Z.land ex_style (Z.lnot WS_EX_CLIENTEDGE) in
     let ex_style := Z.land ex_style (Z.lnot WS_EX_STATICEDGE) in
     let ex_style := Z.land ex_style (Z.lnot WS_EX_WINDOWEDGE) in
     let ex_style := Z.land ex_style (Z.lnot 0x00000200) in
     SetWindowLong hwnd GWL_EXSTYLE ex_style
   else ret tt);;
  (if borderless me then
     SetWindowPos hwnd HWND_TOP 0 0 0 0
       (Z.lor (Z.lor (Z.lor SWP_NOMOVE SWP_NOSIZE) SWP_NOZORDER) SWP_FRAMECHANGED);;
     sleep 50
   else ret tt);;
  let flags := Z.lor SWP_SHOWWINDOW SWP_FRAMECHANGED in
  SetWindowPos hwnd HWND_TOPMOST x y width height flags;;
  SetWindowPos hwnd HWND_NOTOPMOST x y width height SWP_SHOWWINDOW;;
  (if hide_titlebar me && borderless me then
     catch (
       r <- GetWindowRect hwnd;;
       let '(r0, r1, r2, r3) := r in
       let window_width := r2 - r0 in
       let window_height := r3 - r1 in
       region <- CreateRectRgn 0 (titlebar_height me) window_width window_height;;
       SetWindowRgn hwnd region true;;
       sleep 50);;
     ret tt
   else ret tt);;
  sleep 100;;
  r <- GetWindowRect hwnd;;
  let '(actual_x, actual_y, _, _) := r in
  ret (actual_x, actual_y).

(** The [for attempt in range(retries)] loop. *)
Fixpoint position_window_for (hwnd x y width height retries : Z)
         (attempts : list Z) : M W bool :=
  match attempts with
  | [] => ret false
  | attempt :: rest =>
      r <- catch (position_attempt hwnd x y width height);;
      match r with
      | Ok (actual_x, actual_y) =>
          if (Z.abs (actual_x - x) <=? 10) && (Z.abs (actual_y - y) <=? 10) then
            ret true
          else
            (if attempt <? retries - 1 then sleep 200 else ret tt);;
            position_window_for hwnd x y width height retries rest
      | Raise e =>
          if attempt <? retries - 1 then
            sleep 200;;
            position_window_for hwnd x y width height retries rest
          else ret false
      end
  end.

Definition position_window (hwnd x y width height retries : Z) : M W bool :=
  emit (PositionWindowEv hwnd x y width height retries);;
  position_window_for hwnd x y width height retries (Py.range retries).

(** *** [position_all_windows] *)

(** [for i, window_key in enumerate(self.window_keys)] *)
Fixpoint store_handles_for (windows : Py.dict Z) (items : list (Z * string)) : M W unit :=
  match items with
  | [] => ret tt
  | (i, window_key) :: rest =>
      match Py.dict_get windows window_key with
      | Some hwnd =>
          me <- get_self;;
          put_self (set_window_handles (<[i + 1 := hwnd]> (window_handles me)) me)
      | None => ret tt
      end;;
      store_handles_for windows rest
  end.

(** [for pos_idx, window_idx in enumerate(self.current_order)] *)
Fixpoint position_all_for (items : list (Z * Z)) (success_count : Z) : M W Z :=
  match items with
  | [] => ret success_count
  | (pos_idx, window_idx) :: rest =>
      me <- get_self;;
      match window_handles me !! window_idx with
      | Some hwnd =>
          slot <- lift (Py.index (positions me) pos_idx);;
          let '(x, y, width, height) := slot in
          window_key <- lift (Py.index (window_keys me) (window_idx - 1));;
          (* try: title = GetWindowText(hwnd); except: title = "Unknown" *)
          title <- GetWindowText hwnd;;
          ok <- position_window hwnd x y width height 3;;
          let success_count := if ok then success_count + 1 else success_count in
          sleep 150;;
          position_all_for rest success_count
      | None => position_all_for rest success_count
      end
  end.

Definition position_all_windows (windows : Py.dict Z) : M W Z :=
  with_lock (
    me <- get_self;;
    put_self (set_window_handles ∅ me);;
    store_handles_for windows (Py.enumerate (window_keys me));;
    me <- get_self;;
    position_all_for (Py.enumerate (current_order me)) 0).

(** *** [wait_and_position] and [manual_position] *)

(** The progress display: [GetWindowText(windows[window_type])] for each
    key. *)
Fixpoint show_titles (windows : Py.dict Z) (keys : list string) : M W unit :=
  match keys with
  | [] => ret tt
  | window_type :: rest =>
      match Py.dict_get windows window_type with
      | Some hwnd => GetWindowText hwnd;; show_titles windows rest
      | None => raise "KeyError"
      end
  end.

(** The [while time.time() - start_time < timeout] loop.  [fuel] bounds
    the number of polls; [None] is an exhausted bound, not a result of
    the program. *)
Fixpoint wait_while (fuel : nat) (start_time timeout check_interval : Z)
         (last_count : nat) : M W (option bool) :=
  match fuel with
  | O => ret None
  | S fuel =>
      now <- time;;
      if now - start_time <? timeout then
        windows <- find_unreal_windows;;
        let current_count := length windows in
        last_count <-
          (if negb (current_count =? last_count)%nat then
             show_titles windows (Py.dict_keys windows);;
             ret current_count
           else ret last_count);;
        if (4 <=? current_count)%nat then
          sleep 2000;;
          success <- position_all_windows windows;;
          ret (Some true)
        else
          sleep check_interval;;
          wait_while fuel start_time timeout check_interval last_count
      else ret (Some false)
  end.

Definition wait_and_position (fuel : nat) (timeout check_interval : Z) : M W (option bool) :=
  start_time <- time;;
  wait_while fuel start_time timeout check_interval 0%nat.

(** [for window_type, hwnd in windows.items()] *)
Fixpoint show_items (items : list (string * Z)) : M W unit :=
  match items with
  | [] => ret tt
  | (window_type, hwnd) :: rest => GetWindowText hwnd;; show_items rest
  end.

Definition manual_position : M W bool :=
  windows <- find_unreal_windows;;
  if (length windows =? 0)%nat then ret false
  else
    show_items windows;;
    success <- position_all_windows windows;;
    if 0 <? success then ret true else ret false.

(** *** [reorder_windows] and [get_status] *)

(** [for pos_idx, window_idx in enumerate(new_order)] *)
Fixpoint reorder_for (items : list (Z * Z)) (success_count : Z) : M W Z :=
  match items with
  | [] => ret success_count
  | (pos_idx, window_idx) :: rest =>
      me <- get_self;;
      match window_handles me !! window_idx with
      | Some hwnd =>
          slot <- lift (Py.index (positions me) pos_idx);;
          let '(x, y, width, height) := slot in
          window_key <- lift (Py.index (window_keys me) (window_idx - 1));;
          ok <- position_window hwnd x y width height 3;;
          let success_count := if ok then success_count + 1 else success_count in
          sleep 150;;
          reorder_for rest success_count
      | None => reorder_for rest success_count
      end
  end.

Definition reorder_windows (new_order : list Z) : M W reorder_result :=
  if negb (length new_order =? 4)%nat then
    ret {| success := false;
           message := "Order must contain exactly 4 values";
           order := None |}
  else if negb (forallb (fun x => (1 <=? x) && (x <=? 4)) new_order) then
    ret {| success := false;
           message := "All values must be between 1 and 4";
           order := None |}
  else if negb (size (list_to_set new_order : gset Z) =? 4)%nat then
    ret {| success := false;
           message := "All values must be unique";
           order := None |}
  else
    me <- get_self;;
    if bool_decide (window_handles me = ∅) then
      ret {| success := false;
             message := "No windows found. Start the game first.";
             order := None |}
    else
      with_lock (
        me <- get_self;;
        put_self (set_current_order new_order me);;
        success_count <- reorder_for (Py.enumerate new_order) 0;;
        if success_count =? 4 then
          ret {| success := true;
                 message := "Successfully reordered to " +:+ Py.str_list new_order;
                 order := Some new_order |}
        else
          ret {| success := false;
                 message := "Only positioned " +:+ Py.str_int success_count +:+ "/4 windows";
                 order := Some new_order |}).

Definition get_status : M W status_result :=
  with_lock (
    me <- get_self;;
    ret {| windows_found := size (window_handles me);
           status_current_order := current_order me;
           window_mapping := [("1", "Server"); ("2", "Client 1");
                              ("3", "Client 2"); ("4", "Client 3")]%string |}).

(** *** The request handlers of [create_http_server]

    The body of a [POST /reorder] is modelled as far as the contract of
    the endpoint goes: a JSON object whose ["order"] is a list of integers
    gives [Some] of that list, and a body that is missing, empty or
    without the field gives [None].  A body whose ["order"] is anything
    else (a list with a number that is not an integer, a string, [null])
    has no counterpart here; so what is shown of [reorder], of
    [reorder_windows] and of the managers that requests lead to is shown
    for orders that are lists of integers.  A handler answers a JSON value
    and a status code. *)

Definition reorder (data : option (list Z)) : M W (reorder_result * Z) :=
  r <- catch (
    match data with
    | None =>
        ret ({| success := false;
                message := "Missing 'order' field in JSON body";
                order := None |}, 400)
    | Some new_order =>
        result <- reorder_windows new_order;;
        let status_code := if success result then 200 else 400 in
        ret (result, status_code)
    end);;
  match r with
  | Ok response => ret response
  | Raise e =>
      ret ({| success := false; message := "Error: " +:+ e; order := None |}, 500)
  end.

Definition status : M W ((status_result + reorder_result) * Z) :=
  r <- catch get_status;;
  match r with
  | Ok s => ret (inl s, 200)
  | Raise e =>
      ret (inr {| success := false; message := "Error: " +:+ e; order := None |}, 500)
  end.

Definition health : M W (string * Z) := ret ("ok"%string, 200).

End Manager.

(** ** The life of a manager

    What can be called on a manager: its methods, and the request handlers
    of the server that holds it. *)
Inductive call : Type :=
| FindUnrealWindows
| PositionWindow (hwnd x y width height retries : Z)
| PositionAllWindows (windows : Py.dict Z)
| WaitAndPosition (fuel : nat) (timeout check_interval : Z)
| ManualPosition
| ReorderWindows (new_order : list Z)
| GetStatus
| PostReorder (data : option (list Z))
| GetStatusRequest
| GetHealth.

(** The state after a call. *)
Definition after {W} (os : OSApi W) (c : call) (st : state W) : state W :=
  match c with
  | FindUnrealWindows => final (find_unreal_windows os st)
  | PositionWindow hwnd x y width height retries =>
      final (position_window os hwnd x y width height retries st)
  | PositionAllWindows windows => final (position_all_windows os windows st)
  | WaitAndPosition fuel timeout check_interval =>
      final (wait_and_position os fuel timeout check_interval st)
  | ManualPosition => final (manual_position os st)
  | ReorderWindows new_order => final (reorder_windows os new_order st)
  | GetStatus => final (get_status st)
  | PostReorder data => final (reorder os data st)
  | GetStatusRequest => final (status st)
  | GetHealth => final (health st)
  end.

(** The managers that a process can hold: the one [__init__] makes, and
    the one left by a call, on whatever the desktop has become meanwhile.
    The requests among the calls carry a list of integers as their order,
    or none. *)
Inductive reachable {W} (os : OSApi W) : Manager -> Prop :=
| reachable_init borderless hide_titlebar :
    reachable os (init borderless hide_titlebar)
| reachable_after me c w :
    reachable os me -> reachable os (self (after os c (State me w))).

(** The calls that run the pass of [position_all_windows], which stores
    handles. *)
Definition stores_handles (c : call) : bool :=
  match c with
  | PositionAllWindows _ | WaitAndPosition _ _ _ | ManualPosition => true
  | _ => false
  end.

(** The handle stored under [k] survives the call [c]. *)
Definition entry_survives {W} (os : OSApi W) (c : call) (st : state W) (k : Z) : Prop :=
  is_Some (window_handles (self st) !! k) ->
  is_Some (window_handles (self (after os c st)) !! k).

(** ** A cooperative desktop, to run the manager on

    A world with a clock and a list of visible top-level windows (handle,
    title, rectangle [(left, top, right, bottom)]).  On a handle that is
    not there [SetWindowPos] and [GetWindowRect] raise, and the other calls
    answer without effect.  An [obedient] desktop moves a window where
    [SetWindowPos] asks; a stubborn one leaves every window where it is. *)

Module Desktop.

Record world : Type := World {
  clock : Z;
  windows : list (Z * (string * rect));
  obedient : bool;
}.

Fixpoint lookup (hwnd : Z) (ws : list (Z * (string * rect))) : option (string * rect) :=
  match ws with
  | [] => None
  | (h, info) :: rest => if h =? hwnd then Some info else lookup hwnd rest
  end.

Fixpoint move (hwnd : Z) (r : rect) (ws : list (Z * (string * rect)))
  : list (Z * (string * rect)) :=
  match ws with
  | [] => []
  | (h, (title, old)) :: rest =>
      if h =? hwnd then (h, (title, r)) :: rest
      else (h, (title, old)) :: move hwnd r rest
  end.

Definition on_window {A} (hwnd : Z) (w : world) (f : string * rect -> world * A)
  : world * result A :=
  match lookup hwnd (windows w) with
  | Some info => let (w', a) := f info in (w', Ok a)
  | None => (w, Raise "Invalid window handle")
  end.

Definition api : OSApi world := {|
  os_EnumWindows w := (w, map fst (windows w));
  os_IsWindowVisible hwnd w :=
    (w, match lookup hwnd (windows w) with Some _ => true | None => false end);
  os_GetWindowText hwnd w :=
    (w, match lookup hwnd (windows w) with Some (title, _) => title | None => EmptyString end);
  os_IsIconic hwnd w := (w, Ok false);
  os_ShowWindow hwnd cmd w := (w, Ok tt);
  os_GetWindowLong hwnd idx w :=
    (w, Ok match lookup hwnd (windows w) with Some _ => 0x14CF0000 | None => 0 end);
  os_SetWindowLong hwnd idx val w := (w, Ok tt);
  os_SetWindowPos hwnd after x y cx cy flags w :=
    on_window hwnd w (fun _ =>
      if obedient w && negb (Z.testbit flags 1) then
        (World (clock w) (move hwnd (x, y, x + cx, y + cy) (windows w)) (obedient w), tt)
      else (w, tt));
  os_GetWindowRect hwnd w := on_window hwnd w (fun info => (w, snd info));
  os_CreateRectRgn left top right bottom w := (w, Ok 1);
  os_SetWindowRgn hwnd rgn redraw w := (w, Ok tt);
  os_sleep ms w := World (clock w + Z.max 0 ms) (windows w) (obedient w);
  os_time w := (w, clock w);
|}.

(** The four preview windows of the listen-server session, stacked at the
    origin, and an unrelated window. *)
Definition four_windows : list (Z * (string * rect)) :=
  [(101, ("MyGame Preview [NetMode: Server]", (0, 0, 640, 480)));
   (102, ("MyGame Preview [NetMode: Client 1]", (0, 0, 640, 480)));
   (103, ("MyGame Preview [NetMode: Client 2]", (0, 0, 640, 480)));
   (104, ("MyGame Preview [NetMode: Client 3]", (0, 0, 640, 480)));
   (105, ("Unreal Editor", (0, 0, 1920, 1080)))]%string.

Definition two_windows : list (Z * (string * rect)) :=
  [(101, ("MyGame Preview [NetMode: Server]", (0, 0, 640, 480)));
   (102, ("MyGame Preview [NetMode: Client 1]", (0, 0, 640, 480)))]%string.

End Desktop.

(** *** The desktop while the manager waits

    One call of the waiting loop takes the desktop from [w] to [w']. *)
Inductive poll_step {W} (os : OSApi W) : W -> W -> Prop :=
| poll_time w : poll_step os w (os_time os w).1
| poll_sleep ms w : poll_step os w (os_sleep os ms w)
| poll_enum w : poll_step os w (os_EnumWindows os w).1
| poll_visible hwnd w : poll_step os w (os_IsWindowVisible os hwnd w).1
| poll_text hwnd w : poll_step os w (os_GetWindowText os hwnd w).1.

(** The desktop has a clock [now], which [time] reads, which never runs
    backwards and which a [sleep] advances by at least its duration; and
    as long as the desktop is in [few], which the calls of the loop do not
    leave, an enumeration classifies fewer than four roles. *)
Record waiting_desktop {W} (os : OSApi W) (now : W -> Z) (few : W -> Prop) : Prop := {
  time_reads_clock : forall w, (os_time os w).2 = now w;
  clock_runs_on : forall w w', poll_step os w w' -> now w <= now w';
  sleep_lasts : forall ms w, now w + ms <= now (os_sleep os ms w);
  few_stays : forall w w', poll_step os w w' -> few w -> few w';
  few_found : forall me w windows,
    few w -> outcome (find_unreal_windows os (State me w)) = Ok windows ->
    (length windows < 4)%nat;
}.

(** [m] takes the desktop along [R]. *)
Definition moves {W A} (R : W -> W -> Prop) (m : M W A) : Prop :=
  forall st, R (world st) (world (final (m st))).

(** What a status query reports in state [st]. *)
Definition status_order {W} (st : state W) : option (list Z) :=
  match outcome (get_status st) with
  | Ok s => Some (status_current_order s)
  | Raise _ => None
  end.

Definition status_windows_found {W} (st : state W) : option nat :=
  match outcome (get_status st) with
  | Ok s => Some (windows_found s)
  | Raise _ => None
  end.

(** What the specification says of a detection that timed out: it
    returned [False], asked for no placement, and the status reports no
    window found. *)
Definition times_out_empty {W} (os : OSApi W) (fuel : nat) (timeout check_interval : Z)
           (st : state W) : Prop :=
  let run := wait_and_position os fuel timeout check_interval st in
  outcome run = Ok (Some false)
  /\ placements (trace run) = []
  /\ status_windows_found (final run) = Some 0%nat.

(** The two outcomes of a reorder that the specification names: success
    with the new order reported, or failure with the order left as it
    was. *)
Definition two_outcomes {W} (os : OSApi W) (p : list Z) (st : state W) : Prop :=
  let run := reorder_windows os p st in
  (exists r, outcome run = Ok r /\ success r = true
             /\ status_order (final run) = Some p)
  \/ (exists r, outcome run = Ok r /\ success r = false
               /\ status_order (final run) = status_order st).

(** The three outcomes that [reorder_windows] has; the [k] of "Only
    positioned k/4 windows" is the number of placements that succeeded. *)
Definition three_outcomes {W} (os : OSApi W) (p : list Z) (st : state W) : Prop :=
  let run := reorder_windows os p st in
  exists r, outcome run = Ok r
    /\ (   success r = true
           /\ window_handles (self st) <> ∅
           /\ successes (trace run) = 4%nat
           /\ status_order (final run) = Some p
        \/ success r = false
           /\ window_handles (self st) = ∅
           /\ message r = "No windows found. Start the game first."%string
           /\ final run = st
           /\ status_order (final run) = status_order st
        \/ success r = false
           /\ window_handles (self st) <> ∅
           /\ (successes (trace run) < 4)%nat
           /\ message r = "Only positioned "
                          +:+ Py.str_int (Z.of_nat (successes (trace run)))
                          +:+ "/4 windows"
           /\ status_order (final run) = Some p).

(** ** Sessions on the desktop *)

Module Session.

(** The process has just started; the four preview windows are up. *)
Definition started : state Desktop.world :=
  State (init true true) (Desktop.World 0 Desktop.four_windows true).

(** [main] has waited for the windows and placed them. *)
Definition placed : state Desktop.world :=
  final (wait_and_position Desktop.api 10 120000 500 started).

(** Then the Client 3 window was closed. *)
Definition client3_closed : state Desktop.world :=
  State (self placed)
        (Desktop.World (Desktop.clock (world placed))
                       (List.filter (fun w => negb (w.1 =? 104))
                                    (Desktop.windows (world placed)))
                       true).

(** The process has just started; only two preview windows are up. *)
Definition two_up : state Desktop.world :=
  State (init true true) (Desktop.World 0 Desktop.two_windows true).

(** The two windows were placed by [manual_position]. *)
Definition two_placed : state Desktop.world :=
  final (manual_position Desktop.api two_up).

(** The windows are up on a desktop that will not move them. *)
Definition stuck : state Desktop.world :=
  State (init true true) (Desktop.World 0 Desktop.four_windows false).

End Session.

(** ** Reading the calls of a placement

    The window that a call is made on. *)
Definition event_hwnd (e : event) : option Z :=
  match e with
  | IsWindowVisibleEv h _ | GetWindowTextEv h _ | IsIconicEv h _
  | ShowWindowEv h _ _ | GetWindowLongEv h _ _ | SetWindowLongEv h _ _ _
  | SetWindowPosEv h _ _ _ _ _ _ _ | GetWindowRectEv h _
  | SetWindowRgnEv h _ _ _ | PositionWindowEv h _ _ _ _ _ => Some h
  | _ => None
  end.

(** The style [val] has none of the bits of [mask]; it has all of them. *)
Definition cleared (mask val : Z) : Prop := Z.land val mask = 0.
Definition raised (mask val : Z) : Prop := Z.land val mask = mask.

(** What [position_window] writes as the style of a window: never
    maximized or minimized, and in borderless mode a visible popup without
    caption, frame, system menu or border. *)
Definition style_written (me : Manager) (val : Z) : Prop :=
  cleared win32con.WS_MAXIMIZE val /\ cleared win32con.WS_MINIMIZE val
  /\ (borderless me = true ->
      cleared win32con.WS_CAPTION val /\ cleared win32con.WS_THICKFRAME val
      /\ cleared win32con.WS_SYSMENU val /\ cleared win32con.WS_BORDER val
      /\ cleared win32con.WS_DLGFRAME val
      /\ raised win32con.WS_POPUP val /\ raised win32con.WS_VISIBLE val).

(** What it writes as the extended style: no edge of any kind. *)
Definition ex_style_written (val : Z) : Prop :=
  cleared win32con.WS_EX_DLGMODALFRAME val /\ cleared win32con.WS_EX_CLIENTEDGE val
  /\ cleared win32con.WS_EX_STATICEDGE val /\ cleared win32con.WS_EX_WINDOWEDGE val.

(** The calls that an attempt of [position_window] on [hwnd] towards
    [(x, y, width, height)] makes, for a manager [me]. *)
Definition attempt_event (me : Manager) (hwnd x y width height : Z) (e : event) : Prop :=
  match e with
  | IsIconicEv h _ => h = hwnd
  | ShowWindowEv h cmd _ =>
      h = hwnd /\ (cmd = win32con.SW_RESTORE \/ cmd = win32con.SW_SHOW)
  | GetWindowLongEv h idx _ =>
      h = hwnd
      /\ (idx = win32con.GWL_STYLE \/ idx = win32con.GWL_EXSTYLE /\ borderless me = true)
  | SetWindowLongEv h idx val _ =>
      h = hwnd
      /\ (idx = win32con.GWL_STYLE /\ style_written me val
          \/ idx = win32con.GWL_EXSTYLE /\ borderless me = true /\ ex_style_written val)
  | SetWindowPosEv h after x' y' cx cy flags _ =>
      h = hwnd
      /\ (borderless me = true /\ after = win32con.HWND_TOP
          /\ (x', y', cx, cy) = (0, 0, 0, 0) /\ flags = 39
          \/ (x', y', cx, cy) = (x, y, width, height)
             /\ (after = win32con.HWND_TOPMOST /\ flags = 96
                 \/ after = win32con.HWND_NOTOPMOST /\ flags = 64))
  | GetWindowRectEv h _ => h = hwnd
  | CreateRectRgnEv x1 y1 _ _ _ =>
      hide_titlebar me && borderless me = true /\ x1 = 0 /\ y1 = titlebar_height me
  | SetWindowRgnEv h _ redraw _ =>
      hide_titlebar me && borderless me = true /\ h = hwnd /\ redraw = true
  | SleepEv ms => ms = 100 \/ ms = 50 \/ ms = 200
  | _ => False
  end.

(** When [m] raises [e], the last thing it did is in [Q] with [e]. *)
Definition escapes {W A} (Q : event -> exn -> Prop) (m : M W A) : Prop :=
  forall st e, outcome (m st) = Raise e ->
    exists tr ev, trace (m st) = tr ++ [ev] /\ Q ev e.

(** The call [ev] of an attempt was answered by raising [e], and [ev] is
    none of the calls that clip the title bar. *)
Definition raised_by (ev : event) (e : exn) : Prop :=
  match ev with
  | IsIconicEv _ r => r = Raise e
  | ShowWindowEv _ _ r => r = Raise e
  | GetWindowLongEv _ _ r => r = Raise e
  | SetWindowLongEv _ _ _ r => r = Raise e
  | SetWindowPosEv _ _ _ _ _ _ _ r => r = Raise e
  | GetWindowRectEv _ r => r = Raise e
  | _ => False
  end.

(** ** The windows that a pass touches

    Every window that [e] names is in [P]. *)
Definition names_only (P : Z -> Prop) (e : event) : Prop :=
  forall h, event_hwnd e = Some h -> P h.

(** A call of a reorder: no enumeration, no title query, no clock, and
    windows of [P] only. *)
Definition reorder_event (P : Z -> Prop) (e : event) : Prop :=
  match e with
  | EnumWindowsEv _ | IsWindowVisibleEv _ _ | GetWindowTextEv _ _ | TimeEv _ => False
  | _ => names_only P e
  end.

(** A call of the pass of [position_all_windows], which also asks for
    titles. *)
Definition pass_event (P : Z -> Prop) (e : event) : Prop :=
  match e with
  | EnumWindowsEv _ | IsWindowVisibleEv _ _ | TimeEv _ => False
  | _ => names_only P e
  end.

(** ** Reading the pass of [position_all_windows]

    The window and the slot of an entry [(pos_idx, window_idx)] of the
    order, read off the classification: the window that [windows] holds
    under the role name of [window_idx], at the slot of [pos_idx]. *)
Definition assignment (me : Manager) (windows : Py.dict Z) (item : Z * Z)
  : option (Z * rect) :=
  name ← window_keys me !! Z.to_nat (item.2 - 1);
  hwnd ← Py.dict_get windows name;
  slot ← positions me !! Z.to_nat item.1;
  Some (hwnd, slot).

(** ** A clock that ticks

    The desktop has a clock [now], which [time] reads, which the calls of
    the waiting loop never set back, and which a [sleep] advances by at
    least its duration.  Nothing is assumed of the windows. *)
Record ticking_clock {W} (os : OSApi W) (now : W -> Z) : Prop := {
  tick_reads : forall w, (os_time os w).2 = now w;
  tick_runs_on : forall w w', poll_step os w w' -> now w <= now w';
  tick_sleep : forall ms w, now w + ms <= now (os_sleep os ms w);
}.

(** ** The lock over the life of a manager

    What a call does. *)
Definition calls {W} (os : OSApi W) (c : call) (st : state W) : list event :=
  match c with
  | FindUnrealWindows => trace (find_unreal_windows os st)
  | PositionWindow hwnd x y width height retries =>
      trace (position_window os hwnd x y width height retries st)
  | PositionAllWindows windows => trace (position_all_windows os windows st)
  | WaitAndPosition fuel timeout check_interval =>
      trace (wait_and_position os fuel timeout check_interval st)
  | ManualPosition => trace (manual_position os st)
  | ReorderWindows new_order => trace (reorder_windows os new_order st)
  | GetStatus => trace (get_status st)
  | PostReorder data => trace (reorder os data st)
  | GetStatusRequest => trace (status st)
  | GetHealth => trace (health st)
  end.

Definition lock_free (tr : list event) : Prop :=
  Forall (fun e => is_lock e = false) tr.

(** The lock is taken once, held over [body], and released by the last
    thing done. *)
Definition locked_once (tr : list event) : Prop :=
  exists pre body,
    tr = pre ++ LockAcquireEv :: body ++ [LockReleaseEv]
    /\ lock_free pre /\ lock_free body.

(** ** Reading the clip of the title bar

    Every region created in [tr] is as wide and as high as the rectangle
    of [hwnd] that the call just before it read; [prev] is the call made
    before [tr]. *)
Fixpoint regions_fit (hwnd : Z) (prev : option event) (tr : list event) : Prop :=
  match tr with
  | [] => True
  | e :: rest =>
      match e with
      | CreateRectRgnEv _ _ x2 y2 _ =>
          match prev with
          | Some (GetWindowRectEv h (Ok (r0, r1, r2, r3))) =>
              h = hwnd /\ x2 = r2 - r0 /\ y2 = r3 - r1
          | _ => False
          end
      | _ => True
      end
      /\ regions_fit hwnd (Some e) rest
  end.

(** [m] creates fitting regions only, whatever was called before it. *)
Definition fits {W A} (hwnd : Z) (m : M W A) : Prop :=
  forall st prev, regions_fit hwnd prev (trace (m st)).

Definition is_region (e : event) : bool :=
  match e with CreateRectRgnEv _ _ _ _ _ => true | _ => false end.

(** * Verification *)

(** ** Reasoning in the monad *)

Section Monad.

Context {W : Type}.
Implicit Types st : state W.

Lemma bind_Ok {A B} (m : M W A) (f : A -> M W B) st a :
  outcome (m st) = Ok a ->
  bind m f st =
    (final (f a (final (m st))),
     trace (m st) ++ trace (f a (final (m st))),
     outcome (f a (final (m st)))).
Proof.
  unfold bind, final, trace, outcome.
  destruct (m st) as [[st1 t1] r]; simpl; intros ->.
  by destruct (f a st1) as [[st2 t2] r2].
Qed.

Lemma bind_Raise {A B} (m : M W A) (f : A -> M W B) st e :
  outcome (m st) = Raise e ->
  bind m f st = (final (m st), trace (m st), Raise e).
Proof.
  unfold bind, final, trace, outcome.
  by destruct (m st) as [[st1 t1] r]; simpl; intros ->.
Qed.

Lemma catch_run {A} (m : M W A) st :
  catch m st = (final (m st), trace (m st), Ok (outcome (m st))).
Proof. unfold catch. by destruct (m st) as [[? ?] ?]. Qed.

Lemma final_mk {A} st tr (r : result A) : final (st, tr, r) = st.
Proof. reflexivity. Qed.

Lemma trace_mk {A} st tr (r : result A) : trace (st, tr, r) = tr.
Proof. reflexivity. Qed.

Lemma outcome_mk {A} st tr (r : result A) : outcome (st, tr, r) = r.
Proof. reflexivity. Qed.

Lemma ret_bind_run {A B} (a : A) (k : A -> M W B) st : bind (ret a) k st = k a st.
Proof. unfold bind, ret. by destruct (k a st) as [[? ?] ?]. Qed.

Lemma raise_bind_run {A B} e (k : A -> M W B) st : bind (raise e) k st = raise e st.
Proof. reflexivity. Qed.

Lemma get_self_bind_run {B} (k : Manager -> M W B) st :
  bind get_self k st = k (self st) st.
Proof. unfold bind, get_self. by destruct (k (self st) st) as [[? ?] ?]. Qed.

Lemma put_self_bind_run {B} me (k : unit -> M W B) st :
  bind (put_self me) k st = k tt (State me (world st)).
Proof. unfold bind, put_self. by destruct (k tt _) as [[? ?] ?]. Qed.

Lemma emit_bind_run {B} e (k : unit -> M W B) st :
  bind (emit e) k st = (final (k tt st), e :: trace (k tt st), outcome (k tt st)).
Proof. unfold bind, emit. by destruct (k tt st) as [[? ?] ?]. Qed.

Lemma os_call_bind_run {A B} (f : W -> W * A) ev (k : A -> M W B) st :
  bind (os_call f ev) k st =
    let st1 := State (self st) (f (world st)).1 in
    let a := (f (world st)).2 in
    (final (k a st1), ev a :: trace (k a st1), outcome (k a st1)).
Proof.
  unfold bind, os_call. destruct (f (world st)) as [w a]; simpl.
  by destruct (k a _) as [[? ?] ?].
Qed.

(** *** Events *)

Lemma emits_ret {A} E (a : A) : emits (W:=W) E (ret a).
Proof. intros st. constructor. Qed.

Lemma emits_raise {A} E e : emits (W:=W) (A:=A) E (raise e).
Proof. intros st. constructor. Qed.

Lemma emits_lift {A} E (r : result A) : emits (W:=W) E (lift r).
Proof. destruct r; [apply emits_ret | apply emits_raise]. Qed.

Lemma emits_get_self E : emits (W:=W) E get_self.
Proof. intros st. constructor. Qed.

Lemma emits_put_self E m : emits (W:=W) E (put_self m).
Proof. intros st. constructor. Qed.

Lemma emits_emit (E : event -> Prop) e : E e -> emits (W:=W) E (emit e).
Proof. intros He st. by repeat constructor. Qed.

Lemma emits_bind {A B} E (m : M W A) (f : A -> M W B) :
  emits E m -> (forall a, emits E (f a)) -> emits E (bind m f).
Proof.
  intros Hm Hf st. destruct (outcome (m st)) as [a|e] eqn:Hr.
  - rewrite (bind_Ok _ _ _ _ Hr). apply Forall_app. split; [apply Hm | apply Hf].
  - rewrite (bind_Raise _ _ _ _ Hr). apply Hm.
Qed.

Lemma emits_catch {A} E (m : M W A) : emits E m -> emits E (catch m).
Proof. intros Hm st. rewrite catch_run. apply Hm. Qed.

Lemma emits_os_call {A} (E : event -> Prop) (f : W -> W * A) ev :
  (forall a, E (ev a)) -> emits E (os_call f ev).
Proof.
  intros He st. unfold os_call, trace. destruct (f (world st)); simpl.
  by repeat constructor.
Qed.

Lemma emits_os_try_call {A} (E : event -> Prop) (f : W -> W * result A) ev :
  (forall r, E (ev r)) -> emits E (os_try_call f ev).
Proof.
  intros He st. unfold os_try_call, trace. destruct (f (world st)); simpl.
  by repeat constructor.
Qed.

(** *** The manager object *)

Section Preserves.

Context {X : Type} (f : Manager -> X).

Lemma preserves_ret {A} (a : A) : preserves (W:=W) f (ret a).
Proof. by intros st. Qed.

Lemma preserves_raise {A} e : preserves (W:=W) (A:=A) f (raise e).
Proof. by intros st. Qed.

Lemma preserves_lift {A} (r : result A) : preserves (W:=W) f (lift r).
Proof. destruct r; [apply preserves_ret | apply preserves_raise]. Qed.

Lemma preserves_get_self : preserves (W:=W) f get_self.
Proof. by intros st. Qed.

Lemma preserves_emit e : preserves (W:=W) f (emit e).
Proof. by intros st. Qed.

Lemma preserves_bind {A B} (m : M W A) (k : A -> M W B) :
  preserves f m -> (forall a, preserves f (k a)) -> preserves f (bind m k).
Proof.
  intros Hm Hk st. destruct (outcome (m st)) as [a|e] eqn:Hr.
  - rewrite (bind_Ok _ _ _ _ Hr). unfold final at 1; simpl. by rewrite Hk, Hm.
  - rewrite (bind_Raise _ _ _ _ Hr). apply Hm.
Qed.

Lemma preserves_catch {A} (m : M W A) : preserves f m -> preserves f (catch m).
Proof. intros Hm st. rewrite catch_run. apply Hm. Qed.

Lemma preserves_os_call {A} (g : W -> W * A) ev : preserves f (os_call g ev).
Proof. intros st. unfold os_call, final. by destruct (g (world st)). Qed.

Lemma preserves_os_try_call {A} (g : W -> W * result A) ev :
  preserves f (os_try_call g ev).
Proof. intros st. unfold os_try_call, final. by destruct (g (world st)). Qed.

End Preserves.

End Monad.

Create HintDb emits.
Create HintDb preserves.

#[local] Hint Resolve emits_ret emits_raise emits_lift emits_get_self emits_put_self
  : emits.
#[local] Hint Resolve preserves_ret preserves_raise preserves_lift preserves_get_self
  preserves_emit preserves_os_call preserves_os_try_call : preserves.

#[local] Hint Extern 1 (emits _ (os_call _ _)) =>
  apply emits_os_call; intros; by repeat split : emits.
#[local] Hint Extern 1 (emits _ (os_try_call _ _)) =>
  apply emits_os_try_call; intros; by repeat split : emits.
#[local] Hint Extern 1 (emits _ (emit _)) =>
  apply emits_emit; by repeat split : emits.

(** Project the components of a run that is written out. *)
Ltac run_simpl := rewrite ?final_mk, ?trace_mk, ?outcome_mk.

(** Walk down a computation, one bind, branch or pattern at a time. *)
Tactic Notation "walk" constr(lem_bind) constr(lem_catch) ident(db) :=
  repeat first
    [ progress intros
    | progress cbv zeta
    | solve [eauto with db]
    | apply lem_bind
    | apply lem_catch
    | match goal with
      | |- context [if ?b then _ else _] => destruct b
      | |- context [match ?p with (_, _) => _ end] => destruct p
      | |- context [match ?r with Ok _ => _ | Raise _ => _ end] => destruct r
      | |- context [match ?o with Some _ => _ | None => _ end] => destruct o
      end ].

Section Moves.

Context {W : Type} (R : W -> W -> Prop) `{!PreOrder R}.

Lemma moves_ret {A} (a : A) : moves R (ret a).
Proof. by intros st. Qed.

Lemma moves_bind {A B} (m : M W A) (k : A -> M W B) :
  moves R m -> (forall a, moves R (k a)) -> moves R (bind m k).
Proof.
  intros Hm Hk st. destruct (outcome (m st)) as [a|e] eqn:Hr.
  - rewrite (bind_Ok _ _ _ _ Hr). run_simpl. etrans; [apply Hm | apply Hk].
  - rewrite (bind_Raise _ _ _ _ Hr). apply Hm.
Qed.

Lemma moves_catch {A} (m : M W A) : moves R m -> moves R (catch m).
Proof. intros Hm st. rewrite catch_run. apply Hm. Qed.

Lemma moves_os_call {A} (f : W -> W * A) ev :
  (forall w, R w (f w).1) -> moves R (os_call f ev).
Proof.
  intros Hf st. unfold os_call, final. specialize (Hf (world st)).
  by destruct (f (world st)).
Qed.

End Moves.

Create HintDb moves.

(** ** Traces *)

Lemma count_app p t1 t2 : count p (t1 ++ t2) = (count p t1 + count p t2)%nat.
Proof. induction t1 as [|e t1 IH]; simpl; [done|]. destruct (p e); lia. Qed.

Lemma count_none p tr : Forall (fun e => p e = false) tr -> count p tr = 0%nat.
Proof. induction 1 as [|e tr He _ IH]; simpl; [done|]. by rewrite He. Qed.

Lemma placements_app t1 t2 : placements (t1 ++ t2) = placements t1 ++ placements t2.
Proof.
  induction t1 as [|e t1 IH]; simpl; [done|].
  destruct e; simpl; by rewrite ?IH.
Qed.

Lemma placements_none tr :
  Forall (fun e => is_position_call e = false) tr -> placements tr = [].
Proof. induction 1 as [|e tr He _ IH]; simpl; [done|]. by destruct e. Qed.

(** ** [position_window] *)

Section PositionWindow.

Context {W : Type} (os : OSApi W).
Implicit Types st : state W.

Lemma position_attempt_preserves {X} (f : Manager -> X) hwnd x y width height :
  preserves f (position_attempt os hwnd x y width height).
Proof.
  unfold position_attempt, IsIconic, ShowWindow, GetWindowLong, SetWindowLong,
    SetWindowPos, GetWindowRect, CreateRectRgn, SetWindowRgn, sleep.
  walk (@preserves_bind W X f) (@preserves_catch W X f) preserves.
Qed.

Lemma ends_with_bind {A B} (Q : B -> event -> Prop) (m : M W A) (f : A -> M W B) :
  (forall a, ends_with Q (f a)) -> ends_with Q (bind m f).
Proof.
  intros Hf st b. destruct (outcome (m st)) as [a|e] eqn:Hr.
  - rewrite (bind_Ok _ _ _ _ Hr). unfold outcome at 1, trace at 1; simpl.
    intros Hb. destruct (Hf a _ _ Hb) as (tr & e & -> & He).
    exists (trace (m st) ++ tr), e. by rewrite app_assoc.
  - rewrite (bind_Raise _ _ _ _ Hr). discriminate.
Qed.

Lemma ends_with_read_back hwnd :
  ends_with (fun (a : Z * Z) e => exists right bottom,
               e = GetWindowRectEv hwnd (Ok (a.1, a.2, right, bottom)))
    (r <- GetWindowRect os hwnd;;
     let '(actual_x, actual_y, _, _) := r in
     ret (actual_x, actual_y)).
Proof.
  intros st a. unfold bind, GetWindowRect, os_try_call, outcome, trace.
  destruct (os_GetWindowRect os hwnd (world st)) as [w [[[[ax ay] r] b]|e]]; simpl;
    [|discriminate].
  intros [= <-]. exists [], (GetWindowRectEv hwnd (Ok (ax, ay, r, b))). eauto.
Qed.

Lemma position_attempt_ends hwnd x y width height :
  ends_with (fun (a : Z * Z) e => exists right bottom,
               e = GetWindowRectEv hwnd (Ok (a.1, a.2, right, bottom)))
    (position_attempt os hwnd x y width height).
Proof.
  unfold position_attempt.
  repeat first [ apply ends_with_read_back
               | progress cbv zeta
               | apply ends_with_bind; intros ].
Qed.

Lemma position_attempt_trace hwnd x y width height st :
  exists r tr,
    trace (position_attempt os hwnd x y width height st) = IsIconicEv hwnd r :: tr
    /\ Forall after_start tr.
Proof.
  unfold position_attempt.
  rewrite (bind_Ok _ _ _ (self st)) by reflexivity.
  unfold trace at 1; simpl. unfold final at 1; simpl.
  match goal with |- context [bind (IsIconic os hwnd) ?k] => set (rest := k) end.
  assert (Hrest : forall iconic, emits after_start (rest iconic)).
  { subst rest. unfold ShowWindow, GetWindowLong, SetWindowLong,
      SetWindowPos, GetWindowRect, CreateRectRgn, SetWindowRgn, sleep.
    walk (@emits_bind W) (@emits_catch W) emits. }
  clearbody rest.
  unfold bind, IsIconic, os_try_call, trace at 1.
  destruct (os_IsIconic os hwnd (world st)) as [w [iconic|e]]; simpl.
  - specialize (Hrest iconic (State (self st) w)). unfold trace in Hrest.
    destruct (rest iconic _) as [[st2 t2] r2]. simpl in *. eauto.
  - eauto.
Qed.

Lemma position_attempt_one hwnd x y width height st :
  one_attempt (trace (position_attempt os hwnd x y width height st)).
Proof.
  destruct (position_attempt_trace hwnd x y width height st) as (r & tr & -> & Htr).
  unfold one_attempt, attempts, backoffs; simpl. repeat split.
  - rewrite count_none; [done|]. eapply Forall_impl; [exact Htr|]. by intros e (_ & ? & _).
  - rewrite count_none; [done|]. eapply Forall_impl; [exact Htr|]. by intros e (_ & _ & ?).
  - apply placements_none. eapply Forall_impl; [exact Htr|].
    intros e (He & _). by destruct e.
  - constructor; [done|]. eapply Forall_impl; [exact Htr|]. by intros e (? & _).
Qed.

Lemma catch_bind_run {A B} (m : M W A) (k : result A -> M W B) st :
  bind (catch m) k st =
    (final (k (outcome (m st)) (final (m st))),
     trace (m st) ++ trace (k (outcome (m st)) (final (m st))),
     outcome (k (outcome (m st)) (final (m st)))).
Proof.
  rewrite (bind_Ok _ _ _ (outcome (m st))) by (by rewrite catch_run).
  by rewrite catch_run.
Qed.

Lemma sleep_bind_run {B} ms (k : unit -> M W B) st :
  0 <= ms ->
  bind (sleep os ms) k st =
    (final (k tt (State (self st) (os_sleep os ms (world st)))),
     SleepEv ms :: trace (k tt (State (self st) (os_sleep os ms (world st)))),
     outcome (k tt (State (self st) (os_sleep os ms (world st))))).
Proof.
  intros Hms. unfold sleep. replace (ms <? 0) with false by lia.
  by rewrite (bind_Ok _ _ _ tt).
Qed.

Lemma sleep_negative {B} ms (k : unit -> M W B) st :
  ms < 0 ->
  bind (sleep os ms) k st = (st, [], Raise "sleep length must be non-negative").
Proof. intros Hms. unfold sleep. by replace (ms <? 0) with true by lia. Qed.

Lemma attempts_spec_nil hwnd x y : attempts_spec hwnd x y 0 [] (Ok false).
Proof. exists false. by repeat split; try constructor. Qed.

Lemma attempts_spec_success hwnd x y n tr tr0 e :
  one_attempt tr -> tr = tr0 ++ [e] -> read_back_within hwnd x y e ->
  attempts_spec hwnd x y (S n) tr (Ok true).
Proof.
  intros (Ha & Hb & Hp & Hf) Htr He. exists true.
  rewrite Ha, Hb. repeat split; try done; try lia. intros _. eauto.
Qed.

Lemma attempts_spec_last hwnd x y tr :
  one_attempt tr -> attempts_spec hwnd x y 1 tr (Ok false).
Proof.
  intros (Ha & Hb & Hp & Hf). exists false.
  rewrite Ha, Hb. repeat split; try done; lia.
Qed.

Lemma attempts_spec_retry hwnd x y n tr1 tr2 r :
  one_attempt tr1 -> (0 < n)%nat -> attempts_spec hwnd x y n tr2 r ->
  attempts_spec hwnd x y (S n) (tr1 ++ SleepEv 200 :: tr2) r.
Proof.
  intros (Ha & Hb & Hp & Hf) Hn (ok & -> & Htrue & Hfalse & Hle & Hge & Hbk & Hpl & Hev).
  specialize (Hge Hn). exists ok.
  unfold attempts, backoffs in *. rewrite !count_app, placements_app. simpl.
  rewrite Ha, Hb, Hp, Hpl, Hbk. repeat split; try done; try lia.
  - intros Hok. destruct (Htrue Hok) as (tr0 & e & -> & He).
    exists (tr1 ++ SleepEv 200 :: tr0), e. split; [|done]. by rewrite <- app_assoc.
  - intros Hok. rewrite (Hfalse Hok). lia.
  - apply Forall_app. split; [done|]. by constructor.
Qed.

(** The loop over the attempts [a], [a + 1], ..., [retries - 1]. *)
Lemma position_window_for_spec hwnd x y width height retries (n : nat) :
  forall a st, a + Z.of_nat n = retries ->
    let run := position_window_for os hwnd x y width height retries
                 (seqZ a (Z.of_nat n)) st in
    self (final run) = self st
    /\ attempts_spec hwnd x y n (trace run) (outcome run).
Proof.
  induction n as [|n IH]; intros a st Ha; cbv zeta.
  { split; [done|]. apply attempts_spec_nil. }
  rewrite seqZ_cons by lia.
  replace (Z.pred (Z.of_nat (S n))) with (Z.of_nat n) by lia.
  cbn [position_window_for]. rewrite catch_bind_run.
  pose proof (position_attempt_preserves id hwnd x y width height st) as Hkeep.
  unfold id in Hkeep.
  pose proof (position_attempt_one hwnd x y width height st) as Hone.
  pose proof (position_attempt_ends hwnd x y width height st) as Hends.
  set (att := position_attempt os hwnd x y width height st) in *.
  assert (Hretry : forall st1, self st1 = self st -> (0 < n)%nat ->
    let run := position_window_for os hwnd x y width height retries
                 (seqZ (Z.succ a) (Z.of_nat n)) st1 in
    self (final run) = self st
    /\ attempts_spec hwnd x y (S n) (trace att ++ SleepEv 200 :: trace run) (outcome run)).
  { intros st1 Hst1 Hn. destruct (IH (Z.succ a) st1 ltac:(lia)) as [Hs Hspec].
    split; [by rewrite Hs|]. by apply attempts_spec_retry. }
  destruct (outcome att) as [[actual_x actual_y]|e] eqn:Hout.
  - destruct ((Z.abs (actual_x - x) <=? 10) && (Z.abs (actual_y - y) <=? 10)) eqn:Htol.
    + unfold final at 1, outcome at 1, trace at 1; simpl. split; [done|].
      rewrite app_nil_r.
      destruct (Hends _ eq_refl) as (tr & e0 & Htr & right & bottom & ->).
      eapply attempts_spec_success; [done | exact Htr |].
      exists actual_x, actual_y, right, bottom.
      apply andb_true_iff in Htol. simpl. split; [done | lia].
    + destruct (a <? retries - 1) eqn:Hlt.
      * rewrite sleep_bind_run by lia. unfold final at 1, outcome at 1, trace at 1; simpl.
        apply Hretry; [done | lia].
      * assert (n = 0%nat) as -> by lia.
        unfold final at 1, outcome at 1, trace at 1; simpl. split; [done|].
        rewrite app_nil_r. by apply attempts_spec_last.
  - destruct (a <? retries - 1) eqn:Hlt.
    + rewrite sleep_bind_run by lia. unfold final at 1, outcome at 1, trace at 1; simpl.
      apply Hretry; [done | lia].
    + assert (n = 0%nat) as -> by lia.
      unfold final at 1, outcome at 1, trace at 1; simpl. split; [done|].
      rewrite app_nil_r. by apply attempts_spec_last.
Qed.

Lemma position_window_run hwnd x y width height retries st :
  let run := position_window os hwnd x y width height retries st in
  self (final run) = self st
  /\ exists tr, trace run = PositionWindowEv hwnd x y width height retries :: tr
     /\ attempts_spec hwnd x y (Z.to_nat retries) tr (outcome run).
Proof.
  cbv zeta. unfold position_window.
  rewrite (bind_Ok _ _ _ tt) by reflexivity.
  unfold final at 1 2 3 4, trace at 1 2, outcome at 1; simpl.
  unfold Py.range. destruct (Z.le_gt_cases 0 retries) as [Hr|Hr].
  - replace (seqZ 0 retries) with (seqZ 0 (Z.of_nat (Z.to_nat retries)))
      by (f_equal; lia).
    destruct (position_window_for_spec hwnd x y width height retries
                (Z.to_nat retries) 0 st ltac:(lia)) as [Hs Hspec].
    split; [done|]. eauto.
  - replace (Z.to_nat retries) with 0%nat by lia.
    replace (seqZ 0 retries) with (@nil Z)
      by (unfold seqZ; by replace (Z.to_nat retries) with 0%nat by lia).
    split; [done|]. eexists. split; [done|]. apply attempts_spec_nil.
Qed.

(** C5.  [position_window] never raises.  When it returns [True], the
    last thing it did was to read the window rectangle back and find its
    origin within 10 units of the requested [(x, y)] on each axis.  It
    makes at most [retries] attempts, exactly [retries] when it returns
    [False], and sleeps the 0.2 s backoff once between two attempts. *)
Theorem position_window_tolerance_and_retries hwnd x y width height retries st :
  let run := position_window os hwnd x y width height retries st in
  exists ok, outcome run = Ok ok
    /\ (ok = true ->
          exists tr actual_x actual_y right bottom,
            trace run = tr ++ [GetWindowRectEv hwnd (Ok (actual_x, actual_y, right, bottom))]
            /\ Z.abs (actual_x - x) <= 10 /\ Z.abs (actual_y - y) <= 10)
    /\ (ok = false -> attempts (trace run) = Z.to_nat retries)
    /\ (attempts (trace run) <= Z.to_nat retries)%nat
    /\ backoffs (trace run) = pred (attempts (trace run)).
Proof.
  cbv zeta.
  destruct (position_window_run hwnd x y width height retries st)
    as (_ & tr & -> & ok & Hok & Htrue & Hfalse & Hle & _ & Hb & _).
  exists ok. repeat split; try done.
  intros Ht. destruct (Htrue Ht) as (tr0 & e & -> & ax & ay & r & b & -> & Hx & Hy).
  by exists (PositionWindowEv hwnd x y width height retries :: tr0), ax, ay, r, b.
Qed.

End PositionWindow.

(** ** [find_unreal_windows] *)

Lemma append_cons c s t : String c s +:+ t = String c (s +:+ t).
Proof. reflexivity. Qed.

Lemma prefix_spec needle hay :
  String.prefix needle hay = true <-> exists post, hay = needle +:+ post.
Proof.
  revert hay. induction needle as [|c needle IH]; intros hay.
  - split; [intros _; by exists hay | by destruct hay].
  - destruct hay as [|c' hay]; cbn.
    { split; [done | by intros [? ?]]. }
    destruct (Ascii.ascii_dec c c') as [->|Hne].
    + rewrite IH. split; intros [post Hp]; exists post;
        rewrite append_cons in *; congruence.
    + split; [done | intros [post Hp]; rewrite append_cons in Hp; congruence].
Qed.

(** [needle in hay] holds exactly when [hay] is some text, [needle], and
    some more text. *)
Lemma contains_spec needle hay :
  Py.contains needle hay = true <-> exists pre post, hay = pre +:+ needle +:+ post.
Proof.
  induction hay as [|c hay IH]; cbn [Py.contains]; rewrite orb_true_iff, prefix_spec.
  - split.
    + intros [[post Hp]|?]; [|done]. by exists EmptyString, post.
    + intros (pre & post & Hp). left. destruct pre; [by exists post | done].
  - rewrite IH. split.
    + intros [[post Hp]|(pre & post & ->)]; [by exists EmptyString, post|].
      by exists (String c pre), post.
    + intros (pre & post & Hp). destruct pre as [|c' pre].
      * left. by exists post.
      * right. rewrite append_cons in Hp. injection Hp as -> ->. by exists pre, post.
Qed.

Lemma classify_unfold title :
  classify title =
    if Py.contains "Preview" title && Py.contains "NetMode:" title then
      if Py.contains "Server" title then Some "Server"%string
      else if Py.contains "Client 1" title then Some "Client 1"%string
      else if Py.contains "Client 2" title then Some "Client 2"%string
      else if Py.contains "Client 3" title then Some "Client 3"%string
      else None
    else None.
Proof. reflexivity. Qed.

(** The precedence of the roles, written out. *)
Lemma classify_spec title name :
  classify title = Some name <->
    Py.contains "Preview" title = true /\ Py.contains "NetMode:" title = true
    /\ (   name = "Server"%string /\ Py.contains "Server" title = true
        \/ name = "Client 1"%string /\ Py.contains "Server" title = false
           /\ Py.contains "Client 1" title = true
        \/ name = "Client 2"%string /\ Py.contains "Server" title = false
           /\ Py.contains "Client 1" title = false
           /\ Py.contains "Client 2" title = true
        \/ name = "Client 3"%string /\ Py.contains "Server" title = false
           /\ Py.contains "Client 1" title = false
           /\ Py.contains "Client 2" title = false
           /\ Py.contains "Client 3" title = true).
Proof.
  rewrite classify_unfold.
  destruct (Py.contains "Preview" title), (Py.contains "NetMode:" title),
    (Py.contains "Server" title), (Py.contains "Client 1" title),
    (Py.contains "Client 2" title), (Py.contains "Client 3" title); simpl;
    split; try (intros [= <-]); intuition congruence.
Qed.

Lemma dict_get_set {V} (d : Py.dict V) k k' v :
  Py.dict_get (Py.dict_set d k v) k' =
    if String.eqb k' k then Some v else Py.dict_get d k'.
Proof.
  induction d as [|[k0 v0] d IH]; simpl.
  - done.
  - destruct (String.eqb k k0) eqn:Hk; simpl.
    + apply String.eqb_eq in Hk as ->. by destruct (String.eqb k' k0).
    + rewrite IH. destruct (String.eqb k' k0) eqn:Hk'; [|done].
      apply String.eqb_eq in Hk' as ->. by rewrite String.eqb_sym, Hk.
Qed.

Lemma dict_keys_set {V} (d : Py.dict V) k v :
  Py.dict_keys (Py.dict_set d k v) =
    if bool_decide (k ∈ Py.dict_keys d) then Py.dict_keys d else Py.dict_keys d ++ [k].
Proof.
  unfold Py.dict_keys. induction d as [|[k0 v0] d IH]; simpl; [done|].
  destruct (String.eqb k k0) eqn:Hk; simpl.
  - apply String.eqb_eq in Hk as ->. rewrite bool_decide_eq_true_2; [done | left].
  - apply String.eqb_neq in Hk. rewrite IH.
    destruct (bool_decide (k ∈ map fst d)) eqn:Hd.
    + apply bool_decide_eq_true in Hd. rewrite bool_decide_eq_true_2; [done | by right].
    + apply bool_decide_eq_false in Hd. rewrite bool_decide_eq_false_2; [done|].
      by intros [?|?]%elem_of_cons.
Qed.

(** Where the value of a role comes from. *)
Lemma classified_Some obs : forall results name hwnd,
  Py.dict_get (classified obs results) name = Some hwnd ->
  (exists title, (hwnd, Some title) ∈ obs /\ classify title = Some name)
  \/ Py.dict_get results name = Some hwnd.
Proof.
  induction obs as [|[h [title|]] obs IH]; intros results name hwnd; cbn [classified].
  - by right.
  - destruct (classify title) as [name'|] eqn:Hc; intros Hget;
      apply IH in Hget as [(title' & Hin & Hc')|Hget].
    + left. exists title'. split; [by right | done].
    + rewrite dict_get_set in Hget. destruct (String.eqb name name') eqn:Hn.
      * apply String.eqb_eq in Hn as ->. injection Hget as ->.
        left. exists title. split; [left | done].
      * by right.
    + left. exists title'. split; [by right | done].
    + by right.
  - intros Hget. apply IH in Hget as [(title' & Hin & Hc')|Hget]; [|by right].
    left. exists title'. split; [by right | done].
Qed.

(** A role is missing exactly when no visible window carries it. *)
Lemma classified_None obs : forall results name,
  Py.dict_get (classified obs results) name = None <->
    Py.dict_get results name = None
    /\ forall hwnd title, (hwnd, Some title) ∈ obs -> classify title <> Some name.
Proof.
  induction obs as [|[h [title|]] obs IH]; intros results name; cbn [classified].
  - split; [intros H; split; [done|] | by intros [? _]].
    intros ?? Hin. by apply elem_of_nil in Hin.
  - destruct (classify title) as [name'|] eqn:Hc; rewrite IH.
    + rewrite dict_get_set. destruct (String.eqb name name') eqn:Hn.
      * apply String.eqb_eq in Hn as ->. split; [by intros [? _]|].
        intros [_ Hall]. destruct (Hall h title); [left | done].
      * apply String.eqb_neq in Hn. split; intros [Hr Hall]; (split; [done|]).
        -- intros hwnd t [[= -> ->]|Hin]%elem_of_cons; [congruence | by eapply Hall].
        -- intros hwnd t Hin. eapply Hall. by right.
    + split; intros [Hr Hall]; (split; [done|]).
      * intros hwnd t [[= -> ->]|Hin]%elem_of_cons; [congruence | by eapply Hall].
      * intros hwnd t Hin. eapply Hall. by right.
  - rewrite IH. split; intros [Hr Hall]; (split; [done|]).
    + intros hwnd t [[=]|Hin]%elem_of_cons. by eapply Hall.
    + intros hwnd t Hin. eapply Hall. by right.
Qed.

(** There are only the four roles to find, each once. *)
Lemma classified_keys obs : forall results,
  NoDup (Py.dict_keys results) -> Py.dict_keys results ⊆ role_names ->
  NoDup (Py.dict_keys (classified obs results))
  /\ Py.dict_keys (classified obs results) ⊆ role_names.
Proof.
  assert (Hset : forall (results : Py.dict Z) name hwnd,
    name ∈ role_names ->
    NoDup (Py.dict_keys results) -> Py.dict_keys results ⊆ role_names ->
    NoDup (Py.dict_keys (Py.dict_set results name hwnd))
    /\ Py.dict_keys (Py.dict_set results name hwnd) ⊆ role_names).
  { intros results name hwnd Hname Hnd Hsub. rewrite dict_keys_set.
    case_bool_decide as Hin; [done|]. split.
    - apply NoDup_app. repeat split; [done | | apply NoDup_singleton].
      intros k Hk Hk'%list_elem_of_singleton. by subst.
    - intros k [Hk|Hk%list_elem_of_singleton]%elem_of_app; [by apply Hsub | by subst]. }
  induction obs as [|[h [title|]] obs IH]; intros results Hnd Hsub; cbn [classified].
  - done.
  - destruct (classify title) as [name|] eqn:Hc; [|by apply IH].
    assert (Hname : name ∈ role_names).
    { unfold classify in Hc. destruct (_ && _); [|done].
      apply find_some in Hc as [Hin _]. by apply list_elem_of_In. }
    by apply IH; apply Hset.
  - by apply IH.
Qed.

Section FindWindows.

Context {W : Type} (os : OSApi W).
Implicit Types st : state W.

Lemma enum_callback_run hwnd results st :
  let run := enum_callback os hwnd results st in
  self (final run) = self st
  /\ exists o : option string,
       trace run = scan_trace [(hwnd, o)]
       /\ outcome run = Ok (classified [(hwnd, o)] results).
Proof.
  cbv zeta. unfold enum_callback, bind, IsWindowVisible, GetWindowText, os_call.
  destruct (os_IsWindowVisible os hwnd (world st)) as [w1 [|]]; cbn.
  - destruct (os_GetWindowText os hwnd w1) as [w2 title]; cbn.
    unfold final, trace, outcome.
    assert (Hobs : forall r : Py.dict Z,
      r = classified [(hwnd, Some title)] results ->
      self (State (self st) w2) = self st
      /\ exists o, [IsWindowVisibleEv hwnd true; GetWindowTextEv hwnd title]
                   = scan_trace [(hwnd, o)]
               /\ Ok r = Ok (classified [(hwnd, o)] results)).
    { intros r ->. split; [done|]. by exists (Some title). }
    cbn [classified] in Hobs. rewrite classify_unfold in Hobs.
    destruct (Py.contains "Preview" title), (Py.contains "NetMode:" title),
      (Py.contains "Server" title), (Py.contains "Client 1" title),
      (Py.contains "Client 2" title), (Py.contains "Client 3" title);
      cbn in *; by apply Hobs.
  - split; [done|]. by exists None.
Qed.

Lemma enum_each_run hwnds : forall results st,
  let run := enum_each os hwnds results st in
  self (final run) = self st
  /\ exists obs : list seen,
       obs.*1 = hwnds
       /\ trace run = scan_trace obs
       /\ outcome run = Ok (classified obs results).
Proof.
  induction hwnds as [|hwnd hwnds IH]; intros results st; cbv zeta; cbn [enum_each].
  - split; [done|]. by exists [].
  - destruct (enum_callback_run hwnd results st) as (Hs & o & Ht & Ho).
    rewrite (bind_Ok _ _ _ _ Ho).
    destruct (IH (classified [(hwnd, o)] results) (final (enum_callback os hwnd results st)))
      as (Hs' & obs & Hobs & Ht' & Ho').
    unfold final at 1, trace at 1, outcome at 1; cbn [fst snd].
    split; [by rewrite Hs'|]. exists ((hwnd, o) :: obs).
    rewrite Ht, Ht', Ho', <- Hobs. repeat split.
    + by destruct o.
    + destruct o as [title|]; cbn [classified]; [|done]. by destruct (classify title).
Qed.

Lemma find_unreal_windows_run st :
  let run := find_unreal_windows os st in
  self (final run) = self st
  /\ exists obs : list seen,
       trace run = EnumWindowsEv (obs.*1) :: scan_trace obs
       /\ outcome run = Ok (classified obs []).
Proof.
  cbv zeta. unfold find_unreal_windows, EnumWindows.
  rewrite os_call_bind_run; cbv zeta.
  destruct (os_EnumWindows os (world st)) as [w hwnds]; cbn [fst snd].
  destruct (enum_each_run hwnds [] (State (self st) w)) as (Hs & obs & Hobs & Ht & Ho).
  unfold final at 1, trace at 1, outcome at 1; cbn [fst snd].
  split; [done|]. exists obs. by rewrite Ht, Ho, Hobs.
Qed.

(** C4.  A title has a role exactly when it holds both markers and the
    name of a role, the role being the first of Server, Client 1,
    Client 2, Client 3 whose name it holds; so a title has at most one
    role.  [find_unreal_windows] always returns: it asks for the title of
    each visible window it enumerates, returns under each role a window
    whose title has that role, and leaves out exactly the roles that no
    visible window has. *)
Theorem find_unreal_windows_classification :
  (forall needle hay,
     Py.contains needle hay = true <-> exists pre post, hay = pre +:+ needle +:+ post)
  /\ (forall title name,
       classify title = Some name <->
         Py.contains "Preview" title = true /\ Py.contains "NetMode:" title = true
         /\ (   name = "Server"%string /\ Py.contains "Server" title = true
             \/ name = "Client 1"%string /\ Py.contains "Server" title = false
                /\ Py.contains "Client 1" title = true
             \/ name = "Client 2"%string /\ Py.contains "Server" title = false
                /\ Py.contains "Client 1" title = false
                /\ Py.contains "Client 2" title = true
             \/ name = "Client 3"%string /\ Py.contains "Server" title = false
                /\ Py.contains "Client 1" title = false
                /\ Py.contains "Client 2" title = false
                /\ Py.contains "Client 3" title = true))
  /\ (forall st,
       let run := find_unreal_windows os st in
       exists (obs : list seen) (windows : Py.dict Z),
         trace run = EnumWindowsEv (obs.*1) :: scan_trace obs
         /\ outcome run = Ok windows
         /\ self (final run) = self st
         /\ (forall name hwnd,
               Py.dict_get windows name = Some hwnd ->
               exists title, (hwnd, Some title) ∈ obs /\ classify title = Some name)
         /\ (forall name,
               Py.dict_get windows name = None <->
               forall hwnd title, (hwnd, Some title) ∈ obs -> classify title <> Some name)
         /\ NoDup (Py.dict_keys windows)
         /\ Py.dict_keys windows ⊆ role_names).
Proof.
  split; [exact contains_spec|]. split; [exact classify_spec|].
  intros st. cbv zeta.
  destruct (find_unreal_windows_run st) as (Hs & obs & Ht & Ho).
  exists obs, (classified obs []).
  split; [done|]. split; [done|]. split; [done|]. split; [|split].
  - intros name hwnd Hget. by destruct (classified_Some _ _ _ _ Hget) as [?|?].
  - intros name. rewrite classified_None. split; [by intros [_ ?] | by split].
  - apply classified_keys; [constructor|]. intros k Hk. by apply elem_of_nil in Hk.
Qed.

End FindWindows.

(** ** The placement passes *)

Lemma index_in_range {A} (l : list A) (i : Z) :
  0 <= i < Z.of_nat (length l) -> exists a, Py.index l i = Ok a /\ l !! Z.to_nat i = Some a.
Proof.
  intros Hi. unfold Py.index.
  replace (i <? 0) with false by lia.
  replace ((0 <=? i) && (i <? Z.of_nat (length l))) with true by lia.
  destruct (l !! Z.to_nat i) as [a|] eqn:Hl; [by exists a|].
  apply lookup_ge_None in Hl. lia.
Qed.

Section Passes.

Context {W : Type} (os : OSApi W).
Implicit Types st : state W.

Lemma position_window_pass hwnd x y width height retries st :
  let run := position_window os hwnd x y width height retries st in
  self (final run) = self st
  /\ (exists ok, outcome run = Ok ok)
  /\ placements (trace run) = [(hwnd, (x, y, width, height))]
  /\ Forall (fun e => is_lock e = false) (trace run).
Proof.
  cbv zeta.
  destruct (position_window_run os hwnd x y width height retries st)
    as (Hs & tr & -> & ok & Hok & _ & _ & _ & _ & _ & Hpl & Hev).
  split; [done|]. split; [by exists ok|]. cbn [placements]. rewrite Hpl.
  split; [done|]. constructor; [done|].
  eapply Forall_impl; [exact Hev|]. by intros [].
Qed.

Lemma reorder_for_run items : forall success_count st,
  let run := reorder_for os items success_count st in
  self (final run) = self st
  /\ placements (trace run) = planned (self st) items
  /\ Forall (fun e => is_lock e = false) (trace run)
  /\ (in_range (self st) items ->
        exists n, outcome run = Ok n
          /\ success_count <= n <= success_count + Z.of_nat (length (planned (self st) items))).
Proof.
  induction items as [|[pos_idx window_idx] items IH]; intros c st; cbv zeta;
    cbn [reorder_for planned].
  { repeat split; try done. intros _. exists c. split; [done | simpl; lia]. }
  rewrite get_self_bind_run.
  destruct (window_handles (self st) !! window_idx) as [hwnd|] eqn:Hh.
  2:{ destruct (IH c st) as (Hs & Hp & Hl & Hn).
      repeat split; try done. intros Hr. apply Hn. by eapply Forall_inv_tail. }
  destruct (Py.index (positions (self st)) pos_idx) as [[[[x y] width] height]|e] eqn:Hpos;
    cbn [lift].
  2:{ rewrite raise_bind_run. repeat split; try done; try constructor.
      intros [[Hr _] _]%Forall_cons. cbn in Hr.
      destruct (index_in_range _ _ Hr) as (a & Ha & _). congruence. }
  rewrite ret_bind_run.
  destruct (Py.index (window_keys (self st)) (window_idx - 1)) as [window_key|e] eqn:Hkey;
    cbn [lift].
  2:{ rewrite raise_bind_run. repeat split; try done; try constructor.
      intros [[_ Hr] _]%Forall_cons. cbn in Hr.
      destruct (index_in_range (window_keys (self st)) (window_idx - 1) ltac:(lia))
        as (a & Ha & _). congruence. }
  rewrite ret_bind_run.
  destruct (position_window_pass hwnd x y width height 3 st)
    as (Hs1 & (ok & Hok) & Hp1 & Hl1).
  rewrite (bind_Ok _ _ _ ok Hok).
  set (st1 := final (position_window os hwnd x y width height 3 st)) in *.
  rewrite sleep_bind_run by lia. run_simpl.
  set (st2 := State (self st1) (os_sleep os 150 (world st1))).
  destruct (IH (if ok then c + 1 else c) st2) as (Hs2 & Hp2 & Hl2 & Hn2).
  assert (Hst2 : self st2 = self st) by done.
  rewrite Hst2 in *. split; [done|]. split; [|split].
  - rewrite placements_app, Hp1. cbn. by rewrite Hp2.
  - apply Forall_app. split; [done|]. by constructor.
  - intros Hr. destruct Hn2 as (n & Hn & Hle); [by eapply Forall_inv_tail|].
    exists n. split; [done|]. cbn [length]. destruct ok; lia.
Qed.

Lemma with_lock_run {A} (body : M W A) st :
  with_lock body st =
    (final (body st), LockAcquireEv :: trace (body st) ++ [LockReleaseEv], outcome (body st)).
Proof.
  unfold with_lock. rewrite emit_bind_run, catch_bind_run, emit_bind_run. run_simpl.
  by destruct (outcome (body st)) as [a|e]; cbn [lift]; unfold ret, raise; run_simpl.
Qed.

End Passes.

(** ** Validation of an order *)

Lemma size_list_to_set_le (l : list Z) : (size (list_to_set l : gset Z) <= length l)%nat.
Proof.
  induction l as [|x l IH]; cbn [list_to_set length]; [by rewrite size_empty|].
  rewrite size_union_alt, size_singleton.
  pose proof (subseteq_size (list_to_set l ∖ {[x]}) (list_to_set l : gset Z)
                ltac:(set_solver)). lia.
Qed.

Lemma size_list_to_set_NoDup (l : list Z) :
  size (list_to_set l : gset Z) = length l -> NoDup l.
Proof.
  induction l as [|x l IH]; cbn [list_to_set length]; [constructor|].
  intros Hsize. pose proof (size_list_to_set_le l) as Hle.
  destruct (decide (x ∈ l)) as [Hin|Hin].
  - replace ({[x]} ∪ list_to_set l : gset Z) with (list_to_set l : gset Z) in Hsize
      by set_solver. lia.
  - constructor; [done|]. apply IH.
    rewrite size_union in Hsize by set_solver. rewrite size_singleton in Hsize. lia.
Qed.

Lemma valid_order_spec new_order :
  valid_order new_order = true <-> new_order ≡ₚ [1; 2; 3; 4].
Proof.
  unfold valid_order. rewrite !andb_true_iff, !Nat.eqb_eq, forallb_forall. split.
  - intros [[Hlen Hall] Hsize].
    apply NoDup_Permutation_bis.
    + apply NoDup_ListNoDup, size_list_to_set_NoDup. lia.
    + simpl. lia.
    + intros x Hx. specialize (Hall x Hx). simpl. lia.
  - intros Hp. repeat split.
    + by rewrite Hp.
    + intros x Hx. rewrite <- list_elem_of_In, Hp in Hx.
      set_unfold in Hx. lia.
    + replace (list_to_set new_order : gset Z) with (list_to_set [1; 2; 3; 4] : gset Z).
      * by vm_compute.
      * apply set_eq. intros x. by rewrite !elem_of_list_to_set, Hp.
Qed.

(** ** Passes over an enumeration *)

Lemma enumerate_from_snd {A} (l : list A) i : (Py.enumerate_from i l).*2 = l.
Proof. revert i. induction l as [|a l IH]; intros i; simpl; by rewrite ?IH. Qed.

Lemma enumerate_from_fst {A} (l : list A) i :
  Forall (fun item => i <= item.1 < i + Z.of_nat (length l)) (Py.enumerate_from i l).
Proof.
  revert i. induction l as [|a l IH]; intros i; simpl; constructor.
  - simpl. lia.
  - eapply Forall_impl; [apply IH|]. simpl. intros. lia.
Qed.

Lemma in_range_enumerate me new_order :
  configured me -> new_order ≡ₚ [1; 2; 3; 4] -> in_range me (Py.enumerate new_order).
Proof.
  intros [Hpos Hkeys] Hp. unfold in_range. rewrite Hpos, Hkeys. simpl.
  apply Forall_forall. intros [pos_idx window_idx] Hin. simpl.
  pose proof (enumerate_from_fst new_order 0) as Hfst.
  rewrite Forall_forall in Hfst. specialize (Hfst _ Hin). simpl in Hfst.
  rewrite Hp in Hfst. simpl in Hfst.
  assert (Hw : window_idx ∈ new_order).
  { rewrite <- (enumerate_from_snd new_order 0). apply list_elem_of_fmap.
    by exists (pos_idx, window_idx). }
  rewrite Hp in Hw. set_unfold in Hw. lia.
Qed.

Lemma planned_length me items :
  NoDup (items.*2) -> (length (planned me items) <= size (window_handles me))%nat.
Proof.
  intros Hnd.
  assert (Hle : (length (planned me items)
                 <= length (filter (fun i => is_Some (window_handles me !! i)) (items.*2)))%nat).
  { clear Hnd. induction items as [|[pos_idx window_idx] items IH]; cbn [planned]; [done|].
    rewrite fmap_cons, filter_cons. cbn [snd].
    destruct (window_handles me !! window_idx) as [hwnd|] eqn:Hh.
    - rewrite decide_True by done.
      destruct (Py.index _ pos_idx); [|simpl; lia].
      destruct (Py.index _ (window_idx - 1)); simpl; lia.
    - rewrite decide_False; [done|]. by intros [? ?]. }
  etrans; [exact Hle|].
  rewrite <- size_dom.
  rewrite <- (size_list_to_set (C:=gset Z)) by by apply NoDup_filter.
  apply subseteq_size. intros i. rewrite elem_of_list_to_set, list_elem_of_filter.
  intros [Hi _]. by apply elem_of_dom.
Qed.

Lemma planned_length_items me items :
  (length (planned me items) <= length items)%nat.
Proof.
  induction items as [|[i w] items IH]; cbn [planned]; [done|].
  destruct (_ !! w); [|simpl; lia].
  destruct (Py.index _ i); [|simpl; lia].
  destruct (Py.index _ (w - 1)); simpl; lia.
Qed.

Lemma enumerate_length {A} (l : list A) : length (Py.enumerate l) = length l.
Proof.
  unfold Py.enumerate. rewrite <- (enumerate_from_snd l 0) at 2. by rewrite length_fmap.
Qed.

Lemma planned_ext me1 me2 items :
  window_handles me1 = window_handles me2 -> positions me1 = positions me2 ->
  window_keys me1 = window_keys me2 -> planned me1 items = planned me2 items.
Proof.
  intros Hh Hp Hk. induction items as [|[pos_idx window_idx] items IH]; cbn [planned]; [done|].
  by rewrite Hh, Hp, Hk, IH.
Qed.

Lemma planned_in_range me items :
  in_range me items ->
  planned me items =
    omap (fun item : Z * Z =>
            hwnd ← window_handles me !! item.2;
            slot ← positions me !! Z.to_nat item.1;
            Some (hwnd, slot)) items.
Proof.
  induction 1 as [|[pos_idx window_idx] items [Hpos Hkey] _ IH]; [done|].
  cbn [planned omap list_omap fst snd] in *.
  destruct (window_handles me !! window_idx) as [hwnd|]; cbn [mbind option_bind]; [|done].
  destruct (index_in_range (positions me) pos_idx Hpos) as (slot & -> & ->).
  destruct (index_in_range (window_keys me) (window_idx - 1) ltac:(lia)) as (key & -> & _).
  cbn [mbind option_bind]. by rewrite IH.
Qed.

Lemma placements_locked tr :
  placements (LockAcquireEv :: tr ++ [LockReleaseEv]) = placements tr.
Proof. cbn [placements]. rewrite placements_app. cbn. by rewrite app_nil_r. Qed.

(** ** [reorder_windows] *)

Section Reorder.

Context {W : Type} (os : OSApi W).
Implicit Types st : state W.

(** A rejected order: nothing is called and nothing changes. *)
Lemma reorder_windows_invalid new_order st :
  valid_order new_order = false ->
  reorder_windows os new_order st =
    (st, [], Ok {| success := false; message := rejection new_order; order := None |}).
Proof.
  unfold valid_order, reorder_windows, rejection.
  destruct (length new_order =? 4)%nat; [|done].
  destruct (forallb _ new_order); [|done].
  by destruct (size _ =? 4)%nat.
Qed.

(** No handle stored: nothing is called and nothing changes. *)
Lemma reorder_windows_no_windows new_order st :
  valid_order new_order = true -> window_handles (self st) = ∅ ->
  reorder_windows os new_order st =
    (st, [], Ok {| success := false;
                   message := "No windows found. Start the game first.";
                   order := None |}).
Proof.
  unfold valid_order, reorder_windows. intros Hv Hh.
  apply andb_true_iff in Hv as [[Hlen Hall]%andb_true_iff Hsize].
  rewrite Hlen, Hall, Hsize. cbn [negb]. rewrite get_self_bind_run.
  by rewrite bool_decide_eq_true_2.
Qed.

(** An accepted order with a handle stored: the order is stored and one
    pass runs under the lock. *)
Lemma reorder_windows_pass new_order st :
  valid_order new_order = true -> window_handles (self st) <> ∅ ->
  let run := reorder_windows os new_order st in
  self (final run) = set_current_order new_order (self st)
  /\ (exists tr, trace run = LockAcquireEv :: tr ++ [LockReleaseEv]
                /\ Forall (fun e => is_lock e = false) tr
                /\ placements tr = planned (self st) (Py.enumerate new_order))
  /\ (in_range (self st) (Py.enumerate new_order) ->
        exists n, 0 <= n <= Z.of_nat (length (planned (self st) (Py.enumerate new_order)))
          /\ outcome run =
               Ok (if n =? 4 then
                     {| success := true;
                        message := "Successfully reordered to " +:+ Py.str_list new_order;
                        order := Some new_order |}
                   else
                     {| success := false;
                        message := "Only positioned " +:+ Py.str_int n +:+ "/4 windows";
                        order := Some new_order |})).
Proof.
  unfold valid_order, reorder_windows. intros Hv Hh.
  apply andb_true_iff in Hv as [[Hlen Hall]%andb_true_iff Hsize].
  rewrite Hlen, Hall, Hsize. cbn [negb]. rewrite get_self_bind_run.
  rewrite bool_decide_eq_false_2 by done. cbv zeta.
  rewrite with_lock_run, get_self_bind_run, put_self_bind_run. run_simpl.
  set (st1 := State (set_current_order new_order (self st)) (world st)).
  destruct (reorder_for_run os (Py.enumerate new_order) 0 st1) as (Hs & Hp & Hl & Hn).
  set (pass := reorder_for os (Py.enumerate new_order) 0 st1) in *.
  assert (Hplan : planned (self st1) (Py.enumerate new_order)
                  = planned (self st) (Py.enumerate new_order)) by by apply planned_ext.
  rewrite Hplan in *.
  destruct (outcome pass) as [n|e] eqn:Hout.
  - rewrite (bind_Ok _ _ _ n Hout). run_simpl.
    split; [|split].
    + by destruct (n =? 4).
    + exists (trace pass). destruct (n =? 4); cbn; by rewrite app_nil_r.
    + intros Hr. destruct (Hn Hr) as (n' & [= <-] & Hle). exists n.
      split; [lia|]. by destruct (n =? 4).
  - rewrite (bind_Raise _ _ _ e Hout). run_simpl.
    split; [done|]. split; [by exists (trace pass)|].
    intros Hr. by destruct (Hn Hr) as (n' & [=] & _).
Qed.

Lemma status_order_run st : status_order st = Some (current_order (self st)).
Proof. unfold status_order, get_status. by rewrite with_lock_run. Qed.

Lemma status_windows_found_run st :
  status_windows_found st = Some (size (window_handles (self st))).
Proof. unfold status_windows_found, get_status. by rewrite with_lock_run. Qed.

(** C3.  An order that does not have exactly four values, or has a value
    outside 1..4, or has a value twice, is rejected: [reorder_windows]
    returns a failure whose message names the first failed check, the
    handler answers it with status 400, no call is made and neither the
    manager nor the desktop has changed.  A list of four values in 1..4
    with a duplicate gets "All values must be unique". *)
Theorem reorder_rejects new_order st :
  length new_order <> 4%nat
  \/ (exists x, x ∈ new_order /\ ~ (1 <= x <= 4))
  \/ ~ NoDup new_order ->
  exists msg,
    reorder_windows os new_order st
      = (st, [], Ok {| success := false; message := msg; order := None |})
    /\ reorder os (Some new_order) st
      = (st, [], Ok ({| success := false; message := msg; order := None |}, 400))
    /\ (length new_order <> 4%nat ->
          msg = "Order must contain exactly 4 values"%string)
    /\ (length new_order = 4%nat -> (exists x, x ∈ new_order /\ ~ (1 <= x <= 4)) ->
          msg = "All values must be between 1 and 4"%string)
    /\ (length new_order = 4%nat -> (forall x, x ∈ new_order -> 1 <= x <= 4) ->
          msg = "All values must be unique"%string).
Proof.
  intros Hbad.
  assert (Hv : valid_order new_order = false).
  { apply not_true_is_false. intros Hp%valid_order_spec.
    destruct Hbad as [Hlen|[(x & Hx & Hr)|Hnd]].
    - by rewrite Hp in Hlen.
    - rewrite Hp in Hx. set_unfold in Hx. lia.
    - apply Hnd. rewrite Hp. repeat (constructor; [set_solver|]). constructor. }
  exists (rejection new_order). split; [by apply reorder_windows_invalid|].
  split; [|split; [|split]].
  - unfold reorder. rewrite catch_bind_run.
    by rewrite (bind_Ok _ _ _ _ (f_equal outcome (reorder_windows_invalid _ st Hv))),
      reorder_windows_invalid.
  - intros Hlen. unfold rejection.
    by rewrite (proj2 (Nat.eqb_neq _ _) Hlen).
  - intros Hlen (x & Hx & Hr). unfold rejection.
    rewrite (proj2 (Nat.eqb_eq _ _) Hlen). cbn [negb].
    destruct (forallb _ new_order) eqn:Hall; [|done].
    rewrite forallb_forall in Hall. apply list_elem_of_In, Hall in Hx. lia.
  - intros Hlen Hall. unfold rejection.
    rewrite (proj2 (Nat.eqb_eq _ _) Hlen). cbn [negb].
    destruct (forallb _ new_order) eqn:Hf; [done|].
    apply not_true_iff_false in Hf. destruct Hf. apply forallb_forall.
    intros x Hx%list_elem_of_In. specialize (Hall x Hx). lia.
Qed.

(** C8.  A second [reorder_windows] with the same order leaves the
    manager as the first left it, the stored order and the stored handles
    in particular, and asks for the same placements: the same windows, in
    the same sequence, each at the same target rectangle. *)
Theorem reorder_twice p st :
  let run1 := reorder_windows os p st in
  let run2 := reorder_windows os p (final run1) in
  self (final run2) = self (final run1)
  /\ current_order (self (final run2)) = current_order (self (final run1))
  /\ window_handles (self (final run2)) = window_handles (self (final run1))
  /\ placements (trace run2) = placements (trace run1).
Proof.
  cbv zeta.
  assert (Hgoal : forall run1 run2 : state W * list event * result reorder_result,
    self (final run2) = self (final run1) ->
    placements (trace run2) = placements (trace run1) ->
    self (final run2) = self (final run1)
    /\ current_order (self (final run2)) = current_order (self (final run1))
    /\ window_handles (self (final run2)) = window_handles (self (final run1))
    /\ placements (trace run2) = placements (trace run1)).
  { intros run1 run2 Hs Hp. by rewrite Hs. }
  apply Hgoal; clear Hgoal.
  - destruct (valid_order p) eqn:Hv.
    + destruct (decide (window_handles (self st) = ∅)) as [Hh|Hh].
      * rewrite (reorder_windows_no_windows p st Hv Hh). run_simpl.
        by rewrite (reorder_windows_no_windows p st Hv Hh).
      * destruct (reorder_windows_pass p st Hv Hh) as (Hs1 & _).
        destruct (reorder_windows_pass p (final (reorder_windows os p st)) Hv) as (Hs2 & _).
        { by rewrite Hs1. }
        by rewrite Hs2, Hs1.
    + by rewrite !(reorder_windows_invalid p _ Hv).
  - destruct (valid_order p) eqn:Hv.
    + destruct (decide (window_handles (self st) = ∅)) as [Hh|Hh].
      * rewrite (reorder_windows_no_windows p st Hv Hh). run_simpl.
        by rewrite (reorder_windows_no_windows p st Hv Hh).
      * destruct (reorder_windows_pass p st Hv Hh) as (Hs1 & (tr1 & -> & _ & Hp1) & _).
        destruct (reorder_windows_pass p (final (reorder_windows os p st)) Hv)
          as (_ & (tr2 & -> & _ & Hp2) & _).
        { by rewrite Hs1. }
        rewrite !placements_locked, Hp1, Hp2. apply planned_ext; by rewrite Hs1.
    + by rewrite !(reorder_windows_invalid p _ Hv).
Qed.

End Reorder.

(** ** [position_all_windows] *)

Section PositionAll.

Context {W : Type} (os : OSApi W).
Implicit Types st : state W.

Lemma store_handles_for_run windows items : forall st,
  store_handles_for windows items st =
    (State (set_window_handles (stored windows items (window_handles (self st))) (self st))
           (world st),
     [], Ok tt).
Proof.
  induction items as [|[i window_key] items IH]; intros st; cbn [store_handles_for stored].
  - by destruct st as [[] ?].
  - destruct (Py.dict_get windows window_key) as [hwnd|].
    + unfold bind, get_self, put_self. by rewrite IH.
    + rewrite ret_bind_run. by rewrite IH.
Qed.

Lemma position_all_for_run items : forall success_count st,
  let run := position_all_for os items success_count st in
  self (final run) = self st
  /\ placements (trace run) = planned (self st) items
  /\ Forall (fun e => is_lock e = false) (trace run)
  /\ (in_range (self st) items ->
        exists n, outcome run = Ok n
          /\ success_count <= n <= success_count + Z.of_nat (length (planned (self st) items))).
Proof.
  induction items as [|[pos_idx window_idx] items IH]; intros c st; cbv zeta;
    cbn [position_all_for planned].
  { repeat split; try done. intros _. exists c. split; [done | simpl; lia]. }
  rewrite get_self_bind_run.
  destruct (window_handles (self st) !! window_idx) as [hwnd|] eqn:Hh.
  2:{ destruct (IH c st) as (Hs & Hp & Hl & Hn).
      repeat split; try done. intros Hr. apply Hn. by eapply Forall_inv_tail. }
  destruct (Py.index (positions (self st)) pos_idx) as [[[[x y] width] height]|e] eqn:Hpos;
    cbn [lift].
  2:{ rewrite raise_bind_run. repeat split; try done; try constructor.
      intros [[Hr _] _]%Forall_cons. cbn in Hr.
      destruct (index_in_range _ _ Hr) as (a & Ha & _). congruence. }
  rewrite ret_bind_run.
  destruct (Py.index (window_keys (self st)) (window_idx - 1)) as [window_key|e] eqn:Hkey;
    cbn [lift].
  2:{ rewrite raise_bind_run. repeat split; try done; try constructor.
      intros [[_ Hr] _]%Forall_cons. cbn in Hr.
      destruct (index_in_range (window_keys (self st)) (window_idx - 1) ltac:(lia))
        as (a & Ha & _). congruence. }
  rewrite ret_bind_run. unfold GetWindowText. rewrite os_call_bind_run. cbv zeta.
  set (st0 := State (self st) (os_GetWindowText os hwnd (world st)).1).
  destruct (position_window_pass os hwnd x y width height 3 st0)
    as (Hs1 & (ok & Hok) & Hp1 & Hl1).
  rewrite (bind_Ok _ _ _ ok Hok).
  set (st1 := final (position_window os hwnd x y width height 3 st0)) in *.
  rewrite sleep_bind_run by lia. run_simpl.
  set (st2 := State (self st1) (os_sleep os 150 (world st1))).
  destruct (IH (if ok then c + 1 else c) st2) as (Hs2 & Hp2 & Hl2 & Hn2).
  assert (Hst2 : self st2 = self st) by done.
  rewrite Hst2 in *. split; [done|]. split; [|split].
  - cbn [placements]. rewrite placements_app, Hp1. cbn. by rewrite Hp2.
  - constructor; [done|]. apply Forall_app. split; [done|]. by constructor.
  - intros Hr. destruct Hn2 as (n & Hn & Hle); [by eapply Forall_inv_tail|].
    exists n. split; [done|]. cbn [length]. destruct ok; lia.
Qed.

Lemma position_all_windows_run windows st :
  let run := position_all_windows os windows st in
  let handles := stored windows (Py.enumerate (window_keys (self st))) ∅ in
  self (final run) = set_window_handles handles (self st)
  /\ exists tr, trace run = LockAcquireEv :: tr ++ [LockReleaseEv]
       /\ Forall (fun e => is_lock e = false) tr
       /\ placements tr
          = planned (set_window_handles handles (self st))
                    (Py.enumerate (current_order (self st))).
Proof.
  cbv zeta. unfold position_all_windows.
  rewrite with_lock_run, get_self_bind_run, put_self_bind_run.
  rewrite (bind_Ok _ _ _ tt) by (by rewrite store_handles_for_run).
  rewrite store_handles_for_run. run_simpl. rewrite get_self_bind_run.
  cbn [self world set_window_handles window_handles current_order].
  match goal with |- context [position_all_for os ?items 0 ?st1] =>
    destruct (position_all_for_run items 0 st1) as (Hs & Hp & Hl & _);
    set (pass := position_all_for os items 0 st1) in *
  end.
  rewrite app_nil_l. split; [by rewrite Hs|]. by exists (trace pass).
Qed.

End PositionAll.

(** ** [wait_and_position] *)

Lemma dict_keys_get {V} (d : Py.dict V) k :
  k ∈ Py.dict_keys d -> is_Some (Py.dict_get d k).
Proof.
  unfold Py.dict_keys. induction d as [|[k' v] d IH]; cbn.
  - by intros ?%elem_of_nil.
  - intros [->|Hin]%elem_of_cons.
    + by rewrite String.eqb_refl.
    + destruct (String.eqb k k'); [done | by apply IH].
Qed.

Lemma scan_trace_read_only obs : Forall (fun e => is_read_only e = true) (scan_trace obs).
Proof. induction obs as [|[hwnd [title|]] obs IH]; cbn; by repeat constructor. Qed.

Section Detection.

Context {W : Type} (os : OSApi W).
Implicit Types st : state W.

#[local] Abbreviation polls := (rtc (poll_step os)).

Lemma moves_time : moves polls (time os).
Proof. apply moves_os_call. intros w. apply rtc_once. constructor. Qed.

Lemma moves_sleep ms : moves polls (sleep os ms).
Proof.
  unfold sleep. destruct (ms <? 0); [by intros st|].
  apply moves_os_call. intros w. apply rtc_once. apply (poll_sleep os ms).
Qed.

Lemma moves_GetWindowText hwnd : moves polls (GetWindowText os hwnd).
Proof. apply moves_os_call. intros w. apply rtc_once. constructor. Qed.

Lemma moves_IsWindowVisible hwnd : moves polls (IsWindowVisible os hwnd).
Proof. apply moves_os_call. intros w. apply rtc_once. constructor. Qed.

Lemma moves_EnumWindows : moves polls (EnumWindows os).
Proof. apply moves_os_call. intros w. apply rtc_once. constructor. Qed.

Lemma moves_polls_ret {A} (a : A) : moves polls (ret a).
Proof. apply moves_ret, _. Qed.

Hint Resolve moves_time moves_sleep moves_GetWindowText moves_IsWindowVisible
  moves_EnumWindows moves_polls_ret : moves.

Lemma moves_enum_callback hwnd results : moves polls (enum_callback os hwnd results).
Proof.
  unfold enum_callback.
  walk (@moves_bind W polls _) (@moves_catch W polls) moves.
Qed.

Lemma moves_find_unreal_windows : moves polls (find_unreal_windows os).
Proof.
  unfold find_unreal_windows. apply moves_bind; [apply _ | apply moves_EnumWindows |].
  intros hwnds. generalize (@nil (string * Z)).
  induction hwnds as [|hwnd hwnds IH]; intros results; cbn [enum_each].
  - apply moves_polls_ret.
  - apply moves_bind; [apply _ | apply moves_enum_callback | apply IH].
Qed.

Lemma show_titles_run windows keys : forall st,
  (forall k, k ∈ keys -> is_Some (Py.dict_get windows k)) ->
  let run := show_titles os windows keys st in
  self (final run) = self st
  /\ outcome run = Ok tt
  /\ Forall (fun e => is_read_only e = true) (trace run)
  /\ polls (world st) (world (final run)).
Proof.
  induction keys as [|k keys IH]; intros st Hkeys; cbv zeta; cbn [show_titles].
  - by repeat split.
  - destruct (Hkeys k ltac:(left)) as [hwnd ->].
    unfold GetWindowText. rewrite os_call_bind_run. cbv zeta. run_simpl.
    match goal with |- context [show_titles os windows keys ?st1] =>
      destruct (IH st1) as (Hs & Ho & Ht & Hw); [intros; apply Hkeys; by right|]
    end.
    repeat split; try done.
    + by constructor.
    + etrans; [|exact Hw]. apply rtc_once. cbn. constructor.
Qed.

Section Waiting.

Context (now : W -> Z) (few : W -> Prop) (Hdesk : waiting_desktop os now few).

Lemma polls_clock w w' : polls w w' -> now w <= now w'.
Proof.
  induction 1 as [|w1 w2 w3 Hstep _ IH]; [done|].
  etrans; [|exact IH]. by eapply clock_runs_on.
Qed.

Lemma polls_few w w' : polls w w' -> few w -> few w'.
Proof.
  induction 1 as [|w1 w2 w3 Hstep _ IH]; [done|].
  intros Hfew. apply IH. by eapply few_stays.
Qed.

(** The loop while fewer than four roles show: it returns [False] or
    runs out of polls, and with polls enough for the timeout it returns
    [False]. *)
Lemma wait_while_few timeout check_interval start_time (n : nat) :
  0 < check_interval ->
  forall last_count st,
    few (world st) ->
    let run := wait_while os n start_time timeout check_interval last_count st in
    self (final run) = self st
    /\ Forall (fun e => is_read_only e = true) (trace run)
    /\ (outcome run = Ok None \/ outcome run = Ok (Some false))
    /\ ((0 < n)%nat ->
        timeout - (now (world st) - start_time) <= (Z.of_nat n - 1) * check_interval ->
        outcome run = Ok (Some false)).
Proof.
  intros Hpos. induction n as [|n IH]; intros last st Hfew; cbv zeta; cbn [wait_while].
  { repeat split; try done; [by left | lia]. }
  unfold time. rewrite os_call_bind_run. cbv zeta. run_simpl.
  rewrite (time_reads_clock _ _ _ Hdesk).
  pose proof (poll_time os (world st)) as Hstep.
  set (w1 := (os_time os (world st)).1) in *.
  destruct (now (world st) - start_time <? timeout) eqn:Hlt; run_simpl.
  2:{ repeat split; try done; [by repeat constructor | by right]. }
  set (st1 := State (self st) w1).
  destruct (find_unreal_windows_run os st1) as (Hs1 & obs & Ht1 & Ho1).
  pose proof (moves_find_unreal_windows st1) as Hw1.
  rewrite (bind_Ok _ _ _ _ Ho1). run_simpl.
  set (windows := classified obs []) in *.
  set (st2 := final (find_unreal_windows os st1)) in *.
  assert (Hfew1 : few w1) by by eapply few_stays.
  assert (Hlen : (length windows < 4)%nat).
  { eapply (few_found _ _ _ Hdesk (self st) w1); [done | exact Ho1]. }
  set (progress := if negb (length windows =? last)%nat
                   then bind (show_titles os windows (Py.dict_keys windows))
                             (fun _ => ret (length windows))
                   else ret last).
  assert (Hprog : exists c,
    outcome (progress st2) = Ok c
    /\ self (final (progress st2)) = self st2
    /\ Forall (fun e => is_read_only e = true) (trace (progress st2))
    /\ polls (world st2) (world (final (progress st2)))).
  { subst progress. destruct (negb _).
    - destruct (show_titles_run windows (Py.dict_keys windows) st2)
        as (Hs & Ho & Ht & Hw); [apply dict_keys_get|].
      rewrite (bind_Ok _ _ _ _ Ho). run_simpl. unfold ret. run_simpl.
      rewrite app_nil_r. by eexists.
    - exists last. by repeat split. }
  destruct Hprog as (c & Ho2 & Hs2 & Ht2 & Hw2).
  rewrite (bind_Ok _ _ _ _ Ho2). run_simpl.
  set (st3 := final (progress st2)) in *.
  destruct (4 <=? length windows)%nat eqn:H4; [apply Nat.leb_le in H4; lia|].
  rewrite sleep_bind_run by lia. run_simpl.
  set (st4 := State (self st3) (os_sleep os check_interval (world st3))).
  assert (Hw : polls (world st) (world st3)).
  { etrans; [apply rtc_once, Hstep|]. etrans; [exact Hw1 | exact Hw2]. }
  assert (Hfew4 : few (world st4)).
  { eapply few_stays; [done | apply (poll_sleep os check_interval) |].
    by eapply polls_few. }
  destruct (IH c st4 Hfew4) as (Hs4 & Ht4 & Ho4 & Hdone).
  split; [by rewrite Hs4; cbn; rewrite Hs2, Hs1|]. split; [|split].
  - constructor; [done|]. rewrite Ht1.
    repeat (apply Forall_app; split); try done.
    + constructor; [done | apply scan_trace_read_only].
    + by constructor.
  - exact Ho4.
  - intros _ Hbound. apply Hdone.
    + assert (0 < Z.of_nat n * check_interval) by lia. nia.
    + pose proof (polls_clock _ _ Hw).
      pose proof (sleep_lasts _ _ _ Hdesk check_interval (world st3)).
      cbn [world st4]. nia.
Qed.

Lemma read_only_placements tr :
  Forall (fun e => is_read_only e = true) tr -> placements tr = [].
Proof.
  intros Htr. apply placements_none. eapply Forall_impl; [exact Htr|]. by intros [].
Qed.

(** C7, amended.  On a desktop that shows fewer than four roles at every
    poll, [wait_and_position] never returns [True], makes only calls
    that look at the desktop or wait, and leaves the manager as it was.
    With polls enough to reach the timeout it returns [False]; no
    placement was asked for; and the status reports the [windows_found]
    that it reported before the loop: the number of handles stored by
    an earlier pass, 0 when none was stored, as after [__init__]. *)
Theorem detection_times_out fuel timeout check_interval st :
  few (world st) -> 0 < check_interval ->
  timeout <= Z.of_nat fuel * check_interval ->
  (forall n,
     let run := wait_and_position os n timeout check_interval st in
     outcome run <> Ok (Some true)
     /\ Forall (fun e => is_read_only e = true) (trace run)
     /\ self (final run) = self st)
  /\ let run := wait_and_position os (S fuel) timeout check_interval st in
     outcome run = Ok (Some false)
     /\ self (final run) = self st
     /\ Forall (fun e => is_read_only e = true) (trace run)
     /\ placements (trace run) = []
     /\ status_windows_found (final run) = status_windows_found st
     /\ (window_handles (self st) = ∅ ->
         status_windows_found (final run) = Some 0%nat).
Proof.
  intros Hfew Hpos Hfuel.
  assert (Hrun : forall n,
    let run := wait_and_position os n timeout check_interval st in
    self (final run) = self st
    /\ Forall (fun e => is_read_only e = true) (trace run)
    /\ (outcome run = Ok None \/ outcome run = Ok (Some false))
    /\ (n = S fuel -> outcome run = Ok (Some false))).
  { intros n. cbv zeta. unfold wait_and_position, time.
    rewrite os_call_bind_run. cbv zeta. run_simpl.
    rewrite (time_reads_clock _ _ _ Hdesk).
    pose proof (poll_time os (world st)) as Hstep.
    set (st1 := State (self st) (os_time os (world st)).1).
    destruct (wait_while_few timeout check_interval (now (world st)) n Hpos 0%nat st1)
      as (Hs & Ht & Ho & Hdone); [by eapply few_stays|].
    split; [done|]. split; [by constructor|]. split; [done|].
    intros ->. apply Hdone; [lia|].
    pose proof (clock_runs_on _ _ _ Hdesk _ _ Hstep). cbn [world st1]. lia. }
  split.
  - intros n. cbv zeta. destruct (Hrun n) as (Hs & Ht & Ho & _).
    split; [by destruct Ho as [-> | ->]|]. done.
  - destruct (Hrun (S fuel)) as (Hs & Ht & _ & Ho). cbv zeta.
    split; [by apply Ho|]. split; [done|]. split; [done|].
    split; [by apply read_only_placements|].
    rewrite !status_windows_found_run, Hs. split; [done|]. by intros ->.
Qed.

End Waiting.

End Detection.

(** ** The stored order and the stored handles over the life of a manager *)

Section Life.

Context {W : Type} (os : OSApi W).
Implicit Types st : state W.

Lemma find_unreal_windows_preserves {X} (f : Manager -> X) :
  preserves f (find_unreal_windows os).
Proof. intros st. by destruct (find_unreal_windows_run os st) as [-> _]. Qed.

Lemma position_window_preserves {X} (f : Manager -> X) hwnd x y width height retries :
  preserves f (position_window os hwnd x y width height retries).
Proof.
  intros st. by destruct (position_window_run os hwnd x y width height retries st) as [-> _].
Qed.

Lemma show_titles_preserves {X} (f : Manager -> X) windows keys :
  preserves f (show_titles os windows keys).
Proof.
  induction keys as [|k keys IH]; cbn [show_titles]; unfold GetWindowText.
  - apply preserves_ret.
  - walk (@preserves_bind W X f) (@preserves_catch W X f) preserves.
Qed.

(** [position_all_windows] writes the handles and nothing else. *)
Lemma position_all_windows_preserves {X} (f : Manager -> X) windows :
  (forall handles me, f (set_window_handles handles me) = f me) ->
  preserves f (position_all_windows os windows).
Proof.
  intros Hf st. destruct (position_all_windows_run os windows st) as [-> _]. apply Hf.
Qed.

Lemma get_status_preserves {X} (f : Manager -> X) : preserves (W:=W) f get_status.
Proof. intros st. unfold get_status. by rewrite with_lock_run. Qed.

Hint Resolve find_unreal_windows_preserves position_window_preserves
  show_titles_preserves get_status_preserves : preserves.

Lemma wait_while_preserves {X} (f : Manager -> X) fuel start_time timeout check_interval :
  (forall handles me, f (set_window_handles handles me) = f me) ->
  forall last_count,
    preserves f (wait_while os fuel start_time timeout check_interval last_count).
Proof.
  intros Hf. pose proof (fun windows => position_all_windows_preserves f windows Hf).
  induction fuel as [|fuel IH]; intros last; cbn [wait_while]; unfold time, sleep.
  - apply preserves_ret.
  - walk (@preserves_bind W X f) (@preserves_catch W X f) preserves.
Qed.

Lemma wait_and_position_preserves {X} (f : Manager -> X) fuel timeout check_interval :
  (forall handles me, f (set_window_handles handles me) = f me) ->
  preserves f (wait_and_position os fuel timeout check_interval).
Proof.
  intros Hf. unfold wait_and_position, time.
  apply preserves_bind; [apply preserves_os_call|].
  intros start_time. by apply wait_while_preserves.
Qed.

Lemma show_items_preserves {X} (f : Manager -> X) items :
  preserves f (show_items os items).
Proof.
  induction items as [|[window_type hwnd] items IH]; cbn [show_items]; unfold GetWindowText.
  - apply preserves_ret.
  - walk (@preserves_bind W X f) (@preserves_catch W X f) preserves.
Qed.

Lemma manual_position_preserves {X} (f : Manager -> X) :
  (forall handles me, f (set_window_handles handles me) = f me) ->
  preserves f (manual_position os).
Proof.
  intros Hf. pose proof (fun windows => position_all_windows_preserves f windows Hf).
  pose proof (show_items_preserves f).
  unfold manual_position.
  walk (@preserves_bind W X f) (@preserves_catch W X f) preserves.
Qed.

(** [reorder_windows] writes the order and nothing else, and writes only
    an order that passed its checks. *)
Lemma reorder_windows_self new_order st :
  self (final (reorder_windows os new_order st)) = self st
  \/ valid_order new_order = true
     /\ self (final (reorder_windows os new_order st))
        = set_current_order new_order (self st).
Proof.
  destruct (valid_order new_order) eqn:Hv.
  - destruct (decide (window_handles (self st) = ∅)) as [Hh|Hh].
    + left. by rewrite reorder_windows_no_windows.
    + right. split; [done|]. by destruct (reorder_windows_pass os new_order st Hv Hh).
  - left. by rewrite reorder_windows_invalid.
Qed.

Lemma reorder_self data st :
  self (final (reorder os data st)) = self st
  \/ exists new_order, valid_order new_order = true
       /\ self (final (reorder os data st)) = set_current_order new_order (self st).
Proof.
  unfold reorder. rewrite catch_bind_run.
  assert (Hret : forall (r : result (reorder_result * Z)) st1,
    final ((match r with
            | Ok response => ret response
            | Raise e => ret ({| success := false; message := "Error: " +:+ e;
                                 order := None |}, 500)
            end) st1) = st1) by (by intros []).
  run_simpl. rewrite Hret. destruct data as [new_order|]; [|by left].
  assert (Hfin : final (bind (reorder_windows os new_order)
                   (fun result => ret (result, if success result then 200 else 400)) st)
                 = final (reorder_windows os new_order st)).
  { destruct (outcome (reorder_windows os new_order st)) as [r|e] eqn:Ho.
    - by rewrite (bind_Ok _ _ _ _ Ho).
    - by rewrite (bind_Raise _ _ _ _ Ho). }
  rewrite Hfin. destruct (reorder_windows_self new_order st) as [?|[? ?]]; eauto.
Qed.

Lemma status_preserves {X} (f : Manager -> X) : preserves (W:=W) f status.
Proof.
  intros st. unfold status. rewrite catch_bind_run. run_simpl.
  etrans; [|apply (get_status_preserves f st)].
  by destruct (outcome (get_status st)).
Qed.

(** A call leaves the stored order, or stores one that passed the
    checks. *)
Lemma after_order c st :
  current_order (self (after os c st)) = current_order (self st)
  \/ valid_order (current_order (self (after os c st))) = true.
Proof.
  destruct c; cbn [after].
  - left. apply (find_unreal_windows_preserves current_order).
  - left. apply (position_window_preserves current_order).
  - left. by apply (position_all_windows_preserves current_order).
  - left. by apply (wait_and_position_preserves current_order).
  - left. by apply (manual_position_preserves current_order).
  - destruct (reorder_windows_self new_order st) as [->|[? ->]]; [by left | by right].
  - left. apply (get_status_preserves current_order).
  - destruct (reorder_self data st) as [->|(? & ? & ->)]; [by left | by right].
  - left. apply (status_preserves current_order).
  - by left.
Qed.

(** X27.  As long as every order that is asked for is a list of integers,
    the stored order of every manager that a process can hold is a
    permutation of 1, 2, 3, 4: it has four entries, each is in 1..4, and
    none occurs twice. *)
Theorem order_always_permutation me :
  reachable os me ->
  current_order me ≡ₚ [1; 2; 3; 4]
  /\ length (current_order me) = 4%nat
  /\ (forall x, x ∈ current_order me -> 1 <= x <= 4)
  /\ NoDup (current_order me).
Proof.
  intros Hreach.
  assert (Hperm : current_order me ≡ₚ [1; 2; 3; 4]).
  { induction Hreach as [b h|me c w _ IH].
    - cbn. apply valid_order_spec. by vm_compute.
    - destruct (after_order c (State me w)) as [->|Hv]; [done|].
      by apply valid_order_spec. }
  split; [done|]. split; [by rewrite Hperm|]. split.
  - intros x Hx. rewrite Hperm in Hx. set_unfold in Hx. lia.
  - rewrite Hperm. repeat (constructor; [set_solver|]). constructor.
Qed.

(** A call that does not run the pass of [position_all_windows] leaves
    the stored handles. *)
Lemma after_handles c st :
  stores_handles c = false ->
  window_handles (self (after os c st)) = window_handles (self st).
Proof.
  destruct c; cbn [after stores_handles]; try discriminate; intros _.
  - apply (find_unreal_windows_preserves window_handles).
  - apply (position_window_preserves window_handles).
  - by destruct (reorder_windows_self new_order st) as [->|[? ->]].
  - apply (get_status_preserves window_handles).
  - by destruct (reorder_self data st) as [->|(? & ? & ->)].
  - apply (status_preserves window_handles).
  - done.
Qed.

(** C6, amended.  [position_all_windows] replaces the stored handles by
    the classification it is given: a role that the classification holds
    gets its window, a role that it lacks has no entry afterwards,
    whatever was stored.  No call other than [position_all_windows] and
    the two methods that run it, [wait_and_position] and
    [manual_position], changes the stored handles. *)
Theorem handles_follow_classification st :
  configured (self st) ->
  (forall windows k,
     window_handles (self (after os (PositionAllWindows windows) st)) !! k =
       if decide (1 <= k <= 4) then
         name ← window_keys (self st) !! Z.to_nat (k - 1); Py.dict_get windows name
       else None)
  /\ (forall c, stores_handles c = false ->
        window_handles (self (after os c st)) = window_handles (self st)).
Proof.
  intros [_ Hkeys]. split; [|intros c; apply after_handles].
  intros windows k. cbn [after].
  destruct (position_all_windows_run os windows st) as [-> _].
  rewrite Hkeys. cbn [window_handles set_window_handles init window_keys
                      Py.enumerate Py.enumerate_from stored].
  change (0 + 1 + 1 + 1 + 1) with 4. change (0 + 1 + 1 + 1) with 3.
  change (0 + 1 + 1) with 2. change (0 + 1) with 1.
  assert (Hname : forall i name,
    (["Server"; "Client 1"; "Client 2"; "Client 3"]%string !! i = Some name) ->
    (["Server"; "Client 1"; "Client 2"; "Client 3"]%string !! i
       ≫= fun name : string => Py.dict_get windows name)
    = Py.dict_get windows name) by (by intros i name ->).
  case_decide as Hk.
  - assert (Hcase : k = 1 \/ k = 2 \/ k = 3 \/ k = 4) by lia.
    destruct Hcase as [Hc|[Hc|[Hc|Hc]]]; subst k;
      [ rewrite (Hname _ "Server"%string) by done
      | rewrite (Hname _ "Client 1"%string) by done
      | rewrite (Hname _ "Client 2"%string) by done
      | rewrite (Hname _ "Client 3"%string) by done ];
      destruct (Py.dict_get windows "Server") as [h1|],
               (Py.dict_get windows "Client 1") as [h2|],
               (Py.dict_get windows "Client 2") as [h3|],
               (Py.dict_get windows "Client 3") as [h4|];
      by repeat first [ rewrite lookup_insert_eq | rewrite lookup_insert_ne by lia
                      | rewrite lookup_empty ].
  - destruct (Py.dict_get windows "Server") as [h1|],
             (Py.dict_get windows "Client 1") as [h2|],
             (Py.dict_get windows "Client 2") as [h3|],
             (Py.dict_get windows "Client 3") as [h4|];
      repeat (rewrite lookup_insert_ne by lia); by rewrite lookup_empty.
Qed.

End Life.

(** ** Style masks *)

Lemma cleared_land_lnot mask s : cleared mask (Z.land s (Z.lnot mask)).
Proof.
  unfold cleared.
  by rewrite <- Z.land_assoc, (Z.land_comm (Z.lnot mask)), Z.land_lnot_diag, Z.land_0_r.
Qed.

Lemma cleared_land mask v m : cleared mask v -> cleared mask (Z.land v m).
Proof.
  unfold cleared. intros Hv.
  by rewrite <- Z.land_assoc, (Z.land_comm m mask), Z.land_assoc, Hv, Z.land_0_l.
Qed.

Lemma cleared_lor mask v d : cleared mask v -> Z.land d mask = 0 -> cleared mask (Z.lor v d).
Proof. unfold cleared. intros Hv Hd. by rewrite Z.land_lor_distr_l, Hv, Hd. Qed.

Lemma raised_lor mask v : raised mask (Z.lor v mask).
Proof.
  unfold raised. apply Z.bits_inj'. intros n Hn.
  rewrite Z.land_spec, Z.lor_spec. by destruct (Z.testbit v n), (Z.testbit mask n).
Qed.

Lemma raised_lor_more mask v d : raised mask v -> raised mask (Z.lor v d).
Proof.
  unfold raised. intros Hv. apply Z.bits_inj'. intros n Hn.
  rewrite Z.land_spec, Z.lor_spec, <- Hv at 1.
  rewrite <- Hv at 2. rewrite !Z.land_spec.
  by destruct (Z.testbit v n), (Z.testbit mask n), (Z.testbit d n).
Qed.

Ltac masks :=
  repeat first
    [ apply cleared_land_lnot
    | apply raised_lor
    | apply cleared_land
    | apply cleared_lor; [|reflexivity]
    | apply raised_lor_more ].

(** ** The calls of [position_window] *)

Ltac ev_solve :=
  repeat match goal with
         | |- _ /\ _ => split
         | |- _ -> _ => intros
         | |- cleared _ _ => solve [masks]
         | |- raised _ _ => solve [masks]
         end;
  first [ reflexivity | assumption | congruence
        | left; solve [ev_solve] | right; solve [ev_solve] ].

Ltac ev_leaf :=
  cbn [attempt_event]; unfold style_written, ex_style_written;
  repeat match goal with
         | H : borderless ?m = _ |- context [borderless ?m] => rewrite H
         end;
  solve [ev_solve].

Ltac events leaf :=
  repeat first
    [ progress intros
    | progress cbv zeta
    | apply emits_ret
    | apply emits_raise
    | apply emits_get_self
    | apply emits_os_try_call; intros; leaf
    | apply emits_os_call; intros; leaf
    | apply emits_bind
    | apply emits_catch
    | match goal with
      | |- context [if ?b then _ else _] => destruct b eqn:?
      | |- context [match ?p with (_, _) => _ end] => destruct p
      end ].

Section AttemptEvents.

Context {W : Type} (os : OSApi W).
Implicit Types st : state W.

Lemma position_attempt_events hwnd x y width height st :
  Forall (attempt_event (self st) hwnd x y width height)
         (trace (position_attempt os hwnd x y width height st)).
Proof.
  unfold position_attempt. rewrite get_self_bind_run.
  remember (self st) as me eqn:Hme. clear Hme. revert st.
  match goal with |- forall st, Forall ?E (trace (?m st)) => change (emits E m) end.
  unfold IsIconic, ShowWindow, GetWindowLong, SetWindowLong, SetWindowPos,
    GetWindowRect, CreateRectRgn, SetWindowRgn, sleep.
  events ev_leaf.
Qed.

Lemma position_window_for_events hwnd x y width height retries attempts : forall st,
  Forall (attempt_event (self st) hwnd x y width height)
         (trace (position_window_for os hwnd x y width height retries attempts st)).
Proof.
  induction attempts as [|attempt rest IH]; intros st; cbn [position_window_for].
  { constructor. }
  rewrite catch_bind_run. run_simpl.
  pose proof (position_attempt_events hwnd x y width height st) as Hatt.
  pose proof (position_attempt_preserves os id hwnd x y width height st) as Hkeep.
  unfold id in Hkeep.
  set (att := position_attempt os hwnd x y width height st) in *.
  apply Forall_app. split; [done|].
  assert (Hretry : forall st1, self st1 = self st ->
    Forall (attempt_event (self st) hwnd x y width height)
      (trace (bind (sleep os 200)
                (fun _ => position_window_for os hwnd x y width height retries rest) st1))).
  { intros st1 Hst1. rewrite sleep_bind_run by lia. run_simpl.
    constructor; [cbn; tauto|]. rewrite <- Hst1. apply (IH (State _ _)). }
  destruct (outcome att) as [[actual_x actual_y]|e].
  - destruct (_ && _); [constructor|].
    destruct (attempt <? retries - 1); [by apply Hretry|].
    rewrite ret_bind_run, <- Hkeep. apply IH.
  - destruct (attempt <? retries - 1); [by apply Hretry | constructor].
Qed.

Lemma position_window_events hwnd x y width height retries st :
  let run := position_window os hwnd x y width height retries st in
  self (final run) = self st
  /\ exists tr, trace run = PositionWindowEv hwnd x y width height retries :: tr
       /\ Forall (attempt_event (self st) hwnd x y width height) tr.
Proof.
  cbv zeta. split; [apply (position_window_preserves os id)|].
  unfold position_window. rewrite emit_bind_run. run_simpl.
  eexists. split; [done|]. apply position_window_for_events.
Qed.

Lemma attempt_event_hwnd me hwnd x y width height e :
  attempt_event me hwnd x y width height e ->
  (is_attempt_ev e = true /\ is_lock e = false)
  /\ forall h, event_hwnd e = Some h -> h = hwnd.
Proof.
  destruct e; cbn; try done; intros He; (split; [done|]);
    intros h [= <-]; tauto.
Qed.

(** X1.  [position_window] works on its window only: every call it makes
    is one of the calls of an attempt, none enumerates windows, reads the
    clock or takes the lock, every call that names a window names [hwnd],
    and the manager is left as it was. *)
Theorem position_window_one_window hwnd x y width height retries st :
  let run := position_window os hwnd x y width height retries st in
  self (final run) = self st
  /\ Forall (fun e =>
               (is_attempt_ev e || is_position_call e = true)
               /\ is_lock e = false
               /\ forall h, event_hwnd e = Some h -> h = hwnd) (trace run).
Proof.
  cbv zeta. destruct (position_window_events hwnd x y width height retries st)
    as (Hs & tr & -> & Htr).
  split; [done|]. constructor.
  - cbn. split; [done|]. split; [done|]. by intros h [= <-].
  - eapply Forall_impl; [exact Htr|]. intros e He.
    destruct (attempt_event_hwnd _ _ _ _ _ _ _ He) as ((Ha & Hl) & Hh).
    by rewrite Ha.
Qed.


(** X3.  Every style that [position_window] writes has [WS_MAXIMIZE] and
    [WS_MINIMIZE] cleared; in borderless mode it also has the caption, the
    thick frame, the system menu, the border and the dialog frame cleared
    and [WS_POPUP] and [WS_VISIBLE] set, and the extended style, written in
    borderless mode only, has no modal frame and no client, static or
    window edge.  Nothing else is written with [SetWindowLong]. *)
Theorem position_window_strips_chrome hwnd x y width height retries st :
  Forall (fun e =>
            match e with
            | SetWindowLongEv h idx val _ =>
                h = hwnd
                /\ (   idx = win32con.GWL_STYLE /\ style_written (self st) val
                    \/ idx = win32con.GWL_EXSTYLE /\ borderless (self st) = true
                       /\ ex_style_written val)
            | _ => True
            end)
         (trace (position_window os hwnd x y width height retries st)).
Proof.
  destruct (position_window_events hwnd x y width height retries st)
    as (_ & tr & -> & Htr).
  constructor; [done|]. eapply Forall_impl; [exact Htr|]. by intros [] He.
Qed.

(** X4.  The title bar is clipped only when both [hide_titlebar] and
    [borderless] are set: only then does [position_window] create a region
    or set one, and the region it creates starts at the left edge, just
    below the [titlebar_height] of the manager; it is set on [hwnd] with a
    redraw. *)
Theorem position_window_clips_title_bar hwnd x y width height retries st :
  Forall (fun e =>
            match e with
            | CreateRectRgnEv x1 y1 _ _ _ =>
                hide_titlebar (self st) && borderless (self st) = true
                /\ x1 = 0 /\ y1 = titlebar_height (self st)
            | SetWindowRgnEv h _ redraw _ =>
                hide_titlebar (self st) && borderless (self st) = true
                /\ h = hwnd /\ redraw = true
            | _ => True
            end)
         (trace (position_window os hwnd x y width height retries st)).
Proof.
  destruct (position_window_events hwnd x y width height retries st)
    as (_ & tr & -> & Htr).
  constructor; [done|]. eapply Forall_impl; [exact Htr|]. by intros [] He.
Qed.

End AttemptEvents.

(** ** Exceptions of an attempt *)

Section Escapes.

Context {W : Type} (os : OSApi W).
Implicit Types st : state W.

Lemma escapes_ret {A} Q (a : A) : escapes (W:=W) Q (ret a).
Proof. by intros st e. Qed.

Lemma escapes_get_self Q : escapes (W:=W) Q get_self.
Proof. by intros st e. Qed.

Lemma escapes_catch {A} Q (m : M W A) : escapes Q (catch m).
Proof. intros st e. by rewrite catch_run. Qed.

Lemma escapes_os_call {A} Q (f : W -> W * A) ev : escapes Q (os_call f ev).
Proof. intros st e. unfold os_call, outcome. by destruct (f (world st)). Qed.

Lemma escapes_os_try_call {A} (Q : event -> exn -> Prop) (f : W -> W * result A) ev :
  (forall e, Q (ev (Raise e)) e) -> escapes Q (os_try_call f ev).
Proof.
  intros HQ st e. unfold os_try_call, outcome, trace.
  destruct (f (world st)) as [w r]; cbn. intros ->. by exists [], (ev (Raise e)).
Qed.

Lemma escapes_bind {A B} Q (m : M W A) (k : A -> M W B) :
  escapes Q m -> (forall a, escapes Q (k a)) -> escapes Q (bind m k).
Proof.
  intros Hm Hk st e. destruct (outcome (m st)) as [a|e'] eqn:Hr.
  - rewrite (bind_Ok _ _ _ _ Hr). run_simpl. intros He.
    destruct (Hk a _ _ He) as (tr & ev & -> & HQ).
    exists (trace (m st) ++ tr), ev. by rewrite app_assoc.
  - rewrite (bind_Raise _ _ _ _ Hr). run_simpl. intros [= ->]. by apply Hm.
Qed.

Lemma position_attempt_escapes hwnd x y width height :
  escapes raised_by (position_attempt os hwnd x y width height).
Proof.
  unfold position_attempt, IsIconic, ShowWindow, GetWindowLong, SetWindowLong,
    SetWindowPos, GetWindowRect, CreateRectRgn, SetWindowRgn, sleep.
  repeat first
    [ progress intros
    | progress cbv zeta
    | apply escapes_ret
    | apply escapes_get_self
    | apply escapes_os_call
    | apply escapes_os_try_call; intros; reflexivity
    | apply escapes_catch
    | apply escapes_bind
    | match goal with
      | |- context [if ?b then _ else _] => destruct b
      | |- context [match ?p with (_, _) => _ end] => destruct p
      end ].
Qed.

(** X5.  An exception leaves the [try] of an attempt only from the last
    call made, and that call is one of [IsIconic], [ShowWindow],
    [GetWindowLong], [SetWindowLong], [SetWindowPos] and the read-back
    [GetWindowRect]: what the calls that clip the title bar raise is caught
    and the attempt goes on. *)
Theorem position_attempt_escape hwnd x y width height st e :
  outcome (position_attempt os hwnd x y width height st) = Raise e ->
  exists tr ev,
    trace (position_attempt os hwnd x y width height st) = tr ++ [ev]
    /\ raised_by ev e.
Proof. apply position_attempt_escapes. Qed.

(** X6.  As soon as an attempt reads the origin back within the tolerance
    [position_window] returns [True]: when the first attempt does, nothing
    is done after it, no backoff and no second attempt. *)
Theorem position_window_first_attempt hwnd x y width height retries st actual_x actual_y :
  0 < retries ->
  outcome (position_attempt os hwnd x y width height st) = Ok (actual_x, actual_y) ->
  Z.abs (actual_x - x) <= 10 -> Z.abs (actual_y - y) <= 10 ->
  position_window os hwnd x y width height retries st
  = (final (position_attempt os hwnd x y width height st),
     PositionWindowEv hwnd x y width height retries
       :: trace (position_attempt os hwnd x y width height st),
     Ok true).
Proof.
  intros Hr Hout Hx Hy. unfold position_window, Py.range.
  rewrite emit_bind_run, seqZ_cons by lia. cbn [position_window_for].
  rewrite catch_bind_run, Hout.
  replace ((Z.abs (actual_x - x) <=? 10) && (Z.abs (actual_y - y) <=? 10)) with true by lia.
  unfold ret. run_simpl. by rewrite app_nil_r.
Qed.

(** X7.  With [retries] zero or negative [position_window] makes no call
    at all and returns [False]. *)
Theorem position_window_no_retries hwnd x y width height retries st :
  retries <= 0 ->
  position_window os hwnd x y width height retries st
  = (st, [PositionWindowEv hwnd x y width height retries], Ok false).
Proof.
  intros Hr. unfold position_window, Py.range. rewrite emit_bind_run.
  replace (seqZ 0 retries) with (@nil Z); [done|].
  unfold seqZ. by replace (Z.to_nat retries) with 0%nat by lia.
Qed.

End Escapes.

(** ** The placements that succeeded *)

Lemma last_call_app prev t1 t2 :
  last_call prev (t1 ++ t2) = last_call (last_call prev t1) t2.
Proof. apply fold_left_app. Qed.

Lemma ends_ok_snoc target tr e : ends_ok target (tr ++ [e]) = read_back_ok target e.
Proof. unfold ends_ok. by rewrite last_call_app. Qed.

Lemma ends_ok_app target t1 t2 :
  ends_ok target t1 = false -> ends_ok target (t1 ++ t2) = ends_ok target t2.
Proof.
  unfold ends_ok. intros H1. rewrite last_call_app.
  destruct t2 as [|e t2]; [|done].
  change (last_call (last_call None t1) []) with (last_call None t1). by rewrite H1.
Qed.

Lemma ends_ok_cons target e tr :
  read_back_ok target e = false -> ends_ok target (e :: tr) = ends_ok target tr.
Proof. intros He. apply (ends_ok_app target [e] tr). exact He. Qed.

(** The calls of a placement are passed over up to its last. *)
Lemma successes_from_quiet tr :
  Forall (fun e => quiet e = true) tr ->
  forall target prev rest,
    successes_from target prev (tr ++ rest) = successes_from target (last_call prev tr) rest.
Proof.
  induction 1 as [|e tr He _ IH]; intros target prev rest; [done|].
  change (last_call prev (e :: tr)) with (last_call (Some e) tr).
  rewrite <- (IH target (Some e) rest). cbn [app].
  destruct e; try done. cbn in He |- *. by destruct (ms =? 150).
Qed.

(** Before a placement is under way the last call does not matter. *)
Lemma successes_from_idle prev prev' tr :
  successes_from None prev tr = successes_from None prev' tr.
Proof. by destruct tr as [|[] tr]. Qed.

Lemma successes_from_calm pre : forall prev tr,
  Forall (fun e => is_position_call e = false) pre ->
  successes_from None prev (pre ++ tr) = successes tr.
Proof.
  induction pre as [|e pre IH]; intros prev tr Hpre.
  { apply successes_from_idle. }
  apply Forall_cons in Hpre as [He Hpre].
  destruct e; try done; cbn [app successes_from]; try by apply IH.
  destruct (ms =? 150); [|by apply IH]. cbn [ended_ok]. by rewrite IH.
Qed.

Lemma successes_from_release target prev tr :
  successes_from target prev (tr ++ [LockReleaseEv]) = successes_from target prev tr.
Proof.
  revert target prev. induction tr as [|e tr IH]; intros target prev; [done|].
  destruct e; cbn [app successes_from]; try done.
  destruct (ms =? 150); [by rewrite IH | done].
Qed.

Lemma successes_locked tr : successes (LockAcquireEv :: tr ++ [LockReleaseEv]) = successes tr.
Proof.
  unfold successes. cbn [successes_from]. rewrite successes_from_release.
  apply successes_from_idle.
Qed.

Lemma read_only_successes tr :
  Forall (fun e => is_read_only e = true) tr -> successes tr = 0%nat.
Proof.
  intros Htr. rewrite <- (app_nil_r tr). unfold successes.
  rewrite successes_from_calm; [done|]. eapply Forall_impl; [exact Htr|]. by intros [].
Qed.

Lemma attempt_event_quiet me hwnd x y width height e :
  attempt_event me hwnd x y width height e -> quiet e = true.
Proof. destruct e; cbn; try done. by intros [-> | [-> | ->]]. Qed.

Section Successes.

Context {W : Type} (os : OSApi W).
Implicit Types st : state W.

(** An attempt ends within the tolerance exactly when it returns an origin
    that is. *)
Lemma position_attempt_ends_ok hwnd x y width height st :
  ends_ok (hwnd, x, y) (trace (position_attempt os hwnd x y width height st))
  = match outcome (position_attempt os hwnd x y width height st) with
    | Ok (actual_x, actual_y) =>
        (Z.abs (actual_x - x) <=? 10) && (Z.abs (actual_y - y) <=? 10)
    | Raise _ => false
    end.
Proof.
  destruct (outcome (position_attempt os hwnd x y width height st))
    as [[actual_x actual_y]|e] eqn:Hout.
  - destruct (position_attempt_ends os hwnd x y width height st _ Hout)
      as (tr & ev & -> & right & bottom & ->).
    rewrite ends_ok_snoc. cbn. by rewrite Z.eqb_refl.
  - destruct (position_attempt_escapes os hwnd x y width height st e Hout)
      as (tr & ev & -> & Hev).
    rewrite ends_ok_snoc. destruct ev; try done. cbn in Hev. by subst.
Qed.

(** [position_window] returns [True] exactly when its last call read the
    window back within the tolerance. *)
Lemma position_window_for_ends hwnd x y width height retries attempts : forall st,
  let run := position_window_for os hwnd x y width height retries attempts st in
  outcome run = Ok (ends_ok (hwnd, x, y) (trace run)).
Proof.
  induction attempts as [|attempt rest IH]; intros st; cbv zeta;
    cbn [position_window_for]; [done|].
  rewrite catch_bind_run. run_simpl.
  pose proof (position_attempt_ends_ok hwnd x y width height st) as Hatt.
  set (att := position_attempt os hwnd x y width height st) in *.
  assert (Hretry : forall st1,
    ends_ok (hwnd, x, y) (trace att) = false ->
    outcome (bind (sleep os 200)
               (fun _ => position_window_for os hwnd x y width height retries rest) st1)
    = Ok (ends_ok (hwnd, x, y)
            (trace att
             ++ trace (bind (sleep os 200)
                        (fun _ => position_window_for os hwnd x y width height retries rest)
                        st1)))).
  { intros st1 Hfalse. rewrite sleep_bind_run by lia. run_simpl.
    rewrite IH. f_equal. rewrite ends_ok_app by done. by rewrite ends_ok_cons. }
  destruct (outcome att) as [[actual_x actual_y]|e].
  - destruct ((Z.abs (actual_x - x) <=? 10) && (Z.abs (actual_y - y) <=? 10)).
    + unfold ret. run_simpl. by rewrite app_nil_r, Hatt.
    + destruct (attempt <? retries - 1); [by apply Hretry|].
      rewrite ret_bind_run, IH. f_equal. by rewrite ends_ok_app.
  - destruct (attempt <? retries - 1); [by apply Hretry|].
    unfold ret. run_simpl. by rewrite app_nil_r, Hatt.
Qed.

(** A call of [position_window] followed by the delay counts for one when
    it returned [True] and for nothing otherwise. *)
Lemma position_window_counted hwnd x y width height retries st :
  let run := position_window os hwnd x y width height retries st in
  exists ok, outcome run = Ok ok
    /\ forall target prev rest,
         successes_from target prev (trace run ++ SleepEv 150 :: rest)
         = ((if ok then 1 else 0) + successes rest)%nat.
Proof.
  cbv zeta. unfold position_window. rewrite emit_bind_run. run_simpl.
  eexists. split; [apply position_window_for_ends|].
  intros target prev rest. cbn [app successes_from].
  rewrite successes_from_quiet; [done|].
  eapply Forall_impl; [apply position_window_for_events|].
  intros e. apply attempt_event_quiet.
Qed.

(** The count that a pass returns is the number of its placements that
    succeeded. *)
Lemma reorder_for_successes items : forall success_count st,
  in_range (self st) items ->
  let run := reorder_for os items success_count st in
  outcome run = Ok (success_count + Z.of_nat (successes (trace run))).
Proof.
  induction items as [|[pos_idx window_idx] items IH]; intros c st Hrange; cbv zeta;
    cbn [reorder_for].
  { cbn. f_equal. lia. }
  apply Forall_cons in Hrange as [[Hpos Hkey] Hrange]. cbn [fst snd] in Hpos, Hkey.
  rewrite get_self_bind_run.
  destruct (window_handles (self st) !! window_idx) as [hwnd|] eqn:Hh; [|by apply IH].
  destruct (index_in_range (positions (self st)) pos_idx Hpos)
    as ([[[x y] width] height] & -> & _).
  destruct (index_in_range (window_keys (self st)) (window_idx - 1) ltac:(lia))
    as (window_key & -> & _).
  cbn [lift]. rewrite !ret_bind_run.
  destruct (position_window_counted hwnd x y width height 3 st) as (ok & Hok & Hcount).
  pose proof (position_window_preserves os id hwnd x y width height 3 st) as Hs1.
  unfold id in Hs1.
  rewrite (bind_Ok _ _ _ ok Hok), sleep_bind_run by lia. run_simpl.
  unfold successes. rewrite Hcount, IH by (by cbn [self]; rewrite Hs1).
  f_equal. unfold successes. destruct ok; lia.
Qed.


(** An accepted order with a handle stored: what is answered counts the
    placements that succeeded. *)
Lemma reorder_windows_counted new_order st :
  valid_order new_order = true -> window_handles (self st) <> ∅ ->
  in_range (self st) (Py.enumerate new_order) ->
  let run := reorder_windows os new_order st in
  let k := Z.of_nat (successes (trace run)) in
  (successes (trace run) <= length (planned (self st) (Py.enumerate new_order)))%nat
  /\ outcome run =
       Ok (if k =? 4 then
             {| success := true;
                message := "Successfully reordered to " +:+ Py.str_list new_order;
                order := Some new_order |}
           else
             {| success := false;
                message := "Only positioned " +:+ Py.str_int k +:+ "/4 windows";
                order := Some new_order |}).
Proof.
  unfold valid_order, reorder_windows. intros Hv Hh Hrange.
  apply andb_true_iff in Hv as [[Hlen Hall]%andb_true_iff Hsize].
  rewrite Hlen, Hall, Hsize. cbn [negb]. rewrite get_self_bind_run.
  rewrite bool_decide_eq_false_2 by done. cbv zeta.
  rewrite with_lock_run, get_self_bind_run, put_self_bind_run. run_simpl.
  set (st1 := State (set_current_order new_order (self st)) (world st)).
  destruct (reorder_for_run os (Py.enumerate new_order) 0 st1) as (_ & _ & _ & Hn).
  destruct (Hn Hrange) as (n & Hout & Hle).
  pose proof (reorder_for_successes (Py.enumerate new_order) 0 st1 Hrange) as Hcount.
  cbv zeta in Hcount. rewrite Hout in Hcount. injection Hcount as Hcount.
  assert (Hplan : planned (self st1) (Py.enumerate new_order)
                  = planned (self st) (Py.enumerate new_order)) by by apply planned_ext.
  rewrite Hplan in Hle.
  rewrite (bind_Ok _ _ _ n Hout). run_simpl.
  assert (Htrace : successes (trace (reorder_for os (Py.enumerate new_order) 0 st1)
                              ++ trace ((if n =? 4
                                         then ret {| success := true;
                                                     message := "Successfully reordered to "
                                                                +:+ Py.str_list new_order;
                                                     order := Some new_order |}
                                         else ret {| success := false;
                                                     message := "Only positioned "
                                                                +:+ Py.str_int n
                                                                +:+ "/4 windows";
                                                     order := Some new_order |})
                                          (final (reorder_for os (Py.enumerate new_order) 0 st1))))
                   = Z.to_nat n).
  { destruct (n =? 4); cbn [ret trace fst snd]; rewrite app_nil_r; lia. }
  rewrite successes_locked, Htrace. rewrite Z2Nat.id by lia.
  split; [lia|]. by destruct (n =? 4).
Qed.


End Successes.

(** ** The outcomes of [reorder_windows] *)

Section ReorderOutcomes.

Context {W : Type} (os : OSApi W).
Implicit Types st : state W.

(** C1, amended.  For a permutation [p] of 1..4, [reorder_windows] has
    exactly one of three outcomes: it succeeds, four placements
    succeeded, and the status reports the order [p]; or no handle is
    stored, it fails with "No windows found" and nothing has changed; or
    handles are stored, the number [k] of placements that succeeded is
    less than four, it fails with "Only positioned k/4 windows", and the
    status reports the order [p]. *)
Theorem reorder_outcomes p st :
  p ≡ₚ [1; 2; 3; 4] -> configured (self st) -> three_outcomes os p st.
Proof.
  unfold three_outcomes.
  intros Hp Hconf. cbv zeta. apply valid_order_spec in Hp as Hv.
  destruct (decide (window_handles (self st) = ∅)) as [Hh|Hh].
  - rewrite reorder_windows_no_windows by done. run_simpl.
    eexists. split; [done|]. right. left. by repeat split.
  - destruct (reorder_windows_pass os p st Hv Hh) as (Hs & _ & _).
    destruct (reorder_windows_counted os p st Hv Hh) as (Hle & Hout);
      [by apply in_range_enumerate|].
    assert (Hlen : (length (planned (self st) (Py.enumerate p)) <= 4)%nat).
    { etrans; [apply planned_length_items|]. by rewrite enumerate_length, Hp. }
    rewrite Hout, status_order_run, Hs.
    destruct (Z.of_nat (successes (trace (reorder_windows os p st))) =? 4) eqn:Hn4.
    + eexists. split; [done|]. left. cbn. repeat split; try done. lia.
    + eexists. split; [done|]. right. right. cbn. repeat split; try done. lia.
Qed.

(** C9.  For a permutation [p] of 1..4 and a manager that stores some
    handle, [reorder_windows] stores the order [p]; it asks for the
    placement of exactly the slots whose window has a handle, in slot
    order, and passes over the others without raising; with [k] the
    number of placements that succeeded, which is at most the number of
    placements asked for and at most the number of handles, it reports
    success when [k = 4] and "Only positioned k/4 windows" otherwise.  So
    success is reported only when four placements succeeded, and if fewer
    than four handles are stored the result is always that failure. *)
Theorem reorder_with_few_handles p st :
  p ≡ₚ [1; 2; 3; 4] -> configured (self st) -> window_handles (self st) <> ∅ ->
  let run := reorder_windows os p st in
  let k := Z.of_nat (successes (trace run)) in
  let failure :=
    {| success := false;
       message := "Only positioned " +:+ Py.str_int k +:+ "/4 windows";
       order := Some p |} in
  self (final run) = set_current_order p (self st)
  /\ placements (trace run) =
       omap (fun item : Z * Z =>
               hwnd ← window_handles (self st) !! item.2;
               slot ← positions (self st) !! Z.to_nat item.1;
               Some (hwnd, slot)) (Py.enumerate p)
  /\ (successes (trace run) <= length (placements (trace run)))%nat
  /\ (successes (trace run) <= size (window_handles (self st)))%nat
  /\ outcome run =
       Ok (if k =? 4 then
             {| success := true;
                message := "Successfully reordered to " +:+ Py.str_list p;
                order := Some p |}
           else failure)
  /\ ((size (window_handles (self st)) < 4)%nat -> outcome run = Ok failure).
Proof.
  intros Hp Hconf Hh. cbv zeta. apply valid_order_spec in Hp as Hv.
  pose proof (in_range_enumerate _ _ Hconf Hp) as Hr.
  destruct (reorder_windows_pass os p st Hv Hh) as (Hs & (tr & Htr & _ & Hpl) & _).
  destruct (reorder_windows_counted os p st Hv Hh Hr) as (Hle & Hout).
  assert (Hplaced : placements (trace (reorder_windows os p st))
                    = planned (self st) (Py.enumerate p)).
  { by rewrite Htr, placements_locked. }
  rewrite Hplaced.
  split; [done|]. split; [by apply planned_in_range|].
  assert (Hsize : (length (planned (self st) (Py.enumerate p))
                   <= size (window_handles (self st)))%nat).
  { apply planned_length. unfold Py.enumerate. rewrite enumerate_from_snd.
    rewrite Hp. repeat (constructor; [set_solver|]). constructor. }
  split; [done|]. split; [lia|]. split; [done|].
  intros Hfew. rewrite Hout.
  by replace (Z.of_nat (successes (trace (reorder_windows os p st))) =? 4) with false by lia.
Qed.

End ReorderOutcomes.

(** ** What [find_unreal_windows] keeps of an enumeration *)

Lemma classified_app obs1 obs2 : forall results,
  classified (obs1 ++ obs2) results = classified obs2 (classified obs1 results).
Proof.
  induction obs1 as [|[h [title|]] obs1 IH]; intros results; cbn [classified app]; [done| |done].
  by destruct (classify title).
Qed.

Lemma dict_get_keys {V} (d : Py.dict V) k v :
  Py.dict_get d k = Some v -> k ∈ Py.dict_keys d.
Proof.
  unfold Py.dict_keys. induction d as [|[k' v'] d IH]; cbn; [done|].
  destruct (String.eqb k k') eqn:Hk.
  - apply String.eqb_eq in Hk as ->. intros _. left.
  - intros Hget. right. by apply IH.
Qed.

Lemma role_names_NoDup : NoDup role_names.
Proof. unfold role_names. repeat (constructor; [set_solver|]). constructor. Qed.

Section FindWindowsMore.

Context {W : Type} (os : OSApi W).
Implicit Types st : state W.

(** X8.  When several visible windows carry the same role,
    [find_unreal_windows] returns the one enumerated last: each
    assignment to [results] overwrites the one before. *)
Theorem find_unreal_windows_last_wins st :
  let run := find_unreal_windows os st in
  exists (obs : list seen) (windows : Py.dict Z),
    trace run = EnumWindowsEv (obs.*1) :: scan_trace obs
    /\ outcome run = Ok windows
    /\ forall before hwnd title later name,
         obs = before ++ (hwnd, Some title) :: later ->
         classify title = Some name ->
         (forall h t, (h, Some t) ∈ later -> classify t <> Some name) ->
         Py.dict_get windows name = Some hwnd.
Proof.
  cbv zeta. destruct (find_unreal_windows_run os st) as (_ & obs & Ht & Ho).
  exists obs, (classified obs []). split; [done|]. split; [done|].
  intros before hwnd title later name -> Hc Hlater.
  rewrite classified_app. cbn [classified]. rewrite Hc.
  destruct (Py.dict_get (classified later _) name) as [h|] eqn:Hget.
  - apply classified_Some in Hget as [(t & Hin & Hc')|Hget].
    + by destruct (Hlater h t).
    + rewrite dict_get_set, String.eqb_refl in Hget. congruence.
  - apply classified_None in Hget as [Hget _].
    by rewrite dict_get_set, String.eqb_refl in Hget.
Qed.

(** X9.  [find_unreal_windows] returns at most four entries, and four
    exactly when each of the four roles is carried by a visible window:
    this is what [len(windows) >= 4] tests in [wait_and_position]. *)
Theorem find_unreal_windows_count st :
  let run := find_unreal_windows os st in
  exists (obs : list seen) (windows : Py.dict Z),
    trace run = EnumWindowsEv (obs.*1) :: scan_trace obs
    /\ outcome run = Ok windows
    /\ (length windows <= 4)%nat
    /\ ((4 <= length windows)%nat <->
        forall name, name ∈ role_names ->
          exists hwnd title, (hwnd, Some title) ∈ obs /\ classify title = Some name).
Proof.
  cbv zeta. destruct (find_unreal_windows_run os st) as (_ & obs & Ht & Ho).
  exists obs, (classified obs []). split; [done|]. split; [done|].
  destruct (classified_keys obs []) as [Hnd Hsub]; [constructor | set_solver|].
  assert (Hlen : length (classified obs []) = length (Py.dict_keys (classified obs [])))
    by (unfold Py.dict_keys; by rewrite length_map).
  rewrite Hlen.
  assert (Hms : Py.dict_keys (classified obs []) ⊆+ role_names)
    by by apply NoDup_submseteq.
  split; [by apply submseteq_length in Hms|]. split.
  - intros H4 name Hname.
    apply submseteq_length_Permutation in Hms; [|done].
    rewrite <- Hms in Hname. apply dict_keys_get in Hname as [hwnd Hget].
    apply classified_Some in Hget as [(title & Hin & Hc)|Hget]; [|done].
    by exists hwnd, title.
  - intros Hall.
    assert (Hms' : role_names ⊆+ Py.dict_keys (classified obs [])).
    { apply NoDup_submseteq; [apply role_names_NoDup|].
      intros name Hname. destruct (Hall name Hname) as (hwnd & title & Hin & Hc).
      destruct (Py.dict_get (classified obs []) name) as [h|] eqn:Hget.
      - by eapply dict_get_keys.
      - apply classified_None in Hget as [_ Hnone]. by destruct (Hnone hwnd title). }
    by apply submseteq_length in Hms'.
Qed.

End FindWindowsMore.

(** ** The windows that a pass touches *)

Lemma reorder_event_weaken (P Q : Z -> Prop) e :
  (forall h, P h -> Q h) -> reorder_event P e -> reorder_event Q e.
Proof. intros HPQ. destruct e; cbn; try done; intros He h Hh; apply HPQ; by apply He. Qed.

Lemma pass_event_weaken (P Q : Z -> Prop) e :
  (forall h, P h -> Q h) -> pass_event P e -> pass_event Q e.
Proof. intros HPQ. destruct e; cbn; try done; intros He h Hh; apply HPQ; by apply He. Qed.

Lemma reorder_event_pass P e : reorder_event P e -> pass_event P e.
Proof. by destruct e. Qed.

Lemma stored_lookup windows items : forall handles k h,
  stored windows items handles !! k = Some h ->
  handles !! k = Some h
  \/ exists name, name ∈ items.*2 /\ Py.dict_get windows name = Some h.
Proof.
  induction items as [|[i name] items IH]; intros handles k h; cbn [stored]; [by left|].
  intros [Hk|(name' & Hin & Hget)]%IH.
  - destruct (Py.dict_get windows name) as [hwnd|] eqn:Hget; [|by left].
    destruct (decide (k = i + 1)) as [->|Hne].
    + rewrite lookup_insert_eq in Hk. injection Hk as ->.
      right. exists name. split; [left | done].
    + rewrite lookup_insert_ne in Hk by done. by left.
  - right. exists name'. split; [by right | done].
Qed.

Section Touches.

Context {W : Type} (os : OSApi W).
Implicit Types st : state W.

Lemma position_window_names hwnd x y width height retries st :
  Forall (reorder_event (eq hwnd))
         (trace (position_window os hwnd x y width height retries st)).
Proof.
  destruct (position_window_events os hwnd x y width height retries st)
    as (_ & tr & -> & Htr).
  constructor; [by intros h [= <-]|].
  eapply Forall_impl; [exact Htr|]. intros e He.
  destruct (attempt_event_hwnd _ _ _ _ _ _ _ He) as ((Ha & _) & Hh).
  destruct e; try done; intros h Hev; symmetry; by apply Hh.
Qed.

Lemma reorder_for_names items : forall success_count st,
  Forall (reorder_event
            (fun h => exists k, k ∈ items.*2 /\ window_handles (self st) !! k = Some h))
         (trace (reorder_for os items success_count st)).
Proof.
  induction items as [|[pos_idx window_idx] items IH]; intros c st; cbn [reorder_for].
  { constructor. }
  assert (Hrest : forall c' st', self st' = self st ->
    Forall (reorder_event
              (fun h => exists k, k ∈ ((pos_idx, window_idx) :: items).*2
                          /\ window_handles (self st) !! k = Some h))
           (trace (reorder_for os items c' st'))).
  { intros c' st' Hst'. eapply Forall_impl; [apply IH|]. intros e.
    apply reorder_event_weaken. intros h (k & Hk & Hh). exists k.
    split; [by right | by rewrite <- Hst']. }
  rewrite get_self_bind_run.
  destruct (window_handles (self st) !! window_idx) as [hwnd|] eqn:Hh; [|by apply Hrest].
  destruct (Py.index (positions (self st)) pos_idx) as [[[[x y] width] height]|e];
    cbn [lift]; [rewrite ret_bind_run | rewrite raise_bind_run; constructor].
  destruct (Py.index (window_keys (self st)) (window_idx - 1)) as [window_key|e];
    cbn [lift]; [rewrite ret_bind_run | rewrite raise_bind_run; constructor].
  destruct (position_window_pass os hwnd x y width height 3 st) as (Hs1 & (ok & Hok) & _).
  rewrite (bind_Ok _ _ _ ok Hok), sleep_bind_run by lia. run_simpl.
  apply Forall_app. split.
  - eapply Forall_impl; [apply position_window_names|]. intros e.
    apply reorder_event_weaken. intros h <-. exists window_idx. split; [left | done].
  - constructor; [by intros h [=]|]. by apply Hrest.
Qed.

Lemma position_all_for_names items : forall success_count st,
  Forall (pass_event
            (fun h => exists k, k ∈ items.*2 /\ window_handles (self st) !! k = Some h))
         (trace (position_all_for os items success_count st)).
Proof.
  induction items as [|[pos_idx window_idx] items IH]; intros c st; cbn [position_all_for].
  { constructor. }
  assert (Hrest : forall c' st', self st' = self st ->
    Forall (pass_event
              (fun h => exists k, k ∈ ((pos_idx, window_idx) :: items).*2
                          /\ window_handles (self st) !! k = Some h))
           (trace (position_all_for os items c' st'))).
  { intros c' st' Hst'. eapply Forall_impl; [apply IH|]. intros e.
    apply pass_event_weaken. intros h (k & Hk & Hh). exists k.
    split; [by right | by rewrite <- Hst']. }
  rewrite get_self_bind_run.
  destruct (window_handles (self st) !! window_idx) as [hwnd|] eqn:Hh; [|by apply Hrest].
  destruct (Py.index (positions (self st)) pos_idx) as [[[[x y] width] height]|e];
    cbn [lift]; [rewrite ret_bind_run | rewrite raise_bind_run; constructor].
  destruct (Py.index (window_keys (self st)) (window_idx - 1)) as [window_key|e];
    cbn [lift]; [rewrite ret_bind_run | rewrite raise_bind_run; constructor].
  unfold GetWindowText. rewrite os_call_bind_run. cbv zeta. run_simpl.
  set (st0 := State (self st) _).
  constructor.
  { intros h [= <-]. exists window_idx. split; [left | done]. }
  destruct (position_window_pass os hwnd x y width height 3 st0) as (Hs1 & (ok & Hok) & _).
  rewrite (bind_Ok _ _ _ ok Hok), sleep_bind_run by lia. run_simpl.
  apply Forall_app. split.
  - eapply Forall_impl; [apply position_window_names|]. intros e He.
    apply reorder_event_pass. revert He.
    apply reorder_event_weaken. intros h <-. exists window_idx. split; [left | done].
  - constructor; [by intros h [=]|]. by apply Hrest.
Qed.

(** X10.  [reorder_windows] never looks for windows: it makes no
    enumeration, asks for no title, does not read the clock, and every
    window it touches is a handle that was stored under an index of the
    new order. *)
Theorem reorder_windows_stored_handles_only new_order st :
  Forall (reorder_event
            (fun h => exists k, k ∈ new_order /\ window_handles (self st) !! k = Some h))
         (trace (reorder_windows os new_order st)).
Proof.
  destruct (valid_order new_order) eqn:Hv.
  2:{ rewrite reorder_windows_invalid by done. constructor. }
  destruct (decide (window_handles (self st) = ∅)) as [Hh|Hh].
  { rewrite reorder_windows_no_windows by done. constructor. }
  unfold reorder_windows, valid_order in *.
  apply andb_true_iff in Hv as [[Hlen Hrange]%andb_true_iff Hsize].
  rewrite Hlen, Hrange, Hsize. cbn [negb].
  rewrite get_self_bind_run, bool_decide_eq_false_2 by done.
  rewrite with_lock_run. run_simpl.
  rewrite get_self_bind_run, put_self_bind_run.
  set (st1 := State (set_current_order new_order (self st)) (world st)).
  constructor; [by intros h [=]|]. apply Forall_app. split; [|by repeat constructor].
  pose proof (reorder_for_names (Py.enumerate new_order) 0 st1) as Hnames.
  unfold Py.enumerate in Hnames. rewrite enumerate_from_snd in Hnames.
  destruct (outcome (reorder_for os (Py.enumerate new_order) 0 st1)) as [n|e] eqn:Ho.
  - rewrite (bind_Ok _ _ _ _ Ho). run_simpl.
    destruct (n =? 4); unfold ret; run_simpl; rewrite app_nil_r; exact Hnames.
  - rewrite (bind_Raise _ _ _ _ Ho). exact Hnames.
Qed.

(** X11.  The pass of [position_all_windows] makes no enumeration and does
    not read the clock, and every window it touches, title query included,
    is one that [windows] holds under a role name of the manager. *)
Theorem position_all_windows_given_windows_only windows st :
  Forall (pass_event
            (fun h => exists name, name ∈ window_keys (self st)
                        /\ Py.dict_get windows name = Some h))
         (trace (position_all_windows os windows st)).
Proof.
  unfold position_all_windows.
  rewrite with_lock_run, get_self_bind_run, put_self_bind_run.
  rewrite (bind_Ok _ _ _ tt) by (by rewrite store_handles_for_run).
  rewrite store_handles_for_run. run_simpl. rewrite get_self_bind_run.
  cbn [self world set_window_handles window_handles current_order app].
  constructor; [by intros h [=]|]. apply Forall_app. split; [|by repeat constructor].
  eapply Forall_impl; [apply position_all_for_names|]. intros e.
  apply pass_event_weaken. cbn [self window_handles set_window_handles].
  intros h (k & _ & [Hk|(name & Hin & Hget)]%stored_lookup); [done|].
  exists name. split; [|done]. unfold Py.enumerate in Hin.
  by rewrite enumerate_from_snd in Hin.
Qed.

End Touches.

(** ** The pass of [position_all_windows] *)

(** The handle stored under [k] by the loop over [enumerate(keys)]. *)
Lemma stored_lookup_from windows keys : forall i handles k,
  stored windows (Py.enumerate_from i keys) handles !! k =
    match (if decide (i + 1 <= k)
           then keys !! Z.to_nat (k - 1 - i) ≫= Py.dict_get windows
           else None) with
    | Some hwnd => Some hwnd
    | None => handles !! k
    end.
Proof.
  induction keys as [|name keys IH]; intros i handles k;
    cbn [stored Py.enumerate_from].
  { by case_decide. }
  rewrite IH. destruct (decide (k = i + 1)) as [->|Hne].
  - rewrite decide_False, decide_True by lia.
    replace (Z.to_nat (i + 1 - 1 - i)) with 0%nat by lia. cbn.
    destruct (Py.dict_get windows name); [by rewrite lookup_insert_eq | done].
  - assert (Hold : match Py.dict_get windows name with
                   | Some hwnd => <[i + 1 := hwnd]> handles
                   | None => handles
                   end !! k = handles !! k).
    { destruct (Py.dict_get windows name); [by rewrite lookup_insert_ne | done]. }
    rewrite Hold. destruct (decide (i + 1 + 1 <= k)) as [Hk|Hk].
    + rewrite decide_True by lia.
      replace (Z.to_nat (k - 1 - i)) with (S (Z.to_nat (k - 1 - (i + 1)))) by lia.
      done.
    + by rewrite decide_False by lia.
Qed.

Lemma stored_enumerate windows keys k :
  stored windows (Py.enumerate keys) ∅ !! k =
    if decide (1 <= k) then keys !! Z.to_nat (k - 1) ≫= Py.dict_get windows else None.
Proof.
  unfold Py.enumerate. rewrite stored_lookup_from, lookup_empty.
  replace (k - 1 - 0) with (k - 1) by lia. change (0 + 1) with 1.
  case_decide; [|done]. by destruct (_ ≫= _).
Qed.

Lemma omap_in_range {A B} (f g : A -> option B) (P : A -> Prop) items :
  Forall P items -> (forall a, P a -> f a = g a) -> omap f items = omap g items.
Proof.
  intros Hall Hfg. induction Hall as [|a items Ha _ IH]; [done|].
  cbn. by rewrite (Hfg a Ha), IH.
Qed.

Lemma omap_length_le {A B} (f : A -> option B) (l : list A) :
  (length (omap f l) <= length l)%nat.
Proof. induction l as [|a l IH]; cbn; [done|]. destruct (f a); cbn; lia. Qed.

Lemma planned_stored me windows items :
  in_range me items ->
  planned (set_window_handles (stored windows (Py.enumerate (window_keys me)) ∅) me) items
  = omap (assignment me windows) items.
Proof.
  intros Hrange.
  rewrite (planned_in_range (set_window_handles _ me) items Hrange).
  apply (omap_in_range _ _ _ _ Hrange). intros [pos_idx window_idx] [_ [Hlo _]].
  unfold assignment. cbn [fst snd window_handles set_window_handles positions] in *.
  rewrite stored_enumerate, decide_True by done.
  by destruct (window_keys me !! Z.to_nat (window_idx - 1)) as [name|].
Qed.

Section PositionAllMore.

Context {W : Type} (os : OSApi W).
Implicit Types st : state W.

Lemma position_all_windows_full windows st :
  configured (self st) -> valid_order (current_order (self st)) = true ->
  let run := position_all_windows os windows st in
  let handles := stored windows (Py.enumerate (window_keys (self st))) ∅ in
  self (final run) = set_window_handles handles (self st)
  /\ placements (trace run)
     = omap (assignment (self st) windows) (Py.enumerate (current_order (self st)))
  /\ exists n, outcome run = Ok n
       /\ 0 <= n <= Z.of_nat (length (placements (trace run))).
Proof.
  intros Hconf Hvalid. cbv zeta.
  destruct (position_all_windows_run os windows st) as (Hself & tr & Htr & _ & Hpl).
  split; [done|].
  set (handles := stored windows (Py.enumerate (window_keys (self st))) ∅) in *.
  set (me1 := set_window_handles handles (self st)) in *.
  assert (Hrange : in_range me1 (Py.enumerate (current_order (self st)))).
  { apply in_range_enumerate; [exact Hconf | by apply valid_order_spec]. }
  assert (Hplaced : placements (trace (position_all_windows os windows st))
                    = planned me1 (Py.enumerate (current_order (self st)))).
  { by rewrite Htr, placements_locked. }
  split.
  - rewrite Hplaced. by apply planned_stored.
  - rewrite Hplaced. clear Htr Hpl Hplaced tr Hself.
    unfold position_all_windows.
    rewrite with_lock_run, get_self_bind_run, put_self_bind_run.
    rewrite (bind_Ok _ _ _ tt) by (by rewrite store_handles_for_run).
    rewrite store_handles_for_run. run_simpl. rewrite get_self_bind_run.
    cbn [self world set_window_handles window_handles current_order].
    match goal with |- context [position_all_for os ?items 0 ?st1] =>
      destruct (position_all_for_run os items 0 st1) as (_ & _ & _ & Hn)
    end.
    destruct Hn as (n & Hn & Hle); [exact Hrange|].
    exists n. split; [exact Hn | exact Hle].
Qed.

(** X12.  On a manager with the slots and role names of [__init__] and a
    stored order that passes the checks, [position_all_windows] does not
    raise: it returns a count between zero and the number of placements it
    asked for, which are, in the sequence of the stored order, the windows
    that [windows] holds under the role of each entry, each at the slot of
    the position of the entry; at most four.  The stored order is left as
    it was. *)
Theorem position_all_windows_counts windows st :
  configured (self st) -> valid_order (current_order (self st)) = true ->
  let run := position_all_windows os windows st in
  placements (trace run)
    = omap (assignment (self st) windows) (Py.enumerate (current_order (self st)))
  /\ (length (placements (trace run)) <= 4)%nat
  /\ current_order (self (final run)) = current_order (self st)
  /\ exists n, outcome run = Ok n
       /\ 0 <= n <= Z.of_nat (length (placements (trace run))).
Proof.
  intros Hconf Hvalid. cbv zeta.
  destruct (position_all_windows_full windows st Hconf Hvalid) as (Hself & Hpl & Hn).
  split; [done|]. split; [|split; [by rewrite Hself | done]].
  rewrite Hpl. etrans; [apply omap_length_le|].
  rewrite enumerate_length. apply valid_order_spec in Hvalid. by rewrite Hvalid.
Qed.

(** X13.  The first pass after [__init__], whose order is [4, 2, 3, 1]:
    with a window of each role, the Client 3 window is placed leftmost, then
    Client 1, then Client 2, and the Server rightmost, each 480 by 800. *)
Theorem default_order_layout borderless hide_titlebar w windows server client1 client2 client3 :
  Py.dict_get windows "Server" = Some server ->
  Py.dict_get windows "Client 1" = Some client1 ->
  Py.dict_get windows "Client 2" = Some client2 ->
  Py.dict_get windows "Client 3" = Some client3 ->
  placements (trace (position_all_windows os windows
                       (State (init borderless hide_titlebar) w)))
  = [(client3, (0, 0, 480, 800)); (client1, (480, 0, 480, 800));
     (client2, (960, 0, 480, 800)); (server, (1440, 0, 480, 800))].
Proof.
  intros Hs H1 H2 H3.
  destruct (position_all_windows_full windows (State (init borderless hide_titlebar) w))
    as (_ & -> & _); [done | by vm_compute|].
  cbn [self init current_order Py.enumerate Py.enumerate_from omap list_omap].
  unfold assignment. cbn [fst snd window_keys positions].
  change (Z.to_nat (4 - 1)) with 3%nat. change (Z.to_nat (2 - 1)) with 1%nat.
  change (Z.to_nat (3 - 1)) with 2%nat. change (Z.to_nat (1 - 1)) with 0%nat.
  change (Z.to_nat (0 + 1 + 1 + 1)) with 3%nat. change (Z.to_nat (0 + 1 + 1)) with 2%nat.
  change (Z.to_nat (0 + 1)) with 1%nat. change (Z.to_nat 0) with 0%nat.
  cbn. by rewrite Hs, H1, H2, H3.
Qed.

(** X14.  Running [position_all_windows] twice on the same classification
    changes nothing the second time: the manager is the one left by the
    first run, and the same windows are asked to the same slots in the
    same sequence. *)
Theorem position_all_windows_twice windows st :
  let run1 := position_all_windows os windows st in
  let run2 := position_all_windows os windows (final run1) in
  self (final run2) = self (final run1)
  /\ placements (trace run2) = placements (trace run1).
Proof.
  cbv zeta.
  destruct (position_all_windows_run os windows st) as (Hs1 & tr1 & Ht1 & _ & Hp1).
  destruct (position_all_windows_run os windows (final (position_all_windows os windows st)))
    as (Hs2 & tr2 & Ht2 & _ & Hp2).
  rewrite Hs1 in Hs2, Hp2. cbn [window_keys set_window_handles current_order] in Hs2, Hp2.
  split; [by rewrite Hs2, Hs1|].
  rewrite Ht1, Ht2, !placements_locked, Hp1, Hp2. by apply planned_ext.
Qed.

End PositionAllMore.

(** ** The waiting loop on any desktop *)



Lemma read_only_unlocked tr :
  Forall (fun e => is_read_only e = true) tr -> Forall (fun e => is_lock e = false) tr.
Proof. intros Htr. eapply Forall_impl; [exact Htr|]. by intros []. Qed.

Section WaitingMore.

Context {W : Type} (os : OSApi W).
Implicit Types st : state W.

(** One turn of the loop. *)
Lemma wait_while_S fuel start_time timeout check_interval last_count st :
  let now := (os_time os (world st)).2 in
  if now - start_time <? timeout then
    exists (obs : list seen) pre st3 c,
      let windows := classified obs [] in
      self st3 = self st
      /\ rtc (poll_step os) (world st) (world st3)
      /\ Forall (fun e => is_read_only e = true) pre
      /\ wait_while os (S fuel) start_time timeout check_interval last_count st =
         if (4 <=? length windows)%nat then
           let pass := position_all_windows os windows
                         (State (self st3) (os_sleep os 2000 (world st3))) in
           (final pass, pre ++ SleepEv 2000 :: trace pass,
            match outcome pass with
            | Ok _ => Ok (Some true)
            | Raise e => Raise e
            end)
         else if check_interval <? 0 then
           (st3, pre, Raise "sleep length must be non-negative")
         else
           let rest := wait_while os fuel start_time timeout check_interval c
                         (State (self st3) (os_sleep os check_interval (world st3))) in
           (final rest, pre ++ SleepEv check_interval :: trace rest, outcome rest)
  else
    wait_while os (S fuel) start_time timeout check_interval last_count st
    = (State (self st) (os_time os (world st)).1, [TimeEv now], Ok (Some false)).
Proof.
  cbv zeta. cbn [wait_while]. unfold time. rewrite os_call_bind_run. cbv zeta.
  pose proof (poll_time os (world st)) as Hstep.
  set (w1 := (os_time os (world st)).1) in *.
  destruct ((os_time os (world st)).2 - start_time <? timeout) eqn:Hlt; [|done].
  set (st1 := State (self st) w1).
  destruct (find_unreal_windows_run os st1) as (Hs1 & obs & Ht1 & Ho1).
  pose proof (moves_find_unreal_windows os st1) as Hw1.
  rewrite (bind_Ok _ _ _ _ Ho1). run_simpl.
  set (windows := classified obs []) in *.
  set (st2 := final (find_unreal_windows os st1)) in *.
  set (progress := if negb (length windows =? last_count)%nat
                   then bind (show_titles os windows (Py.dict_keys windows))
                             (fun _ => ret (length windows))
                   else ret last_count).
  assert (Hprog : exists c,
    outcome (progress st2) = Ok c
    /\ self (final (progress st2)) = self st2
    /\ Forall (fun e => is_read_only e = true) (trace (progress st2))
    /\ rtc (poll_step os) (world st2) (world (final (progress st2)))).
  { subst progress. destruct (negb _).
    - destruct (show_titles_run os windows (Py.dict_keys windows) st2)
        as (Hs & Ho & Ht & Hw); [apply dict_keys_get|].
      rewrite (bind_Ok _ _ _ _ Ho). run_simpl. unfold ret. run_simpl.
      rewrite app_nil_r. by eexists.
    - exists last_count. by repeat split. }
  destruct Hprog as (c & Ho2 & Hs2 & Ht2 & Hw2).
  rewrite (bind_Ok _ _ _ _ Ho2). run_simpl.
  set (st3 := final (progress st2)) in *.
  exists obs, (TimeEv (os_time os (world st)).2
               :: trace (find_unreal_windows os st1) ++ trace (progress st2)), st3, c.
  split; [by rewrite Hs2, Hs1|]. split.
  { etrans; [apply rtc_once, Hstep|]. etrans; [exact Hw1 | exact Hw2]. }
  split.
  { constructor; [done|]. apply Forall_app. split; [|done]. rewrite Ht1.
    constructor; [done | apply scan_trace_read_only]. }
  fold windows. destruct (4 <=? length windows)%nat.
  - rewrite sleep_bind_run by lia. run_simpl.
    set (pass := position_all_windows os windows _).
    destruct (outcome pass) as [n|e] eqn:Hpass.
    + rewrite (bind_Ok _ _ _ _ Hpass). unfold ret. run_simpl.
      by rewrite app_nil_r, <- app_comm_cons, <- app_assoc.
    + rewrite (bind_Raise _ _ _ _ Hpass). run_simpl.
      by rewrite <- app_comm_cons, <- app_assoc.
  - destruct (check_interval <? 0) eqn:Hneg.
    + rewrite sleep_negative by lia. run_simpl. by rewrite !app_nil_r.
    + rewrite sleep_bind_run by lia. run_simpl.
      by rewrite <- app_comm_cons, <- app_assoc.
Qed.

(** The loop either gives up, having only looked, or ends in the pass of
    [position_all_windows] on a classification of four windows. *)
Lemma wait_while_run start_time timeout check_interval fuel : forall last_count st,
  let run := wait_while os fuel start_time timeout check_interval last_count st in
  (self (final run) = self st
   /\ Forall (fun e => is_read_only e = true) (trace run)
   /\ (outcome run = Ok None \/ outcome run = Ok (Some false)
       \/ check_interval < 0
          /\ outcome run = Raise "sleep length must be non-negative"))
  \/ exists (obs : list seen) pre st1,
       let windows := classified obs [] in
       let pass := position_all_windows os windows st1 in
       (4 <= length windows)%nat
       /\ self st1 = self st
       /\ Forall (fun e => is_read_only e = true) pre
       /\ final run = final pass
       /\ trace run = pre ++ trace pass
       /\ outcome run = match outcome pass with
                        | Ok _ => Ok (Some true)
                        | Raise e => Raise e
                        end.
Proof.
  induction fuel as [|fuel IH]; intros last st; cbv zeta.
  { left. cbn. repeat split; [constructor | by left]. }
  pose proof (wait_while_S fuel start_time timeout check_interval last st) as Hstep.
  cbv zeta in Hstep.
  destruct ((os_time os (world st)).2 - start_time <? timeout).
  2:{ left. rewrite Hstep. run_simpl.
      split; [done|]. split; [by repeat constructor|]. right. by left. }
  destruct Hstep as (obs & pre & st3 & c & Hs3 & _ & Hpre & ->).
  destruct (4 <=? length (classified obs []))%nat eqn:H4.
  - right. apply Nat.leb_le in H4. run_simpl.
    exists obs, (pre ++ [SleepEv 2000]), (State (self st3) (os_sleep os 2000 (world st3))).
    cbv zeta. split; [done|]. split; [done|]. split.
    { apply Forall_app. split; [done | by repeat constructor]. }
    split; [done|]. split; [by rewrite <- app_assoc | done].
  - destruct (check_interval <? 0) eqn:Hneg.
    { left. run_simpl. split; [done|]. split; [done|]. right. right. split; [lia | done]. }
    cbv zeta. run_simpl.
    set (st4 := State (self st3) (os_sleep os check_interval (world st3))).
    destruct (IH c st4) as [(Hs & Htr & Ho)|(obs' & pre' & st1 & H4' & Hs1 & Hpre' & Hf & Ht & Ho)].
    + left. split; [by rewrite Hs|]. split; [|done].
      apply Forall_app. split; [done|]. by constructor.
    + right. exists obs', (pre ++ SleepEv check_interval :: pre'), st1. cbv zeta.
      split; [done|]. split; [by rewrite Hs1|]. split.
      { apply Forall_app. split; [done|]. by constructor. }
      split; [done|]. split; [|done]. by rewrite Ht, <- app_assoc.
Qed.

Lemma wait_and_position_run fuel timeout check_interval st :
  let run := wait_and_position os fuel timeout check_interval st in
  (self (final run) = self st
   /\ Forall (fun e => is_read_only e = true) (trace run)
   /\ (outcome run = Ok None \/ outcome run = Ok (Some false)
       \/ check_interval < 0
          /\ outcome run = Raise "sleep length must be non-negative"))
  \/ exists (obs : list seen) pre st1,
       let windows := classified obs [] in
       let pass := position_all_windows os windows st1 in
       (4 <= length windows)%nat
       /\ self st1 = self st
       /\ Forall (fun e => is_read_only e = true) pre
       /\ final run = final pass
       /\ trace run = pre ++ trace pass
       /\ outcome run = match outcome pass with
                        | Ok _ => Ok (Some true)
                        | Raise e => Raise e
                        end.
Proof.
  cbv zeta. unfold wait_and_position, time. rewrite os_call_bind_run. cbv zeta. run_simpl.
  set (st0 := State (self st) _). set (start_time := (os_time os (world st)).2).
  destruct (wait_while_run start_time timeout check_interval fuel 0%nat st0)
    as [(Hs & Htr & Ho)|(obs & pre & st1 & H4 & Hs1 & Hpre & Hf & Ht & Ho)].
  - left. split; [done|]. split; [by constructor | done].
  - right. exists obs, (TimeEv start_time :: pre), st1. cbv zeta.
    split; [done|]. split; [done|]. split; [by constructor|].
    split; [done|]. split; [by rewrite Ht | done].
Qed.


End WaitingMore.

(** ** The waiting loop ends *)

Section Ticking.

Context {W : Type} (os : OSApi W) (now : W -> Z) (Hclock : ticking_clock os now).
Implicit Types st : state W.

Lemma ticking_polls w w' : rtc (poll_step os) w w' -> now w <= now w'.
Proof.
  induction 1 as [|w1 w2 w3 Hstep _ IH]; [done|].
  pose proof (tick_runs_on _ _ Hclock _ _ Hstep). lia.
Qed.

Lemma wait_while_ends start_time timeout check_interval (n : nat) :
  0 < check_interval ->
  forall last_count st,
    (0 < n)%nat ->
    timeout - (now (world st) - start_time) <= (Z.of_nat n - 1) * check_interval ->
    outcome (wait_while os n start_time timeout check_interval last_count st) <> Ok None.
Proof.
  intros Hpos. induction n as [|n IH]; intros last st Hn Hbound; [lia|].
  pose proof (wait_while_S os n start_time timeout check_interval last st) as Hstep.
  cbv zeta in Hstep. rewrite (tick_reads _ _ Hclock) in Hstep.
  destruct (now (world st) - start_time <? timeout) eqn:Hlt.
  2:{ by rewrite Hstep. }
  destruct Hstep as (obs & pre & st3 & c & Hs3 & Hw3 & Hpre & ->).
  destruct (4 <=? length (classified obs []))%nat; cbv zeta; run_simpl.
  { by destruct (outcome _). }
  replace (check_interval <? 0) with false by lia. run_simpl.
  pose proof (ticking_polls _ _ Hw3).
  pose proof (tick_sleep _ _ Hclock check_interval (world st3)).
  apply IH; cbn [world]; [|nia].
  assert (0 < Z.of_nat n * check_interval) by lia. nia.
Qed.

(** X16.  On a desktop whose clock ticks, whatever windows come and go,
    [wait_and_position] ends: with a positive [check_interval] it makes at
    most one poll more than [timeout / check_interval] before it returns
    or raises. *)
Theorem wait_and_position_ends fuel timeout check_interval st :
  0 < check_interval ->
  timeout <= Z.of_nat fuel * check_interval ->
  outcome (wait_and_position os (S fuel) timeout check_interval st) <> Ok None.
Proof.
  intros Hpos Hbound. unfold wait_and_position, time.
  rewrite os_call_bind_run. cbv zeta. run_simpl.
  rewrite (tick_reads _ _ Hclock).
  apply wait_while_ends; [done | lia|]. cbn [world].
  pose proof (tick_runs_on _ _ Hclock _ _ (poll_time os (world st))). lia.
Qed.

End Ticking.

(** ** [manual_position] *)

Section ManualPosition.

Context {W : Type} (os : OSApi W).
Implicit Types st : state W.

Lemma show_items_run items : forall st,
  let run := show_items os items st in
  self (final run) = self st
  /\ outcome run = Ok tt
  /\ Forall (fun e => is_read_only e = true) (trace run).
Proof.
  induction items as [|[window_type hwnd] items IH]; intros st; cbv zeta; cbn [show_items].
  { by repeat split. }
  unfold GetWindowText. rewrite os_call_bind_run. cbv zeta. run_simpl.
  destruct (IH (State (self st) (os_GetWindowText os hwnd (world st)).1)) as (Hs & Ho & Ht).
  split; [done|]. split; [done|]. by constructor.
Qed.

Lemma manual_position_run st :
  let run := manual_position os st in
  exists (obs : list seen),
    let windows := classified obs [] in
    (windows = [] ->
       run = (final run, EnumWindowsEv (obs.*1) :: scan_trace obs, Ok false)
       /\ self (final run) = self st)
    /\ (windows <> [] ->
        exists pre st1,
          let pass := position_all_windows os windows st1 in
          self st1 = self st
          /\ Forall (fun e => is_read_only e = true) pre
          /\ final run = final pass
          /\ trace run = EnumWindowsEv (obs.*1) :: scan_trace obs ++ pre ++ trace pass
          /\ outcome run = match outcome pass with
                           | Ok success => Ok (0 <? success)
                           | Raise e => Raise e
                           end).
Proof.
  cbv zeta. unfold manual_position.
  destruct (find_unreal_windows_run os st) as (Hs1 & obs & Ht1 & Ho1).
  rewrite (bind_Ok _ _ _ _ Ho1). run_simpl.
  set (st1 := final (find_unreal_windows os st)) in *.
  exists obs. destruct (classified obs []) as [|entry rest] eqn:Hwindows.
  - split; [intros _ | done]. cbn [length Nat.eqb]. unfold ret. run_simpl.
    by rewrite app_nil_r, Ht1.
  - split; [done | intros _]. cbn [length Nat.eqb].
    set (windows := entry :: rest) in *.
    destruct (show_items_run windows st1) as (Hs2 & Ho2 & Ht2).
    rewrite (bind_Ok _ _ _ _ Ho2). run_simpl.
    set (st2 := final (show_items os windows st1)) in *.
    exists (trace (show_items os windows st1)), st2. cbv zeta.
    split; [by rewrite Hs2|]. split; [done|].
    destruct (outcome (position_all_windows os windows st2)) as [n|e] eqn:Hpass.
    + rewrite (bind_Ok _ _ _ _ Hpass). run_simpl. rewrite Ht1.
      destruct (0 <? n); unfold ret; run_simpl; by rewrite app_nil_r.
    + rewrite (bind_Raise _ _ _ _ Hpass). run_simpl. by rewrite Ht1.
Qed.


End ManualPosition.

(** ** The lock *)

Section Lock.

Context {W : Type} (os : OSApi W).
Implicit Types st : state W.

Lemma position_all_windows_locked windows st :
  locked_once (trace (position_all_windows os windows st)).
Proof.
  destruct (position_all_windows_run os windows st) as (_ & tr & -> & Hfree & _).
  exists [], tr. split; [done|]. split; [constructor | exact Hfree].
Qed.

Lemma locked_once_after pre tr :
  Forall (fun e => is_read_only e = true) pre -> locked_once tr -> locked_once (pre ++ tr).
Proof.
  intros Hpre (pre' & body & -> & Hfree & Hbody).
  exists (pre ++ pre'), body. rewrite <- app_assoc. split; [done|]. split; [|done].
  apply Forall_app. split; [by apply read_only_unlocked | done].
Qed.

Lemma reorder_windows_locked new_order st :
  trace (reorder_windows os new_order st) = []
  \/ locked_once (trace (reorder_windows os new_order st)).
Proof.
  destruct (valid_order new_order) eqn:Hv.
  2:{ left. by rewrite reorder_windows_invalid. }
  destruct (decide (window_handles (self st) = ∅)) as [Hh|Hh].
  { left. by rewrite reorder_windows_no_windows. }
  right. destruct (reorder_windows_pass os new_order st Hv Hh) as (_ & (tr & -> & Hfree & _) & _).
  exists [], tr. split; [done|]. split; [constructor | exact Hfree].
Qed.

Lemma reorder_trace data st :
  trace (reorder os data st)
  = match data with
    | Some new_order => trace (reorder_windows os new_order st)
    | None => []
    end.
Proof.
  unfold reorder. rewrite catch_bind_run. run_simpl.
  assert (Hret : forall (r : result (reorder_result * Z)) st1,
    trace ((match r with
            | Ok response => ret response
            | Raise e => ret ({| success := false; message := "Error: " +:+ e;
                                 order := None |}, 500)
            end) st1) = []) by (by intros []).
  rewrite Hret, app_nil_r. destruct data as [new_order|]; [|done].
  destruct (outcome (reorder_windows os new_order st)) as [r|e] eqn:Ho.
  - rewrite (bind_Ok _ _ _ _ Ho). unfold ret. run_simpl. by rewrite app_nil_r.
  - by rewrite (bind_Raise _ _ _ _ Ho).
Qed.

Lemma status_trace st : trace (status (W:=W) st) = [LockAcquireEv; LockReleaseEv].
Proof.
  unfold status. rewrite catch_bind_run. run_simpl.
  unfold get_status. by rewrite with_lock_run.
Qed.

(** X18.  Whatever is called on a manager, on whatever desktop, the lock
    is either not touched or taken exactly once: it is never taken while
    it is held, it is released on the way out also when the body raises,
    and nothing is done after the release. *)
Theorem lock_discipline c st :
  lock_free (calls os c st) \/ locked_once (calls os c st).
Proof.
  destruct c; cbn [calls].
  - left. destruct (find_unreal_windows_run os st) as (_ & obs & -> & _).
    apply read_only_unlocked. constructor; [done | apply scan_trace_read_only].
  - left. by destruct (position_window_pass os hwnd x y width height retries st)
      as (_ & _ & _ & Hfree).
  - right. apply position_all_windows_locked.
  - destruct (wait_and_position_run os fuel timeout check_interval st)
      as [(_ & Htr & _)|(obs & pre & st1 & _ & _ & Hpre & _ & -> & _)].
    + left. by apply read_only_unlocked.
    + right. apply locked_once_after; [done | apply position_all_windows_locked].
  - destruct (manual_position_run os st) as (obs & Hnone & Hsome). cbv zeta in *.
    destruct (classified obs []) as [|entry rest] eqn:Hw.
    + left. destruct Hnone as [-> _]; [done|]. run_simpl.
      apply read_only_unlocked. constructor; [done | apply scan_trace_read_only].
    + right. destruct Hsome as (pre & st1 & _ & Hpre & _ & -> & _); [done|].
      change (EnumWindowsEv obs.*1 :: scan_trace obs ++ ?t)
        with ((EnumWindowsEv obs.*1 :: scan_trace obs) ++ t).
      apply locked_once_after.
      { constructor; [done | apply scan_trace_read_only]. }
      apply locked_once_after; [done | apply position_all_windows_locked].
  - destruct (reorder_windows_locked new_order st) as [-> | Hl]; [left; constructor | by right].
  - right. unfold get_status. rewrite with_lock_run. run_simpl. exists [], []. split; [done|]. split; constructor.
  - rewrite reorder_trace. destruct data as [new_order|]; [|left; constructor].
    destruct (reorder_windows_locked new_order st) as [-> | Hl]; [left; constructor | by right].
  - right. rewrite status_trace. exists [], []. split; [done|]. split; constructor.
  - left. constructor.
Qed.

End Lock.

(** ** The request handlers *)

Section Handlers.

Context {W : Type} (os : OSApi W).
Implicit Types st : state W.

Lemma reorder_run data st :
  reorder os data st
  = match data with
    | None =>
        (st, [], Ok ({| success := false;
                        message := "Missing 'order' field in JSON body";
                        order := None |}, 400))
    | Some new_order =>
        let run := reorder_windows os new_order st in
        (final run, trace run,
         Ok match outcome run with
            | Ok r => (r, if success r then 200 else 400)
            | Raise e =>
                ({| success := false; message := "Error: " +:+ e; order := None |}, 500)
            end)
    end.
Proof.
  unfold reorder. rewrite catch_bind_run. destruct data as [new_order|]; [|done].
  cbv zeta. destruct (outcome (reorder_windows os new_order st)) as [r|e] eqn:Ho.
  - rewrite (bind_Ok _ _ _ _ Ho). unfold ret. run_simpl. by rewrite !app_nil_r.
  - rewrite (bind_Raise _ _ _ _ Ho). unfold ret. run_simpl. by rewrite !app_nil_r.
Qed.

Lemma reorder_windows_answers new_order st :
  configured (self st) ->
  let run := reorder_windows os new_order st in
  exists r, outcome run = Ok r
    /\ (order r = None -> success r = false /\ final run = st /\ trace run = [])
    /\ (forall o, order r = Some o ->
          o = new_order /\ valid_order o = true
          /\ self (final run) = set_current_order o (self st)).
Proof.
  intros Hconf. cbv zeta. destruct (valid_order new_order) eqn:Hv.
  2:{ rewrite reorder_windows_invalid by done. run_simpl. by eexists. }
  destruct (decide (window_handles (self st) = ∅)) as [Hh|Hh].
  { rewrite reorder_windows_no_windows by done. run_simpl. by eexists. }
  destruct (reorder_windows_pass os new_order st Hv Hh) as (Hs & _ & Hn).
  destruct Hn as (n & _ & ->).
  { apply in_range_enumerate; [done | by apply valid_order_spec]. }
  eexists. split; [done|]. destruct (n =? 4); cbn [order]; split; try done;
    by intros o [= <-].
Qed.

(** X19.  On a manager with the slots and role names of [__init__] the
    handler of [POST /reorder] never answers 500: it answers 200 with
    [success] true or 400 with [success] false.  An answer without the
    [order] field means that nothing was called and nothing changed; an
    answer with it, success or not, means that the order of the request
    passed the checks and is now the stored order.  A body without
    [order] is answered 400 with "Missing 'order' field in JSON body". *)
Theorem reorder_request_answers data st :
  configured (self st) ->
  let run := reorder os data st in
  exists r code, outcome run = Ok (r, code)
    /\ (code = 200 /\ success r = true \/ code = 400 /\ success r = false)
    /\ (order r = None -> final run = st /\ trace run = [])
    /\ (forall o, order r = Some o ->
          data = Some o /\ valid_order o = true
          /\ self (final run) = set_current_order o (self st))
    /\ (data = None -> message r = "Missing 'order' field in JSON body"%string).
Proof.
  intros Hconf. cbv zeta. rewrite reorder_run. destruct data as [new_order|].
  - destruct (reorder_windows_answers new_order st Hconf) as (r & Ho & Hnone & Hsome).
    cbv zeta in *. rewrite Ho. run_simpl.
    exists r, (if success r then 200 else 400). split; [done|]. split; [|split; [|split]].
    + destruct (success r); [by left | by right].
    + intros Hr. by destruct (Hnone Hr) as (_ & ? & ?).
    + intros o Hr. by destruct (Hsome o Hr) as (-> & ? & ?).
    + done.
  - run_simpl. eexists _, _. split; [done|]. split; [by right|]. by repeat split.
Qed.

(** X20.  As long as no window handle is stored, as after [__init__] or
    after a detection that timed out, every [POST /reorder] whose body
    has a list of integers as its order, or no order, is answered 400
    without a call to the desktop, and the manager, its order included,
    is left as it was. *)
Theorem reorder_request_before_detection data st :
  window_handles (self st) = ∅ ->
  exists msg,
    reorder os data st
    = (st, [], Ok ({| success := false; message := msg; order := None |}, 400)).
Proof.
  intros Hh. rewrite reorder_run. destruct data as [new_order|]; [|by eexists].
  cbv zeta. destruct (valid_order new_order) eqn:Hv.
  - rewrite reorder_windows_no_windows by done. run_simpl. by eexists.
  - rewrite reorder_windows_invalid by done. run_simpl. by eexists.
Qed.

End Handlers.

(** ** What stays over the life of a manager *)

Section Invariants.

Context {W : Type} (os : OSApi W).
Implicit Types st : state W.

(** What [__init__] sets for good. *)
Lemma after_fixed {X} (f : Manager -> X) c st :
  (forall handles me, f (set_window_handles handles me) = f me) ->
  (forall o me, f (set_current_order o me) = f me) ->
  f (self (after os c st)) = f (self st).
Proof.
  intros Hh Ho. destruct c; cbn [after].
  - apply (find_unreal_windows_preserves os f).
  - apply (position_window_preserves os f).
  - by apply (position_all_windows_preserves os f).
  - by apply (wait_and_position_preserves os f).
  - by apply (manual_position_preserves os f).
  - by destruct (reorder_windows_self os new_order st) as [->|[_ ->]].
  - apply (get_status_preserves f).
  - by destruct (reorder_self os data st) as [->|(o & _ & ->)].
  - apply (status_preserves f).
  - done.
Qed.

(** The stored handles after a call are those of before, or those that
    the pass of [position_all_windows] stored for some classification. *)
Lemma after_handles_cases c st :
  window_handles (self (after os c st)) = window_handles (self st)
  \/ exists windows,
       window_handles (self (after os c st))
       = stored windows (Py.enumerate (window_keys (self st))) ∅.
Proof.
  destruct (stores_handles c) eqn:Hc; [|left; by apply after_handles].
  destruct c; try discriminate; cbn [after].
  - right. exists windows. by destruct (position_all_windows_run os windows st) as [-> _].
  - destruct (wait_and_position_run os fuel timeout check_interval st)
      as [(-> & _)|(obs & pre & st1 & _ & Hs1 & _ & -> & _)]; [by left|].
    right. exists (classified obs []).
    destruct (position_all_windows_run os (classified obs []) st1) as [-> _].
    by rewrite Hs1.
  - destruct (manual_position_run os st) as (obs & Hnone & Hsome). cbv zeta in *.
    destruct (classified obs []) as [|entry rest] eqn:Hw.
    + left. by destruct Hnone as [_ ->].
    + right. destruct Hsome as (pre & st1 & Hs1 & _ & -> & _); [done|].
      exists (entry :: rest).
      destruct (position_all_windows_run os (entry :: rest) st1) as [-> _].
      by rewrite Hs1.
Qed.

Lemma stored_enumerate_range windows keys k :
  is_Some (stored windows (Py.enumerate keys) ∅ !! k) ->
  1 <= k <= Z.of_nat (length keys).
Proof.
  rewrite stored_enumerate. case_decide as Hk; [|by intros [? ?]].
  intros [h Hh]. split; [done|].
  destruct (keys !! Z.to_nat (k - 1)) as [name|] eqn:Hname; [|done].
  apply lookup_lt_Some in Hname. lia.
Qed.

Lemma reachable_inv me :
  reachable os me ->
  configured me
  /\ current_order me ≡ₚ [1; 2; 3; 4]
  /\ forall k, is_Some (window_handles me !! k) -> 1 <= k <= 4.
Proof.
  induction 1 as [b h|me c w _ (Hconf & Hperm & Hkeys)].
  - split; [done|]. split; [apply valid_order_spec; by vm_compute|].
    intros k [hwnd Hk]. cbn in Hk. by rewrite lookup_empty in Hk.
  - assert (Hconf' : configured (self (after os c (State me w)))).
    { destruct Hconf as [Hp Hk]. split.
      - by rewrite (after_fixed positions).
      - by rewrite (after_fixed window_keys). }
    split; [done|]. split.
    + destruct (after_order os c (State me w)) as [->|Hv]; [done|].
      by apply valid_order_spec.
    + intros k. destruct (after_handles_cases c (State me w)) as [->|[windows ->]].
      * apply Hkeys.
      * intros Hk%stored_enumerate_range. cbn [self] in Hk.
        destruct Hconf as [_ Hk4]. by rewrite Hk4 in Hk.
Qed.

Lemma handles_size (handles : gmap Z Z) :
  (forall k, is_Some (handles !! k) -> 1 <= k <= 4) -> (size handles <= 4)%nat.
Proof.
  intros Hkeys. rewrite <- size_dom.
  change 4%nat with (size (list_to_set [1; 2; 3; 4] : gset Z)).
  apply subseteq_size. intros k Hk%elem_of_dom. apply Hkeys in Hk. set_unfold. lia.
Qed.

(** X21.  No call changes what [__init__] set up: the four slots, the
    role names, the two flags and the height of the title bar are after
    every call what they were before it. *)
Theorem layout_never_changes c st :
  positions (self (after os c st)) = positions (self st)
  /\ window_keys (self (after os c st)) = window_keys (self st)
  /\ borderless (self (after os c st)) = borderless (self st)
  /\ hide_titlebar (self (after os c st)) = hide_titlebar (self st)
  /\ titlebar_height (self (after os c st)) = titlebar_height (self st).
Proof. repeat split; by apply after_fixed. Qed.

(** X22.  In every manager that a process can hold, handles are stored
    under indexes 1 to 4 only, so at most four are stored, and the slots
    and role names are those of [__init__]. *)
Theorem handles_within_roles me :
  reachable os me ->
  (forall k, is_Some (window_handles me !! k) -> 1 <= k <= 4)
  /\ (size (window_handles me) <= 4)%nat
  /\ configured me.
Proof.
  intros (Hconf & _ & Hkeys)%reachable_inv.
  split; [done|]. split; [by apply handles_size | done].
Qed.

(** X23.  As long as every order that is asked for is a list of integers,
    [GET /status] on every manager that a process can hold is answered
    200, never 500: it reports at most four windows found and an order
    that is a permutation of 1, 2, 3, 4, it makes no call to the desktop
    and it changes nothing. *)
Theorem status_request_answers me (w : W) :
  reachable os me ->
  exists s,
    status (State me w) = (State me w, [LockAcquireEv; LockReleaseEv], Ok (inl s, 200))
    /\ (windows_found s <= 4)%nat
    /\ status_current_order s ≡ₚ [1; 2; 3; 4]
    /\ window_mapping s = [("1", "Server"); ("2", "Client 1");
                           ("3", "Client 2"); ("4", "Client 3")]%string.
Proof.
  intros (_ & Hperm & Hkeys)%reachable_inv.
  eexists. split.
  - unfold status. rewrite catch_bind_run. unfold get_status.
    rewrite with_lock_run, get_self_bind_run. reflexivity.
  - cbn. split; [by apply handles_size | done].
Qed.

End Invariants.

(** ** A reorder after a pass *)

Lemma planned_no_handles me items : window_handles me = ∅ -> planned me items = [].
Proof.
  intros Hh. induction items as [|[pos_idx window_idx] items IH]; cbn [planned]; [done|].
  by rewrite Hh, lookup_empty.
Qed.

Section ReorderMore.

Context {W : Type} (os : OSApi W).
Implicit Types st : state W.

Lemma reorder_windows_placements new_order st :
  valid_order new_order = true ->
  placements (trace (reorder_windows os new_order st))
  = planned (self st) (Py.enumerate new_order).
Proof.
  intros Hv. destruct (decide (window_handles (self st) = ∅)) as [Hh|Hh].
  - rewrite reorder_windows_no_windows by done. run_simpl. by rewrite planned_no_handles.
  - destruct (reorder_windows_pass os new_order st Hv Hh) as (_ & (tr & -> & _ & Hpl) & _).
    by rewrite placements_locked.
Qed.

(** X24.  A reorder that follows a pass of [position_all_windows] asks for
    the windows of that pass: for every order [p] that passes the checks,
    the window that the classification holds under the role of [p[i]] is
    asked to slot [i], in the sequence of [p], whatever the desktop has
    become meanwhile; a role that the classification lacks is skipped. *)
Theorem reorder_after_pass windows p st (w : W) :
  configured (self st) -> p ≡ₚ [1; 2; 3; 4] ->
  let st1 := State (self (final (position_all_windows os windows st))) w in
  placements (trace (reorder_windows os p st1))
  = omap (assignment (self st) windows) (Py.enumerate p).
Proof.
  intros Hconf Hp. cbv zeta.
  rewrite reorder_windows_placements by by apply valid_order_spec.
  destruct (position_all_windows_run os windows st) as [Hs _]. cbn [self]. rewrite Hs.
  apply planned_stored. by apply in_range_enumerate.
Qed.

(** The successes of a pass: when every planned placement succeeded, each
    was read back within the tolerance. *)
Lemma reorder_for_verified items : forall success_count st,
  in_range (self st) items ->
  let run := reorder_for os items success_count st in
  exists n, outcome run = Ok n
    /\ n <= success_count + Z.of_nat (length (planned (self st) items))
    /\ (n = success_count + Z.of_nat (length (planned (self st) items)) ->
        Forall (fun pl : Z * rect =>
                  exists e, e ∈ trace run /\ read_back_within pl.1 pl.2.1.1.1 pl.2.1.1.2 e)
               (planned (self st) items)).
Proof.
  induction items as [|[pos_idx window_idx] items IH]; intros c st Hrange; cbv zeta;
    cbn [reorder_for planned].
  { exists c. split; [done|]. split; [simpl; lia | constructor]. }
  apply Forall_cons in Hrange as [[Hpos Hkey] Hrange]. cbn [fst snd] in Hpos, Hkey.
  rewrite get_self_bind_run.
  destruct (window_handles (self st) !! window_idx) as [hwnd|] eqn:Hh; [|by apply IH].
  destruct (index_in_range (positions (self st)) pos_idx Hpos)
    as ([[[x y] width] height] & -> & _).
  destruct (index_in_range (window_keys (self st)) (window_idx - 1) ltac:(lia))
    as (window_key & -> & _).
  cbn [lift]. rewrite !ret_bind_run.
  destruct (position_window_run os hwnd x y width height 3 st)
    as (Hs1 & tr & Htr & ok & Hok & Htrue & _).
  rewrite (bind_Ok _ _ _ ok Hok), sleep_bind_run by lia. run_simpl.
  set (st1 := final (position_window os hwnd x y width height 3 st)) in *.
  set (st2 := State (self st1) (os_sleep os 150 (world st1))).
  assert (Hst2 : self st2 = self st) by done.
  destruct (IH (if ok then c + 1 else c) st2) as (n & Hn & Hle & Hall).
  { by rewrite Hst2. }
  rewrite Hst2 in Hle, Hall.
  exists n. split; [done|]. cbn [length]. split; [destruct ok; lia|].
  intros Hfull. assert (ok = true) as -> by (destruct ok; [done | lia]).
  constructor.
  - destruct Htrue as (tr0 & e & Htr0 & He); [done|]. exists e. split; [|done].
    rewrite Htr, Htr0. set_solver.
  - eapply Forall_impl; [apply Hall; lia|].
    intros pl (e & He & Hback). exists e. split; [|done]. set_solver.
Qed.

(** X25.  A reorder is reported as a success only when four windows were
    asked to their slots and each of them was read back, by a
    [GetWindowRect] of that window, within 10 units of the origin of its
    slot. *)
Theorem reorder_success_verified p st r :
  configured (self st) ->
  outcome (reorder_windows os p st) = Ok r -> success r = true ->
  let tr := trace (reorder_windows os p st) in
  length (placements tr) = 4%nat
  /\ Forall (fun pl : Z * rect =>
               exists e, e ∈ tr /\ read_back_within pl.1 pl.2.1.1.1 pl.2.1.1.2 e)
            (placements tr).
Proof.
  intros Hconf Hout Hsucc. cbv zeta.
  destruct (valid_order p) eqn:Hv.
  2:{ rewrite reorder_windows_invalid in Hout by done. run_simpl.
      injection Hout as <-. discriminate Hsucc. }
  destruct (decide (window_handles (self st) = ∅)) as [Hh|Hh].
  { rewrite reorder_windows_no_windows in Hout by done. run_simpl.
    injection Hout as <-. discriminate Hsucc. }
  rewrite reorder_windows_placements by done.
  revert Hout. unfold reorder_windows, valid_order in *.
  apply andb_true_iff in Hv as [[Hlen Hrange]%andb_true_iff Hsize].
  rewrite Hlen, Hrange, Hsize. cbn [negb].
  rewrite get_self_bind_run, bool_decide_eq_false_2 by done.
  rewrite with_lock_run. run_simpl.
  rewrite get_self_bind_run, put_self_bind_run.
  set (st1 := State (set_current_order p (self st)) (world st)).
  assert (Hperm : p ≡ₚ [1; 2; 3; 4]).
  { apply valid_order_spec. unfold valid_order. by rewrite Hlen, Hrange, Hsize. }
  destruct (reorder_for_verified (Py.enumerate p) 0 st1) as (n & Hn & Hle & Hall).
  { by apply in_range_enumerate. }
  rewrite (bind_Ok _ _ _ _ Hn). run_simpl.
  assert (Hplan : planned (self st1) (Py.enumerate p) = planned (self st) (Py.enumerate p))
    by by apply planned_ext.
  rewrite Hplan in Hle, Hall.
  pose proof (planned_length_items (self st) (Py.enumerate p)) as Hitems.
  assert (Hl4 : length p = 4%nat) by by apply Nat.eqb_eq.
  rewrite enumerate_length, Hl4 in Hitems.
  destruct (n =? 4) eqn:H4; unfold ret; run_simpl; intros [= <-]; [|discriminate Hsucc].
  apply Z.eqb_eq in H4. subst n.
  split; [lia|].
  eapply Forall_impl; [apply Hall; lia|].
  intros pl (e & He & Hback). exists e. split; [|done]. rewrite app_nil_r. set_solver.
Qed.

End ReorderMore.

(** ** The clip of the title bar *)

Lemma regions_fit_app hwnd t1 t2 : forall prev,
  regions_fit hwnd prev t1 -> (forall p, regions_fit hwnd p t2) ->
  regions_fit hwnd prev (t1 ++ t2).
Proof.
  induction t1 as [|e t1 IH]; intros prev H1 H2; cbn [app regions_fit] in *; [done|].
  destruct H1 as [He H1]. split; [done | by apply IH].
Qed.

Section Clip.

Context {W : Type} (os : OSApi W) (hwnd : Z).
Implicit Types st : state W.

Lemma fits_ret {A} (a : A) : fits (W:=W) hwnd (ret a).
Proof. by intros st prev. Qed.

Lemma fits_get_self : fits (W:=W) hwnd get_self.
Proof. by intros st prev. Qed.

Lemma fits_bind {A B} (m : M W A) (k : A -> M W B) :
  fits hwnd m -> (forall a, fits hwnd (k a)) -> fits hwnd (bind m k).
Proof.
  intros Hm Hk st prev. destruct (outcome (m st)) as [a|e] eqn:Ho.
  - rewrite (bind_Ok _ _ _ _ Ho). run_simpl. apply regions_fit_app; [apply Hm|].
    intros p. apply Hk.
  - rewrite (bind_Raise _ _ _ _ Ho). apply Hm.
Qed.

Lemma fits_catch {A} (m : M W A) : fits hwnd m -> fits hwnd (catch m).
Proof. intros Hm st prev. rewrite catch_run. apply Hm. Qed.

Lemma fits_os_call {A} (f : W -> W * A) ev :
  (forall a, is_region (ev a) = false) -> fits hwnd (os_call f ev).
Proof.
  intros Hev st prev. unfold os_call, trace. destruct (f (world st)) as [w a]. cbn.
  specialize (Hev a). by destruct (ev a).
Qed.

Lemma fits_os_try_call {A} (f : W -> W * result A) ev :
  (forall r, is_region (ev r) = false) -> fits hwnd (os_try_call f ev).
Proof.
  intros Hev st prev. unfold os_try_call, trace. destruct (f (world st)) as [w r]. cbn.
  specialize (Hev r). by destruct (ev r).
Qed.

(** The [try] around the clip: the region is made from the rectangle that
    was just read. *)
Lemma fits_clip top :
  fits hwnd (bind (GetWindowRect os hwnd) (fun r =>
               let '(r0, r1, r2, r3) := r in
               bind (CreateRectRgn os 0 top (r2 - r0) (r3 - r1)) (fun region =>
               bind (SetWindowRgn os hwnd region true) (fun _ => sleep os 50)))).
Proof.
  intros st prev.
  unfold bind, GetWindowRect, CreateRectRgn, SetWindowRgn, sleep, os_try_call, os_call, trace.
  cbn [world self].
  destruct (os_GetWindowRect os hwnd (world st)) as [w1 [[[[r0 r1] r2] r3]|e1]]; cbn; [|done].
  destruct (os_CreateRectRgn os 0 top (r2 - r0) (r3 - r1) w1) as [w2 [region|e2]]; cbn;
    [|done].
  by destruct (os_SetWindowRgn os hwnd region true w2) as [w3 [[]|e3]]; cbn.
Qed.

Lemma position_attempt_fits x y width height :
  fits hwnd (position_attempt os hwnd x y width height).
Proof.
  unfold position_attempt.
  repeat first
    [ progress intros
    | progress cbv zeta
    | apply fits_clip
    | apply fits_ret
    | apply fits_get_self
    | apply fits_os_call; intros; reflexivity
    | apply fits_os_try_call; intros; reflexivity
    | apply fits_catch
    | apply fits_bind
    | match goal with
      | |- context [if ?b then _ else _] => destruct b
      | |- context [match ?p with (_, _) => _ end] => destruct p
      end ].
Qed.

Lemma position_window_for_fits x y width height retries attempts :
  fits hwnd (position_window_for os hwnd x y width height retries attempts).
Proof.
  induction attempts as [|attempt rest IH]; cbn [position_window_for]; [apply fits_ret|].
  apply fits_bind; [apply fits_catch, position_attempt_fits|].
  assert (Hsleep : fits hwnd (sleep os 200)) by (by apply fits_os_call).
  intros [[actual_x actual_y]|e].
  - destruct (_ && _); [apply fits_ret|]. apply fits_bind; [|done].
    destruct (attempt <? retries - 1); [done | apply fits_ret].
  - destruct (attempt <? retries - 1); [by apply fits_bind | apply fits_ret].
Qed.

(** X26.  Every region that [position_window] creates to clip the title
    bar is made from the rectangle of [hwnd] that the call just before
    read: its right and bottom are the width and the height of that
    rectangle.  When that [GetWindowRect] raises, no region is created. *)
Theorem position_window_region_fits x y width height retries st :
  regions_fit hwnd None (trace (position_window os hwnd x y width height retries st)).
Proof.
  unfold position_window. rewrite emit_bind_run. run_simpl.
  split; [done|]. apply position_window_for_fits.
Qed.

End Clip.

(** * The sessions *)

(** ** Placement on the desktop *)

(** An obedient desktop puts the window in place at the first attempt. *)
Example position_window_obeyed :
  let run := position_window Desktop.api 101 480 0 480 800 3 Session.started in
  outcome run = Ok true /\ attempts (trace run) = 1%nat /\ backoffs (trace run) = 0%nat.
Proof. by vm_compute. Qed.

(** A window that stays at the origin is tried three times, with two
    backoffs, and given up. *)
Example position_window_stuck :
  let run := position_window Desktop.api 101 480 0 480 800 3 Session.stuck in
  outcome run = Ok false /\ attempts (trace run) = 3%nat /\ backoffs (trace run) = 2%nat.
Proof. by vm_compute. Qed.

(** Within the tolerance is enough: the window at the origin is accepted
    for a target 10 units away, and not for one 11 units away. *)
Example position_window_tolerance :
  outcome (position_window Desktop.api 101 10 (-10) 480 800 3 Session.stuck) = Ok true
  /\ outcome (position_window Desktop.api 101 11 0 480 800 3 Session.stuck) = Ok false.
Proof. by vm_compute. Qed.

(** On a handle of no window every attempt raises; the result is [False]. *)
Example position_window_stale :
  let run := position_window Desktop.api 999 0 0 480 800 3 Session.started in
  outcome run = Ok false /\ attempts (trace run) = 3%nat /\ backoffs (trace run) = 2%nat.
Proof. by vm_compute. Qed.

(** The default order puts Client 3, Client 1, Client 2 and the Server in
    the slots from left to right. *)
Example default_order_placed :
  outcome (wait_and_position Desktop.api 10 120000 500 Session.started) = Ok (Some true)
  /\ placements (trace (wait_and_position Desktop.api 10 120000 500 Session.started))
     = [(104, (0, 0, 480, 800)); (102, (480, 0, 480, 800));
        (103, (960, 0, 480, 800)); (101, (1440, 0, 480, 800))].
Proof. by vm_compute. Qed.

(** ** Reordering *)

Lemma placed_configured : configured (self Session.placed).
Proof. by vm_compute. Qed.

Lemma two_placed_configured : configured (self Session.two_placed).
Proof. by vm_compute. Qed.

(** C1, as stated, fails: after the Client 3 window was closed, a reorder
    to [1, 2, 3, 4] fails with "Only positioned 3/4 windows" and the status
    reports [1, 2, 3, 4], not the [4, 2, 3, 1] of before. *)
Lemma reorder_after_window_closed :
  ~ two_outcomes Desktop.api [1; 2; 3; 4] Session.client3_closed.
Proof.
  unfold two_outcomes. intros [(r & Hr & Hs & _)|(r & _ & _ & Ho)].
  - vm_compute in Hr. injection Hr as <-. discriminate Hs.
  - vm_compute in Ho. discriminate Ho.
Qed.

Lemma reorder_outcomes_witness :
  three_outcomes Desktop.api [1; 2; 3; 4] Session.client3_closed.
Proof.
  apply (reorder_outcomes Desktop.api [1; 2; 3; 4] Session.client3_closed).
  - reflexivity.
  - exact placed_configured.
Defined.

Lemma order_always_permutation_witness :
  let me := self (after Desktop.api (ReorderWindows [2; 1; 3; 4]) Session.placed) in
  current_order me ≡ₚ [1; 2; 3; 4]
  /\ length (current_order me) = 4%nat
  /\ (forall x, x ∈ current_order me -> 1 <= x <= 4)
  /\ NoDup (current_order me).
Proof.
  apply (order_always_permutation Desktop.api).
  apply (reachable_after Desktop.api (self Session.placed) (ReorderWindows [2; 1; 3; 4])
           (world Session.placed)).
  apply (reachable_after Desktop.api (init true true) (WaitAndPosition 10 120000 500)
           (world Session.started)).
  apply reachable_init.
Defined.

Lemma reorder_rejects_witness :
  reorder Desktop.api (Some [1; 2; 2; 3]) Session.placed
  = (Session.placed, [],
     Ok ({| success := false; message := "All values must be unique"; order := None |},
         400)).
Proof.
  destruct (reorder_rejects Desktop.api [1; 2; 2; 3] Session.placed)
    as (msg & _ & Hr & _ & _ & Hmsg).
  - right. right. intros Hnd. apply NoDup_cons in Hnd as [_ Hnd].
    apply NoDup_cons in Hnd as [Hin _]. apply Hin. left.
  - rewrite Hr, Hmsg; [reflexivity | reflexivity |].
    intros x Hx. set_unfold in Hx. lia.
Defined.

Lemma reorder_with_few_handles_witness :
  let st := Session.two_placed in
  let run := reorder_windows Desktop.api [1; 2; 3; 4] st in
  let k := Z.of_nat (successes (trace run)) in
  let failure :=
    {| success := false;
       message := "Only positioned " +:+ Py.str_int k +:+ "/4 windows";
       order := Some [1; 2; 3; 4] |} in
  self (final run) = set_current_order [1; 2; 3; 4] (self st)
  /\ placements (trace run) =
       omap (fun item : Z * Z =>
               hwnd ← window_handles (self st) !! item.2;
               slot ← positions (self st) !! Z.to_nat item.1;
               Some (hwnd, slot)) (Py.enumerate [1; 2; 3; 4])
  /\ (successes (trace run) <= length (placements (trace run)))%nat
  /\ (successes (trace run) <= size (window_handles (self st)))%nat
  /\ outcome run =
       Ok (if k =? 4 then
             {| success := true;
                message := "Successfully reordered to " +:+ Py.str_list [1; 2; 3; 4];
                order := Some [1; 2; 3; 4] |}
           else failure)
  /\ ((size (window_handles (self st)) < 4)%nat -> outcome run = Ok failure).
Proof.
  apply (reorder_with_few_handles Desktop.api [1; 2; 3; 4] Session.two_placed).
  - reflexivity.
  - exact two_placed_configured.
  - intros Hempty. apply (f_equal (fun m : gmap Z Z => m !! 1)) in Hempty.
    vm_compute in Hempty. discriminate Hempty.
Defined.

(** The placements that succeeded, counted on the trace: three of four
    after the Client 3 window was closed, two of two with two windows up,
    four of four when all are there; and on a desktop that does not move
    its windows only the one whose slot is the origin, where the windows
    already are, while the detection still returns [True]. *)
Example successes_counted :
  successes (trace (reorder_windows Desktop.api [1; 2; 3; 4] Session.client3_closed)) = 3%nat
  /\ successes (trace (reorder_windows Desktop.api [1; 2; 3; 4] Session.two_placed)) = 2%nat
  /\ successes (trace (reorder_windows Desktop.api [2; 1; 3; 4] Session.placed)) = 4%nat
  /\ (let run := wait_and_position Desktop.api 10 120000 500 Session.stuck in
      outcome run = Ok (Some true)
      /\ length (placements (trace run)) = 4%nat
      /\ successes (trace run) = 1%nat).
Proof. by vm_compute. Qed.

(** With the Server and Client 1 stored, both placed: still a failure. *)
Example reorder_two_of_four :
  outcome (reorder_windows Desktop.api [1; 2; 3; 4] Session.two_placed)
  = Ok {| success := false;
          message := "Only positioned 2/4 windows";
          order := Some [1; 2; 3; 4] |}
  /\ placements (trace (reorder_windows Desktop.api [1; 2; 3; 4] Session.two_placed))
     = [(101, (0, 0, 480, 800)); (102, (480, 0, 480, 800))].
Proof. by vm_compute. Qed.

(** ** The stored handles *)

(** C6, as stated, fails: after the Client 3 window was closed,
    [manual_position] stores the three windows that are left, and the
    handle that was stored for Client 3 is gone. *)
Lemma manual_position_drops_closed_window :
  ~ entry_survives Desktop.api ManualPosition Session.client3_closed 4.
Proof.
  unfold entry_survives. intros Hsurvives.
  destruct Hsurvives as [hwnd Hh].
  - exists 104. by vm_compute.
  - vm_compute in Hh. discriminate Hh.
Qed.

Lemma handles_follow_classification_witness :
  (forall windows k,
     window_handles (self (after Desktop.api (PositionAllWindows windows) Session.placed)) !! k =
       if decide (1 <= k <= 4) then
         name ← window_keys (self Session.placed) !! Z.to_nat (k - 1);
         Py.dict_get windows name
       else None)
  /\ (forall c, stores_handles c = false ->
        window_handles (self (after Desktop.api c Session.placed))
        = window_handles (self Session.placed)).
Proof.
  apply (handles_follow_classification Desktop.api Session.placed).
  exact placed_configured.
Defined.

(** ** Waiting for windows that do not come *)

(** C7, as stated, fails: after [manual_position] has stored the handles
    of the two windows that are up, a detection on the same desktop times
    out without a placement, and the status still reports the two windows
    of before, not 0. *)
Lemma detection_after_manual_position :
  ~ times_out_empty Desktop.api 6 2000 500 Session.two_placed.
Proof.
  unfold times_out_empty. intros (_ & _ & Hfound).
  vm_compute in Hfound. discriminate Hfound.
Qed.

Example detection_after_manual_position_run :
  let run := wait_and_position Desktop.api 6 2000 500 Session.two_placed in
  outcome run = Ok (Some false)
  /\ placements (trace run) = []
  /\ outcome (find_unreal_windows Desktop.api (final run))
     = Ok [("Server", 101); ("Client 1", 102)]%string
  /\ status_windows_found (final run) = Some 2%nat.
Proof. by vm_compute. Qed.

Lemma desktop_waits :
  waiting_desktop Desktop.api Desktop.clock
    (fun w => Desktop.windows w = Desktop.two_windows).
Proof.
  split.
  - done.
  - intros w w' Hstep. destruct Hstep; cbn; lia.
  - intros ms w. cbn. lia.
  - intros w w' Hstep. by destruct Hstep.
  - intros me [c ws ob] windows Hws. cbn in Hws. subst ws.
    vm_compute. intros [= <-]. cbn. lia.
Qed.

Lemma detection_times_out_witness :
  (forall n,
     let run := wait_and_position Desktop.api n 120000 500 Session.two_up in
     outcome run <> Ok (Some true)
     /\ Forall (fun e => is_read_only e = true) (trace run)
     /\ self (final run) = self Session.two_up)
  /\ let run := wait_and_position Desktop.api 241 120000 500 Session.two_up in
     outcome run = Ok (Some false)
     /\ self (final run) = self Session.two_up
     /\ Forall (fun e => is_read_only e = true) (trace run)
     /\ placements (trace run) = []
     /\ status_windows_found (final run) = status_windows_found Session.two_up
     /\ (window_handles (self Session.two_up) = ∅ ->
         status_windows_found (final run) = Some 0%nat).
Proof.
  apply (detection_times_out Desktop.api Desktop.clock
           (fun w => Desktop.windows w = Desktop.two_windows) desktop_waits
           240 120000 500 Session.two_up).
  - reflexivity.
  - lia.
  - lia.
Defined.

(** ** The added properties on the desktop *)

(** The title bar of a placed window is clipped to its own rectangle. *)
Example position_window_clips :
  CreateRectRgnEv 0 32 480 800 (Ok 1)
    ∈ trace (position_window Desktop.api 101 480 0 480 800 3 Session.started).
Proof. vm_compute. set_solver. Qed.

(** On a handle that is gone the attempt ends at the first [SetWindowPos]. *)
Lemma position_attempt_escape_witness :
  exists tr ev,
    trace (position_attempt Desktop.api 999 0 0 480 800 Session.started) = tr ++ [ev]
    /\ raised_by ev "Invalid window handle".
Proof.
  apply (position_attempt_escape Desktop.api 999 0 0 480 800 Session.started).
  vm_compute. reflexivity.
Defined.

Lemma position_window_first_attempt_witness :
  position_window Desktop.api 101 480 0 480 800 3 Session.started
  = (final (position_attempt Desktop.api 101 480 0 480 800 Session.started),
     PositionWindowEv 101 480 0 480 800 3
       :: trace (position_attempt Desktop.api 101 480 0 480 800 Session.started),
     Ok true).
Proof.
  apply (position_window_first_attempt Desktop.api 101 480 0 480 800 3 Session.started 480 0).
  - lia.
  - vm_compute. reflexivity.
  - simpl. lia.
  - simpl. lia.
Defined.

Lemma position_window_no_retries_witness :
  position_window Desktop.api 101 480 0 480 800 0 Session.started
  = (Session.started, [PositionWindowEv 101 480 0 480 800 0], Ok false).
Proof.
  apply (position_window_no_retries Desktop.api 101 480 0 480 800 0 Session.started).
  lia.
Defined.


Lemma two_up_configured : configured (self Session.two_up).
Proof. by vm_compute. Qed.

Lemma position_all_windows_counts_witness :
  let windows := [("Server", 101); ("Client 1", 102)]%string in
  let st := Session.two_up in
  let run := position_all_windows Desktop.api windows st in
  placements (trace run)
    = omap (assignment (self st) windows) (Py.enumerate (current_order (self st)))
  /\ (length (placements (trace run)) <= 4)%nat
  /\ current_order (self (final run)) = current_order (self st)
  /\ exists n, outcome run = Ok n
       /\ 0 <= n <= Z.of_nat (length (placements (trace run))).
Proof.
  apply (position_all_windows_counts Desktop.api
           [("Server", 101); ("Client 1", 102)]%string Session.two_up).
  - exact two_up_configured.
  - reflexivity.
Defined.

Lemma default_order_layout_witness :
  placements
    (trace (position_all_windows Desktop.api
              [("Server", 101); ("Client 1", 102); ("Client 2", 103); ("Client 3", 104)]%string
              (State (init true true) (world Session.started))))
  = [(104, (0, 0, 480, 800)); (102, (480, 0, 480, 800));
     (103, (960, 0, 480, 800)); (101, (1440, 0, 480, 800))].
Proof.
  apply (default_order_layout Desktop.api true true (world Session.started)
           [("Server", 101); ("Client 1", 102); ("Client 2", 103); ("Client 3", 104)]%string
           101 102 103 104); reflexivity.
Defined.


Lemma desktop_ticks : ticking_clock Desktop.api Desktop.clock.
Proof.
  split.
  - done.
  - intros w w' Hstep. destruct Hstep; cbn; lia.
  - intros ms w. cbn. lia.
Qed.

Lemma wait_and_position_ends_witness :
  outcome (wait_and_position Desktop.api 241 120000 500 Session.two_up) <> Ok None.
Proof.
  apply (wait_and_position_ends Desktop.api Desktop.clock desktop_ticks
           240 120000 500 Session.two_up).
  - lia.
  - lia.
Defined.


Lemma reorder_request_answers_witness :
  let data := Some [2; 1; 3; 4] in
  let st := Session.placed in
  let run := reorder Desktop.api data st in
  exists r code, outcome run = Ok (r, code)
    /\ (code = 200 /\ success r = true \/ code = 400 /\ success r = false)
    /\ (order r = None -> final run = st /\ trace run = [])
    /\ (forall o, order r = Some o ->
          data = Some o /\ valid_order o = true
          /\ self (final run) = set_current_order o (self st))
    /\ (data = None -> message r = "Missing 'order' field in JSON body"%string).
Proof.
  apply (reorder_request_answers Desktop.api (Some [2; 1; 3; 4]) Session.placed).
  exact placed_configured.
Defined.

Lemma reorder_request_before_detection_witness :
  exists msg,
    reorder Desktop.api (Some [2; 1; 3; 4]) Session.started
    = (Session.started, [],
       Ok ({| success := false; message := msg; order := None |}, 400)).
Proof.
  apply (reorder_request_before_detection Desktop.api (Some [2; 1; 3; 4]) Session.started).
  reflexivity.
Defined.

Lemma placed_reachable : reachable Desktop.api (self Session.placed).
Proof.
  apply (reachable_after Desktop.api (init true true) (WaitAndPosition 10 120000 500)
           (world Session.started)).
  apply reachable_init.
Qed.

Lemma handles_within_roles_witness :
  (forall k, is_Some (window_handles (self Session.placed) !! k) -> 1 <= k <= 4)
  /\ (size (window_handles (self Session.placed)) <= 4)%nat
  /\ configured (self Session.placed).
Proof.
  apply (handles_within_roles Desktop.api (self Session.placed)).
  exact placed_reachable.
Defined.

Lemma status_request_answers_witness :
  exists s,
    status (State (self Session.placed) (world Session.placed))
    = (State (self Session.placed) (world Session.placed),
       [LockAcquireEv; LockReleaseEv], Ok (inl s, 200))
    /\ (windows_found s <= 4)%nat
    /\ status_current_order s ≡ₚ [1; 2; 3; 4]
    /\ window_mapping s = [("1", "Server"); ("2", "Client 1");
                           ("3", "Client 2"); ("4", "Client 3")]%string.
Proof.
  apply (status_request_answers Desktop.api (self Session.placed) (world Session.placed)).
  exact placed_reachable.
Defined.

Lemma reorder_after_pass_witness :
  let windows := [("Server", 101); ("Client 1", 102)]%string in
  let st1 := State (self (final (position_all_windows Desktop.api windows Session.two_up)))
                   (world Session.two_up) in
  placements (trace (reorder_windows Desktop.api [2; 1; 3; 4] st1))
  = omap (assignment (self Session.two_up) windows) (Py.enumerate [2; 1; 3; 4]).
Proof.
  apply (reorder_after_pass Desktop.api [("Server", 101); ("Client 1", 102)]%string
           [2; 1; 3; 4] Session.two_up (world Session.two_up)).
  - exact two_up_configured.
  - apply perm_swap.
Defined.

Lemma reorder_success_verified_witness :
  let tr := trace (reorder_windows Desktop.api [2; 1; 3; 4] Session.placed) in
  length (placements tr) = 4%nat
  /\ Forall (fun pl : Z * rect =>
               exists e, e ∈ tr /\ read_back_within pl.1 pl.2.1.1.1 pl.2.1.1.2 e)
            (placements tr).
Proof.
  apply (reorder_success_verified Desktop.api [2; 1; 3; 4] Session.placed
           {| success := true;
              message := "Successfully reordered to [2, 1, 3, 4]";
              order := Some [2; 1; 3; 4] |}).
  - exact placed_configured.
  - vm_compute. reflexivity.
  - reflexivity.
Defined.
